(** * Lifecycle events and rate-limited journald logging of the daemon

    A shallow embedding of three Go sources:
    - the rate limiter of package [journald] ([rateLimit], [Check],
      [Suppressed]);
    - [daemon/logger/journald/journald.go]: the journald log driver
      ([newRateLimit], [New], [validateLogOpt], [Log],
      [sendSuppressedMessage], [Name]);
    - [daemon/monitor.go]: the container state handler ([StateChanged]).

    Go values are embedded as follows.  An [int] is a [Z] kept in the
    64-bit two's-complement range by [int_wrap] wherever the code does
    arithmetic on it.  A [time.Time] is the number of nanoseconds since the
    zero Time, a [time.Duration] a number of nanoseconds.  A Go string is a
    [string] (a list of bytes).  A [map[string]string] is a
    [gmap string string].  Pointers to containers and to log drivers are
    keys into finite maps held by the daemon state, so that two references
    to one object see the same updates. *)

From Stdlib Require Import ZArith String Ascii List Lia Bool.
From stdpp Require Import base gmap strings list fin_maps pretty.

Open Scope Z_scope.

(** ** Go's [int] on a 64-bit platform *)

Definition int_wrap (z : Z) : Z := (z + 2 ^ 63) mod 2 ^ 64 - 2 ^ 63.

Definition int_range (z : Z) : Prop := - 2 ^ 63 <= z < 2 ^ 63.

(** ** The rate limiter (package journald) *)

Module RateLimit.

(** [type rateLimit struct].  [begin] is the beginning of the current
    interval, [num] the number of messages allowed in it and [suppressed]
    the number of messages suppressed in it. *)
Record rateLimit : Type := mkRateLimit {
  Burst : Z;
  Interval : Z;
  begin : Z;
  num : Z;
  suppressed : Z
}.

(** [time.Second], in nanoseconds. *)
Definition Second : Z := 1000000000.

(** [time.Time] operations used by [Check]. *)
Definition IsZero (t : Z) : bool := t =? 0.
Definition Add (t d : Z) : Z := t + d.
Definition Before (t u : Z) : bool := t <? u.

(** The value [&rateLimit{Burst: burst, Interval: interval}]: every other
    field has Go's zero value. *)
Definition fresh (burst interval : Z) : rateLimit :=
  {| Burst := burst; Interval := interval; begin := 0; num := 0; suppressed := 0 |}.

(** The three ways [Check] writes to its receiver. *)
Definition start_interval (now : Z) (r : rateLimit) : rateLimit :=
  {| Burst := Burst r; Interval := Interval r;
     begin := now; num := 1; suppressed := 0 |}.

Definition count_allowed (r : rateLimit) : rateLimit :=
  {| Burst := Burst r; Interval := Interval r;
     begin := begin r; num := int_wrap (num r + 1); suppressed := suppressed r |}.

Definition count_suppressed (r : rateLimit) : rateLimit :=
  {| Burst := Burst r; Interval := Interval r;
     begin := begin r; num := num r; suppressed := int_wrap (suppressed r + 1) |}.

(** [func (r *rateLimit) Check() (bool, int)], with the reading of
    [time.Now()] passed in as [now].  The result pairs the two returned
    values with the receiver after the call. *)
Definition Check (now : Z) (r : rateLimit) : (bool * Z) * rateLimit :=
  if IsZero (begin r) then
    ((true, 0), start_interval now r)
  else if Before (Add (begin r) (Interval r)) now then
    ((true, suppressed r), start_interval now r)
  else if num r <? Burst r then
    ((true, 0), count_allowed r)
  else
    ((false, 0), count_suppressed r).

(** [func (r *rateLimit) Suppressed() int] *)
Definition Suppressed (r : rateLimit) : Z := suppressed r.

(** One record per call of [Check] in a run: the clock reading, the
    receiver before, what was returned, and the receiver after. *)
Record call : Type := mkCall {
  c_now : Z;
  c_pre : rateLimit;
  c_admitted : bool;
  c_reported : Z;
  c_post : rateLimit
}.

Definition call_at (now : Z) (r : rateLimit) : call :=
  let '((a, s), r') := Check now r in
  {| c_now := now; c_pre := r; c_admitted := a; c_reported := s; c_post := r' |}.

(** The calls made on one limiter at the successive clock readings
    [nows]. *)
Fixpoint calls (r : rateLimit) (nows : list Z) : list call :=
  match nows with
  | [] => []
  | now :: rest => call_at now r :: calls (snd (Check now r)) rest
  end.

(** The limiter after those calls. *)
Definition after (r : rateLimit) (nows : list Z) : rateLimit :=
  fold_left (fun r now => snd (Check now r)) nows r.

(** A limiter with Burst=1 and Interval=10ns that began its interval at
    5ns and has since suppressed three messages. *)
Definition saturated : rateLimit := after (fresh 1 10) [5; 6; 7; 8].

(** The call left the previous tracked interval and started a new one at
    its own clock reading. *)
Definition starts_new_interval (c : call) : Prop :=
  IsZero (begin (c_pre c)) = false /\
  begin (c_pre c) + Interval (c_pre c) < c_now c /\
  c_post c = start_interval (c_now c) (c_pre c).

Definition total_reported (cs : list call) : Z :=
  fold_right (fun c acc => c_reported c + acc) 0 cs.

Definition rejected (cs : list call) : Z :=
  fold_right (fun c acc => (if c_admitted c then 0 else 1) + acc) 0 cs.

(** The counters of a limiter whose interval has begun: at least the
    message that began it is counted, never more than the burst allows
    (or that one message), and messages are suppressed only once the
    burst is used up. *)
Definition counting (r : rateLimit) : Prop :=
  1 <= num r <= Z.max 1 (Burst r) /\
  0 <= suppressed r /\
  (0 < suppressed r -> Burst r <= num r).

(** A limiter whose interval has not begun has nothing suppressed. *)
Definition idle_clean (r : rateLimit) : Prop :=
  IsZero (begin r) = true -> suppressed r = 0.

End RateLimit.

(** ** Results, panics and a state monad *)

(** Go's [error] values are compared and printed only: a message. *)
Definition error : Type := string.

(** A Go result pair [(value, err)]. *)
Inductive res (A : Type) : Type :=
| ok (a : A)
| fail (e : error).
Arguments ok {A} a.
Arguments fail {A} e.

(** A call either returns or panics at run time. *)
Inductive outcome (A : Type) : Type :=
| Returned (a : A)
| Panicked (why : string).
Arguments Returned {A} a.
Arguments Panicked {A} why.

(** Computations over a mutable store [St]; the store survives a panic. *)
Definition M (St A : Type) : Type := St -> outcome A * St.

Definition ret {St A} (a : A) : M St A := fun s => (Returned a, s).

Definition bind {St A B} (m : M St A) (k : A -> M St B) : M St B :=
  fun s =>
    match m s with
    | (Returned a, s') => k a s'
    | (Panicked why, s') => (Panicked why, s')
    end.

Definition panic {St A} (why : string) : M St A := fun s => (Panicked why, s).

Definition get {St} : M St St := fun s => (Returned s, s).

Definition modify {St} (f : St -> St) : M St unit := fun s => (Returned tt, f s).

(** [defer f] at the head of a body: [f] runs when the body is left, by a
    return or by a panic. *)
Definition defer {St A} (f : St -> St) (body : M St A) : M St A :=
  fun s => let '(r, s') := body s in (r, f s').

Declare Scope go_scope.
Delimit Scope go_scope with go.
Notation "'do' x <- m ; k" := (bind m (fun x => k))
  (at level 10, x name, m at level 100, k at level 200) : go_scope.
Notation "'do' ' pat <- m ; k" :=
  (bind m (fun x => match x with pat => k end))
  (at level 10, pat pattern, m at level 100, k at level 200) : go_scope.
Notation "'run' m ; k" := (bind m (fun _ => k))
  (at level 10, m at level 100, k at level 200) : go_scope.
Open Scope go_scope.

(** ** Formatting *)

Definition quote : string := String "034"%char EmptyString.

(** A text between double quotes, as the keys and the type names are in
    the format strings of the source. *)
Definition quoted (s : string) : string := quote +:+ s +:+ quote.

(** [%v] of a bool. *)
Definition fmt_bool (b : bool) : string := if b then "true" else "false".

(** [%d] of an integer, and [strconv.Itoa]. *)
Definition fmt_int (z : Z) : string := pretty z.
Definition Itoa (z : Z) : string := pretty z.

(** ** Log messages (logger.Message) and the logger interface *)

Record Message : Type := mkMessage {
  Line : string;
  Source : string
}.

(** [logger.Logger], for a driver kept in a value of [D] and acting on an
    outside world [W]. *)
Class Logger (D W : Type) : Type := {
  logger_Log : Message -> D -> M W (option error * D);
  logger_Name : D -> string
}.

(** ** The journald log driver (journald.go) *)

Module Journald.
Import RateLimit.

(** [const name = "journald"] *)
Definition name : string := "journald".

(** The priorities of go-systemd's [journal] package. *)
Inductive Priority : Type :=
| PriEmerg | PriAlert | PriCrit | PriErr
| PriWarning | PriNotice | PriInfo | PriDebug.

(** One call [journal.Send(message, priority, vars)]. *)
Record Entry : Type := mkEntry {
  e_message : string;
  e_priority : Priority;
  e_vars : gmap string string
}.

(** What the driver touches outside itself: whether the journal is
    available ([journal.Enabled()]), the wall clock ([time.Now()], whose
    [k]-th reading is [clock k]), the journal socket ([journal.Send], whose
    [k]-th call returns [send_result k]) and the daemon's own diagnostic
    log ([logrus.Errorf]). *)
Record Host : Type := mkHost {
  journal_enabled : bool;
  clock : nat -> Z;
  clock_reads : nat;
  send_result : nat -> option error;
  sends : list Entry;
  logrus : list string
}.

(** The entries whose [journal.Send] returned no error. *)
Fixpoint delivered_from (k : nat) (result : nat -> option error)
    (es : list Entry) : list Entry :=
  match es with
  | [] => []
  | e :: rest =>
      match result k with
      | None => e :: delivered_from (S k) result rest
      | Some _ => delivered_from (S k) result rest
      end
  end.

Definition delivered (h : Host) : list Entry :=
  delivered_from 0 (send_result h) (sends h).

(** The host after one more clock reading, one more entry handed to the
    journal, one more line in the diagnostic log. *)
Definition tick (h : Host) : Host :=
  {| journal_enabled := journal_enabled h; clock := clock h;
     clock_reads := S (clock_reads h);
     send_result := send_result h; sends := sends h; logrus := logrus h |}.

Definition push_send (e : Entry) (h : Host) : Host :=
  {| journal_enabled := journal_enabled h; clock := clock h;
     clock_reads := clock_reads h;
     send_result := send_result h; sends := sends h ++ [e];
     logrus := logrus h |}.

Definition push_logrus (text : string) (h : Host) : Host :=
  {| journal_enabled := journal_enabled h; clock := clock h;
     clock_reads := clock_reads h;
     send_result := send_result h; sends := sends h;
     logrus := logrus h ++ [text] |}.

(** [time.Now()] *)
Definition Now : M Host Z :=
  fun h => (Returned (clock h (clock_reads h)), tick h).

(** [journal.Send] *)
Definition Send (message : string) (p : Priority) (vs : gmap string string)
    : M Host (option error) :=
  fun h => (Returned (send_result h (length (sends h))),
            push_send (mkEntry message p vs) h).

(** [logrus.Errorf], with the text already formatted. *)
Definition Errorf (text : string) : M Host unit := modify (push_logrus text).

(** [type journald struct].  The limiter behind the [rateLimit] pointer is
    owned by the driver alone and is kept by value; [None] is the nil
    pointer.  [readers] is the set of attached log watchers. *)
Record journald : Type := mkJournald {
  vars : gmap string string;
  eVars : gmap string string;
  readers : gset nat;
  rateLimit : option RateLimit.rateLimit
}.

Definition set_rateLimit (r : option RateLimit.rateLimit) (s : journald) : journald :=
  {| vars := vars s; eVars := eVars s; readers := readers s; rateLimit := r |}.

(** The fields of [logger.Context] that the constructor and its helpers
    read. *)
Record Context : Type := mkContext {
  Config : gmap string string;
  ContainerID : string;
  ContainerName : string;
  ContainerEnv : list string;
  ContainerLabels : gmap string string
}.

Definition burstKey : string := "com.meteor.galaxy.log-burst".
Definition intervalKey : string := "com.meteor.galaxy.log-interval".

Section Driver.

(** Go's [strconv.Atoi] and [time.ParseDuration]. *)
Variable Atoi : string -> res Z.
Variable ParseDuration : string -> res Z.

(** [loggerutils.ParseLogTag], [logger.Context.ExtraAttributes] and
    [strings.ToTitle]. *)
Variable ParseLogTag : Context -> string -> res string.
Variable ExtraAttributes : Context -> (string -> string) -> gmap string string.
Variable ToTitle : string -> string.

(** [func newRateLimit(labels map[string]string) *rateLimit] *)
Definition newRateLimit (labels : gmap string string)
    : M Host (option RateLimit.rateLimit) :=
  let burstLabel := default "" (labels !! burstKey) in
  let burstExists := bool_decide (is_Some (labels !! burstKey)) in
  let intervalLabel := default "" (labels !! intervalKey) in
  let intervalExists := bool_decide (is_Some (labels !! intervalKey)) in
  if negb burstExists && negb intervalExists then ret None
  else if negb burstExists || negb intervalExists then
    run Errorf ("only one com.meteor.galaxy.log-* label exists: "
                +:+ fmt_bool burstExists +:+ " " +:+ fmt_bool intervalExists);
    ret None
  else
    match Atoi burstLabel with
    | fail err =>
        run Errorf ("Couldn't parse com.meteor.galaxy.log-burst '"
                    +:+ burstLabel +:+ "': " +:+ err);
        ret None
    | ok burst =>
        match ParseDuration intervalLabel with
        | fail err =>
            run Errorf ("Couldn't parse com.meteor.galaxy.log-interval '"
                        +:+ intervalLabel +:+ "': " +:+ err);
            ret None
        | ok interval => ret (Some (fresh burst interval))
        end
    end.

(** Both labels are there and both parse. *)
Definition labels_select (labels : gmap string string) (burst interval : Z) : Prop :=
  exists b i,
    labels !! burstKey = Some b /\ labels !! intervalKey = Some i /\
    Atoi b = ok burst /\ ParseDuration i = ok interval.

(** [name[0]] and [name[1:]]: the leading slash is stripped; indexing an
    empty string panics. *)
Definition strip_leading_slash (n : string) : M Host string :=
  match n with
  | EmptyString => panic "index out of range"
  | String c rest => ret (if Ascii.eqb c "/" then rest else n)
  end.

(** [s[:k]]: slicing past the end panics. *)
Definition slice_to (k : nat) (s : string) : M Host string :=
  if (k <=? String.length s)%nat then ret (substring 0 k s)
  else panic "slice bounds out of range".

(** [func New(ctx logger.Context) (logger.Logger, error)] *)
Definition New (ctx : Context) : M Host (res journald) :=
  do h <- get;
  if negb (journal_enabled h) then
    ret (fail "journald is not enabled on this host")
  else
    do name <- strip_leading_slash (ContainerName ctx);
    match ParseLogTag ctx "" with
    | fail err => ret (fail err)
    | ok tag =>
        do short <- slice_to 12 (ContainerID ctx);
        let base : gmap string string :=
          <["CONTAINER_ID" := short]>
          (<["CONTAINER_ID_FULL" := ContainerID ctx]>
          (<["CONTAINER_NAME" := name]>
          (<["CONTAINER_TAG" := tag]> ∅))) in
        let extraAttrs := ExtraAttributes ctx ToTitle in
        let vars := extraAttrs ∪ base in
        let eVars := vars ∪ {["DOCKER_EVENT" := "true"]} in
        do limiter <- newRateLimit (ContainerLabels ctx);
        ret (ok {| vars := vars; eVars := eVars; readers := ∅;
                   rateLimit := limiter |})
    end.

End Driver.

(** [func validateLogOpt(cfg map[string]string) error].  Go visits the
    keys in no fixed order; [map_to_list] fixes one. *)
Definition known_opt (key : string) : bool :=
  String.eqb key "labels" || String.eqb key "env" || String.eqb key "tag".

Definition validateLogOpt (cfg : gmap string string) : option error :=
  match filter (fun kv => negb (known_opt (fst kv))) (map_to_list cfg) with
  | [] => None
  | (key, _) :: _ =>
      Some ("unknown log opt '" +:+ key +:+ "' for journald log driver")
  end.

(** [func (s *journald) sendSuppressedMessage(suppressed int) error] *)
Definition sendSuppressedMessage (s : journald) (suppressed : Z)
    : M Host (option error) :=
  let suppressedMessage :=
    "{" +:+ quoted "type" +:+ ":" +:+ quoted "dropped" +:+ ","
        +:+ quoted "lines" +:+ ":" +:+ fmt_int suppressed +:+ "}" in
  Send suppressedMessage PriWarning (eVars s).

(** The last three lines of [Log]: stderr at [PriErr], anything else at
    [PriInfo], both with the plain metadata. *)
Definition forward (msg : Message) (s : journald) : M Host (option error) :=
  if String.eqb (Source msg) "stderr" then Send (Line msg) PriErr (vars s)
  else Send (Line msg) PriInfo (vars s).

(** [func (s *journald) Log(msg *logger.Message) error].  The result pairs
    the returned error with the receiver after the call. *)
Definition Log (msg : Message) (s : journald) : M Host (option error * journald) :=
  if String.eqb (Source msg) "event" then
    do err <- Send (Line msg) PriWarning (eVars s);
    ret (err, s)
  else
    match rateLimit s with
    | Some r =>
        do now <- Now;
        let '((allowed, suppressed), r') := Check now r in
        let s' := set_rateLimit (Some r') s in
        if negb allowed then ret (None, s')
        else
          run (if 0 <? suppressed then
                 do err <- sendSuppressedMessage s' suppressed;
                 match err with
                 | Some e => Errorf ("Couldn't send suppressed message: " +:+ e)
                 | None => ret tt
                 end
               else ret tt);
          do err <- forward msg s';
          ret (err, s')
    | None =>
        do err <- forward msg s;
        ret (err, s)
    end.

(** Successive calls of [Log] on one driver. *)
Fixpoint Logs (msgs : list Message) (s : journald) : M Host (list (option error) * journald) :=
  match msgs with
  | [] => ret ([], s)
  | msg :: rest =>
      do '(err, s') <- Log msg s;
      do '(errs, s'') <- Logs rest s';
      ret (err :: errs, s'')
  end.

(** The two kinds of entry that [Log] makes of a message from the
    container: the notice of [n] suppressed lines, and the message
    itself. *)
Definition dropped_message (n : Z) : string :=
  "{" +:+ quoted "type" +:+ ":" +:+ quoted "dropped" +:+ ","
      +:+ quoted "lines" +:+ ":" +:+ fmt_int n +:+ "}".

Definition dropped_entry (s : journald) (n : Z) : Entry :=
  mkEntry (dropped_message n) PriWarning (eVars s).

Definition regular_entry (s : journald) (msg : Message) : Entry :=
  mkEntry (Line msg)
    (if String.eqb (Source msg) "stderr" then PriErr else PriInfo) (vars s).

(** What the journal is handed for a message on which the limiter
    answered as in the call [c]. *)
Definition entries_for (s : journald) (msg : Message) (c : RateLimit.call)
    : list Entry :=
  if c_admitted c then
    (if 0 <? c_reported c then [dropped_entry s (c_reported c)] else [])
    ++ [regular_entry s msg]
  else [].

(** The notices among the entries of a journal are the only entries at
    [PriWarning] that [Log] makes of a message from the container. *)
Definition is_notice (e : Entry) : bool :=
  match e_priority e with
  | PriWarning => true
  | _ => false
  end.

Definition sum_counts (counts : list Z) : Z :=
  fold_right Z.add 0 counts.

(** The metadata that [New] computes before the extra attributes are
    folded in. *)
Definition base_vars (short id name tag : string) : gmap string string :=
  <["CONTAINER_ID" := short]>
  (<["CONTAINER_ID_FULL" := id]>
  (<["CONTAINER_NAME" := name]>
  (<["CONTAINER_TAG" := tag]> ∅))).

(** The next [n] readings of the host's clock. *)
Definition readings (h : Host) (n : nat) : list Z :=
  map (fun k => clock h (clock_reads h + k)%nat) (seq 0 n).

(** The host after [n] more clock readings, [es] more entries handed to
    the journal and [lines] more lines in the diagnostic log. *)
Definition advance (n : nat) (es : list Entry) (lines : list string) (h : Host) : Host :=
  {| journal_enabled := journal_enabled h; clock := clock h;
     clock_reads := (clock_reads h + n)%nat;
     send_result := send_result h; sends := sends h ++ es;
     logrus := logrus h ++ lines |}.

(** [func (s *journald) Name() string] *)
Definition Name (s : journald) : string := name.

#[export] Instance journald_Logger : Logger journald Host :=
  {| logger_Log := Log; logger_Name := Name |}.

End Journald.

(** ** The journald log driver before rate limiting (journald.go, earlier
    revision) *)

Module JournaldV0.
Import Journald.

(** [type journald struct], without a limiter. *)
Record journald : Type := mkJournald {
  vars : gmap string string;
  eVars : gmap string string;
  readers : gset nat
}.

Section Driver.

Variable ParseLogTag : Context -> string -> res string.
Variable ExtraAttributes : Context -> (string -> string) -> gmap string string.
Variable ToTitle : string -> string.

(** [func New(ctx logger.Context) (logger.Logger, error)] *)
Definition New (ctx : Context) : M Host (res journald) :=
  do h <- get;
  if negb (journal_enabled h) then
    ret (fail "journald is not enabled on this host")
  else
    do name <- strip_leading_slash (ContainerName ctx);
    match ParseLogTag ctx "" with
    | fail err => ret (fail err)
    | ok tag =>
        do short <- slice_to 12 (ContainerID ctx);
        let base : gmap string string :=
          <["CONTAINER_ID" := short]>
          (<["CONTAINER_ID_FULL" := ContainerID ctx]>
          (<["CONTAINER_NAME" := name]>
          (<["CONTAINER_TAG" := tag]> ∅))) in
        let extraAttrs := ExtraAttributes ctx ToTitle in
        let vars := extraAttrs ∪ base in
        let eVars := vars ∪ {["DOCKER_EVENT" := "true"]} in
        ret (ok {| vars := vars; eVars := eVars; readers := ∅ |})
    end.

End Driver.

(** [func (s *journald) Log(msg *logger.Message) error] *)
Definition Log (msg : Message) (s : journald) : M Host (option error) :=
  if String.eqb (Source msg) "event" then
    Send (Line msg) PriWarning (eVars s)
  else if String.eqb (Source msg) "stderr" then
    Send (Line msg) PriErr (vars s)
  else
    Send (Line msg) PriInfo (vars s).

(** [func (s *journald) Name() string] *)
Definition Name (s : journald) : string := Journald.name.

(** A driver of the later revision, less its limiter. *)
Definition forget (s : Journald.journald) : journald :=
  {| vars := Journald.vars s; eVars := Journald.eVars s;
     readers := Journald.readers s |}.

End JournaldV0.

(** ** State notifications (libcontainerd) *)

Module libcontainerd.

(** The state constants that [StateChanged] switches on; [StateOther] is
    any other value of the [State] field. *)
Inductive State : Type :=
| StateStart | StatePause | StateResume | StateExit | StateRestart
| StateRestore | StateExitProcess | StateOOM
| StateOther (code : Z).

Definition State_eqb (a b : State) : bool :=
  match a, b with
  | StateStart, StateStart | StatePause, StatePause
  | StateResume, StateResume | StateExit, StateExit
  | StateRestart, StateRestart | StateRestore, StateRestore
  | StateExitProcess, StateExitProcess | StateOOM, StateOOM => true
  | StateOther x, StateOther y => x =? y
  | _, _ => false
  end.

(** [libcontainerd.StateInfo]; [Pid] and [ExitCode] are [uint32]. *)
Record StateInfo : Type := mkStateInfo {
  State_ : State;
  Pid : N;
  ExitCode : N;
  ProcessID : string;
  OOMKilled : bool
}.

End libcontainerd.

(** The conversion [int(x)] of a [uint32]. *)
Definition int_of_uint32 (n : N) : Z := int_wrap (Z.of_N n).

(** ** Exec commands and containers *)

Module exec.

(** [exec.Config]: [ExitCode] is a pointer, nil until the exit is seen. *)
Record Config : Type := mkConfig {
  ID : string;
  Running : bool;
  ExitCode : option Z
}.

End exec.

Module container.

(** [container.ExitStatus] *)
Record ExitStatus : Type := mkExitStatus {
  ExitCode : Z;
  OOMKilled : bool
}.

(** The phase recorded by [SetRunning], [SetStopped] and
    [SetRestarting]. *)
Inductive Phase : Type :=
| Created
| Running (pid : Z) (initial : bool)
| Stopped (status : ExitStatus)
| Restarting (status : ExitStatus).

(** [container.Container].  [LogDriver] is a nullable reference to a
    driver kept by the daemon; [ExecCommands] maps an exec id to a
    reference to its [exec.Config]. *)
Record Container : Type := mkContainer {
  ID : string;
  phase : Phase;
  RestartCount : Z;
  Paused : bool;
  HasBeenManuallyStopped : bool;
  LogDriver : option nat;
  ExecCommands : gmap string nat
}.

Definition set_phase (p : Phase) (c : Container) : Container :=
  {| ID := ID c; phase := p; RestartCount := RestartCount c;
     Paused := Paused c; HasBeenManuallyStopped := HasBeenManuallyStopped c;
     LogDriver := LogDriver c; ExecCommands := ExecCommands c |}.

Definition set_RestartCount (n : Z) (c : Container) : Container :=
  {| ID := ID c; phase := phase c; RestartCount := n;
     Paused := Paused c; HasBeenManuallyStopped := HasBeenManuallyStopped c;
     LogDriver := LogDriver c; ExecCommands := ExecCommands c |}.

Definition set_Paused (b : bool) (c : Container) : Container :=
  {| ID := ID c; phase := phase c; RestartCount := RestartCount c;
     Paused := b; HasBeenManuallyStopped := HasBeenManuallyStopped c;
     LogDriver := LogDriver c; ExecCommands := ExecCommands c |}.

Definition set_HasBeenManuallyStopped (b : bool) (c : Container) : Container :=
  {| ID := ID c; phase := phase c; RestartCount := RestartCount c;
     Paused := Paused c; HasBeenManuallyStopped := b;
     LogDriver := LogDriver c; ExecCommands := ExecCommands c |}.

Definition set_LogDriver (l : option nat) (c : Container) : Container :=
  {| ID := ID c; phase := phase c; RestartCount := RestartCount c;
     Paused := Paused c; HasBeenManuallyStopped := HasBeenManuallyStopped c;
     LogDriver := l; ExecCommands := ExecCommands c |}.

Definition set_ExecCommands (m : gmap string nat) (c : Container) : Container :=
  {| ID := ID c; phase := phase c; RestartCount := RestartCount c;
     Paused := Paused c; HasBeenManuallyStopped := HasBeenManuallyStopped c;
     LogDriver := LogDriver c; ExecCommands := m |}.

End container.

(** ** The container state handler (monitor.go) *)

Module Daemon.
Import libcontainerd.
Import container.

(** Arguments of a [logrus] call. *)
Inductive Arg : Type :=
| ArgString (s : string)
| ArgError (e : error)
| ArgStateInfo (e : StateInfo).

Inductive Level : Type := ErrorLevel | WarnLevel.

(** What the handler does to its collaborators, in the order it does
    it. *)
Inductive Effect : Type :=
| EvLock (id : string)
| EvUnlock (id : string)
| EvWait (id : string)
| EvReset (id : string) (keepStdin : bool)
| EvLog (ref : nat) (msg : Message) (err : option error)
| EvLogrus (level : Level) (format : string) (args : list Arg)
| EvEvent (id : string) (action : string) (attributes : gmap string string)
| EvCleanup (id : string)
| EvToDisk (snapshot : Container) (err : option error)
| EvExecWait (ref : nat)
| EvExecCloseStreams (ref : nat) (err : option error).

(** The number of locks held after the effects [t] when [n] were held
    before them; [None] when a lock is released that is not held. *)
Fixpoint held (t : list Effect) (n : nat) : option nat :=
  match t with
  | [] => Some n
  | EvLock _ :: t' => held t' (S n)
  | EvUnlock _ :: t' =>
      match n with
      | O => None
      | S m => held t' m
      end
  | _ :: t' => held t' n
  end.

(** The writes to disk among the effects [t]. *)
Definition disk_effects (t : list Effect) : list (Container * option error) :=
  omap (fun ev => match ev with
                  | EvToDisk c err => Some (c, err)
                  | _ => None
                  end) t.

(** The resets of a container's I/O among the effects [t]. *)
Definition resets (t : list Effect) : list (string * bool) :=
  omap (fun ev => match ev with
                  | EvReset id keepStdin => Some (id, keepStdin)
                  | _ => None
                  end) t.

(** The notifications for which the handler takes the container's
    lock. *)
Definition takes_lock (st : State) : bool :=
  match st with
  | StateExit | StateRestart | StateExitProcess => true
  | _ => false
  end.

(** The notifications for which the handler writes the container to
    disk. *)
Definition persists (st : State) : bool :=
  match st with
  | StateExit | StateRestart | StateStart | StateRestore => true
  | _ => false
  end.

Section Handler.

Context {D W : Type} {driver : Logger D W}.

(** [runtime.GOOS] *)
Variable GOOS : string.

(** The daemon and what it reaches: the container registry
    ([daemon.containers]), the exec configurations and the log drivers
    that containers point to, the world the drivers write to, what the
    teardown of a container's I/O does to its log driver and to that world
    ([teardown], see [Reset]), the outcome of the [k]-th write of a
    container to disk ([disk_result k]) and of closing the streams of an
    exec ([close_result]), and the effects so far, oldest first. *)
Record Daemon : Type := mkDaemon {
  containers : gmap string Container;
  execs : gmap nat exec.Config;
  drivers : gmap nat D;
  world : W;
  teardown : string -> D -> W -> D * W;
  disk_result : nat -> option error;
  disk_writes : nat;
  close_result : nat -> option error;
  trace : list Effect
}.

Definition with_containers (m : gmap string Container) (d : Daemon) : Daemon :=
  {| containers := m; execs := execs d; drivers := drivers d;
     world := world d; teardown := teardown d; disk_result := disk_result d;
     disk_writes := disk_writes d; close_result := close_result d;
     trace := trace d |}.

Definition with_execs (m : gmap nat exec.Config) (d : Daemon) : Daemon :=
  {| containers := containers d; execs := m; drivers := drivers d;
     world := world d; teardown := teardown d; disk_result := disk_result d;
     disk_writes := disk_writes d; close_result := close_result d;
     trace := trace d |}.

Definition with_driver (l : nat) (s : D) (w : W) (d : Daemon) : Daemon :=
  {| containers := containers d; execs := execs d;
     drivers := <[l := s]> (drivers d);
     world := w; teardown := teardown d; disk_result := disk_result d;
     disk_writes := disk_writes d; close_result := close_result d;
     trace := trace d |}.

Definition with_world (w : W) (d : Daemon) : Daemon :=
  {| containers := containers d; execs := execs d; drivers := drivers d;
     world := w; teardown := teardown d; disk_result := disk_result d;
     disk_writes := disk_writes d; close_result := close_result d;
     trace := trace d |}.

Definition with_disk_writes (n : nat) (d : Daemon) : Daemon :=
  {| containers := containers d; execs := execs d; drivers := drivers d;
     world := world d; teardown := teardown d; disk_result := disk_result d;
     disk_writes := n; close_result := close_result d;
     trace := trace d |}.

Definition with_trace (t : list Effect) (d : Daemon) : Daemon :=
  {| containers := containers d; execs := execs d; drivers := drivers d;
     world := world d; teardown := teardown d; disk_result := disk_result d;
     disk_writes := disk_writes d; close_result := close_result d;
     trace := t |}.

Definition emit (e : Effect) : M Daemon unit :=
  modify (fun d => with_trace (trace d ++ [e]) d).

(** [daemon.containers.Get(id)]: [None] is the nil pointer. *)
Definition Get (id : string) : M Daemon (option Container) :=
  fun d => (Returned (containers d !! id), d).

(** Reading through the pointer [c], and writing a field through it. *)
Definition deref (id : string) : M Daemon Container :=
  fun d =>
    match containers d !! id with
    | Some c => (Returned c, d)
    | None => (Panicked "nil pointer dereference", d)
    end.

Definition assign (id : string) (f : Container -> Container) : M Daemon unit :=
  modify (fun d => with_containers (alter f id (containers d)) d).

(** Modelled from the spec: [Container.Lock] and [Container.Unlock], the
    container's exclusive lock, missing from the sources at hand; taking
    and releasing it are recorded. *)
Definition Lock (id : string) : M Daemon unit := emit (EvLock id).
Definition Unlock (id : string) (d : Daemon) : Daemon :=
  with_trace (trace d ++ [EvUnlock id]) d.

(** Modelled from the spec: [Container.Wait], missing from the sources at
    hand; it blocks until the completion counter of the stream pump
    reaches zero. *)
Definition Wait (id : string) : M Daemon unit := emit (EvWait id).

(** Modelled from the spec: what [Container.Reset] does to the log driver
    under the reference [l].  By the comment at monitor.go:35-44 it blocks
    until the output streamed so far has been copied into the driver and
    calls [c.LogDriver.Close()], which for journald also prints the final
    suppression message.  What the copying and the closing do to the
    driver and to the world it writes to is not in the sources at hand: it
    is the [teardown] of the daemon, about which nothing is assumed.  The
    driver itself stays where it is, under its reference. *)
Definition detach (id : string) (l : nat) (d : Daemon) : Daemon :=
  match drivers d !! l with
  | Some s =>
      let '(s', w') := teardown d id s (world d) in
      with_driver l s' w' d
  | None => d
  end.

(** Modelled from the spec: [Container.Reset], missing from the sources
    at hand; it tears down the container's I/O, the log driver included
    when the container has one, and sets its LogDriver reference to
    none. *)
Definition Reset (id : string) (keepStdin : bool) : M Daemon unit :=
  run emit (EvReset id keepStdin);
  do c <- Get id;
  run (match c ≫= LogDriver with
       | Some l => modify (detach id l)
       | None => ret tt
       end);
  assign id (set_LogDriver None).

(** Modelled from the spec: [platformConstructExitStatus], missing from
    the sources at hand; the exit status carries the exit code and the
    OOM flag of the notification. *)
Definition platformConstructExitStatus (e : StateInfo) : ExitStatus :=
  {| container.ExitCode := int_of_uint32 (libcontainerd.ExitCode e);
     container.OOMKilled := libcontainerd.OOMKilled e |}.

(** Modelled from the spec: [State.SetStopped], [State.SetRestarting] and
    [State.SetRunning], missing from the sources at hand; they set the
    stopped status with its exit status, the restarting status with its
    exit status, and the running status with the pid and the flag that
    tells a fresh start from a restore. *)
Definition SetStopped (id : string) (status : ExitStatus) : M Daemon unit :=
  assign id (set_phase (Stopped status)).

Definition SetRestarting (id : string) (status : ExitStatus) : M Daemon unit :=
  assign id (set_phase (Restarting status)).

Definition SetRunning (id : string) (pid : Z) (initial : bool) : M Daemon unit :=
  assign id (set_phase (Running pid initial)).

(** Modelled from the spec: [daemon.LogContainerEventWithAttributes] and
    [daemon.LogContainerEvent], missing from the sources at hand; they
    emit a lifecycle event for the container on the event bus. *)
Definition LogContainerEventWithAttributes (id : string) (action : string)
    (attributes : gmap string string) : M Daemon unit :=
  do c <- deref id;
  emit (EvEvent (ID c) action attributes).

Definition LogContainerEvent (id : string) (action : string) : M Daemon unit :=
  LogContainerEventWithAttributes id action ∅.

(** Modelled from the spec: [daemon.Cleanup], missing from the sources at
    hand; the container's cleanup is run. *)
Definition Cleanup (id : string) : M Daemon unit := emit (EvCleanup id).

(** Modelled from the spec: [Container.ToDisk], missing from the sources
    at hand; it serializes the current state of the container to durable
    storage and may fail. *)
Definition ToDisk (id : string) : M Daemon (option error) :=
  do c <- deref id;
  do d <- get;
  let err := disk_result d (disk_writes d) in
  run modify (with_disk_writes (S (disk_writes d)));
  run emit (EvToDisk c err);
  ret err.

(** [logDriver.Log(msg)] through the interface value [ref]; calling a
    method of a nil interface panics. *)
Definition call_Log (ref : option nat) (msg : Message) : M Daemon (option error) :=
  fun d =>
    match ref with
    | None => (Panicked "nil pointer dereference", d)
    | Some l =>
        match drivers d !! l with
        | None => (Panicked "nil pointer dereference", d)
        | Some s =>
            match logger_Log msg s (world d) with
            | (Returned (err, s'), w') =>
                (Returned err,
                 with_trace (trace d ++ [EvLog l msg err]) (with_driver l s' w' d))
            | (Panicked why, w') => (Panicked why, with_world w' d)
            end
        end
    end.

Definition Errorf (format : string) (args : list Arg) : M Daemon unit :=
  emit (EvLogrus ErrorLevel format args).

Definition Warnf (format : string) (args : list Arg) : M Daemon unit :=
  emit (EvLogrus WarnLevel format args).

(** [fmt.Sprintf] of the stop message. *)
Definition stopMessage (e : StateInfo) : string :=
  "{" +:+ quoted "type" +:+ ":" +:+ quoted "stop" +:+ ","
      +:+ quoted "exitCode" +:+ ":" +:+ fmt_int (Z.of_N (libcontainerd.ExitCode e)) +:+ ","
      +:+ quoted "oomKilled" +:+ ":" +:+ fmt_bool (libcontainerd.OOMKilled e) +:+ "}".

(** The attributes of the "die" event. *)
Definition die_attributes (e : StateInfo) : gmap string string :=
  {[ "exitCode" := Itoa (int_of_uint32 (libcontainerd.ExitCode e)) ]}.

(** [case libcontainerd.StateExit:] *)
Definition on_exit (id : string) (e : StateInfo) : M Daemon (option error) :=
  run Lock id;
  defer (Unlock id) (
    run Wait id;
    do c <- deref id;
    let logDriver := LogDriver c in
    run Reset id false;
    do err <- call_Log logDriver {| Line := stopMessage e; Source := "event" |};
    run (match err with
         | Some err =>
             Errorf "Failed to send 'stop' event to logging driver: %v" [ArgError err]
         | None => ret tt
         end);
    run SetStopped id (platformConstructExitStatus e);
    run LogContainerEventWithAttributes id "die" (die_attributes e);
    run Cleanup id;
    ToDisk id).

(** The messages handed to log drivers in a run of effects, each with
    the reference it was sent through. *)
Definition driver_calls (t : list Effect) : list (nat * Message) :=
  omap (fun ev => match ev with
                  | EvLog ref msg _ => Some (ref, msg)
                  | _ => None
                  end) t.

(** The effects expected of the Exit transition of the container [c]
    when the stop message, handed to the driver [l], comes back with
    [err] and the write to disk with [disk]. *)
Definition exit_effects (id : string) (c : Container) (e : StateInfo)
    (l : nat) (err : option error) (disk : option error) : list Effect :=
  [EvLock id; EvWait id; EvReset id false;
   EvLog l {| Line := stopMessage e; Source := "event" |} err]
  ++ match err with
     | Some err =>
         [EvLogrus ErrorLevel
            "Failed to send 'stop' event to logging driver: %v" [ArgError err]]
     | None => []
     end
  ++ [EvEvent (ID c) "die" (die_attributes e);
      EvCleanup id;
      EvToDisk (set_phase (Stopped (platformConstructExitStatus e))
                  (set_LogDriver None c)) disk;
      EvUnlock id].

(** [case libcontainerd.StateRestart:] *)
Definition on_restart (id : string) (e : StateInfo) : M Daemon (option error) :=
  run Lock id;
  defer (Unlock id) (
    run Reset id false;
    run assign id (fun c => set_RestartCount (int_wrap (RestartCount c + 1)) c);
    run SetRestarting id (platformConstructExitStatus e);
    run LogContainerEventWithAttributes id "die" (die_attributes e);
    ToDisk id).

(** Modelled from the spec: [exec.Config.Wait] and
    [exec.Config.CloseStreams], missing from the sources at hand; the
    first blocks until the exec's own completion counter reaches zero, the
    second closes the exec's stream handles and may fail. *)
Definition exec_Wait (ref : nat) : M Daemon unit := emit (EvExecWait ref).

Definition exec_CloseStreams (ref : nat) : M Daemon (option error) :=
  do d <- get;
  let err := close_result d ref in
  run emit (EvExecCloseStreams ref err);
  ret err.

(** [case libcontainerd.StateExitProcess:] *)
Definition on_exit_process (id : string) (e : StateInfo) : M Daemon (option error) :=
  run Lock id;
  defer (Unlock id) (
    do c <- deref id;
    do d <- get;
    match ExecCommands c !! ProcessID e ≫= (fun ref => (fun x => (ref, x)) <$> execs d !! ref) with
    | Some (ref, execConfig) =>
        let ec := int_of_uint32 (libcontainerd.ExitCode e) in
        let stopped :=
          {| exec.ID := exec.ID execConfig; exec.Running := false;
             exec.ExitCode := Some ec |} in
        run modify (fun d => with_execs (<[ref := stopped]> (execs d)) d);
        run exec_Wait ref;
        do err <- exec_CloseStreams ref;
        run (match err with
             | Some err => Errorf "%s: %s" [ArgString (ID c); ArgError err]
             | None => ret tt
             end);
        run assign id (fun c =>
              set_ExecCommands (delete (exec.ID execConfig) (ExecCommands c)) c);
        ret None
    | None =>
        run Warnf "Ignoring StateExitProcess for %v but no exec command found"
              [ArgStateInfo e];
        ret None
    end).

(** [case libcontainerd.StateStart, libcontainerd.StateRestore:] *)
Definition on_start (id : string) (e : StateInfo) : M Daemon (option error) :=
  run SetRunning id (int_of_uint32 (Pid e)) (State_eqb (State_ e) StateStart);
  run assign id (set_HasBeenManuallyStopped false);
  do err <- ToDisk id;
  match err with
  | Some err =>
      run Reset id false;
      ret (Some err)
  | None =>
      run LogContainerEvent id "start";
      ret None
  end.

(** [func (daemon *Daemon) StateChanged(id string, e libcontainerd.StateInfo) error] *)
Definition StateChanged (id : string) (e : StateInfo) : M Daemon (option error) :=
  do c <- Get id;
  match c with
  | None => ret (Some ("no such container: " +:+ id))
  | Some _ =>
      match State_ e with
      | StateOOM =>
          if String.eqb GOOS "windows" then
            ret (Some "Received StateOOM from libcontainerd on Windows. This should never happen.")
          else
            run LogContainerEvent id "oom";
            ret None
      | StateExit => on_exit id e
      | StateRestart => on_restart id e
      | StateExitProcess => on_exit_process id e
      | StateStart | StateRestore => on_start id e
      | StatePause =>
          run assign id (set_Paused true);
          run LogContainerEvent id "pause";
          ret None
      | StateResume =>
          run assign id (set_Paused false);
          run LogContainerEvent id "unpause";
          ret None
      | StateOther _ => ret None
      end
  end.

End Handler.

Arguments Daemon D W : clear implicits.

End Daemon.

(** ** Attaching the streams (monitor.go) *)

Module Attach.
Import container Daemon.

(** [libcontainerd.IOPipe]: the three pipe handles of the execution
    engine, each of them nil or not. *)
Record IOPipe : Type := mkIOPipe {
  Stdin : option nat;
  Stdout : option nat;
  Stderr : option nat
}.

(** Modelled from the spec: [runconfig.StreamConfig], missing from the
    sources at hand; it owns a stdin sink that may be absent, a stdout
    and a stderr source, and a completion counter of the copies that are
    outstanding. *)
Record StreamConfig : Type := mkStreamConfig {
  stdin : option nat;
  stdout : nat;
  stderr : nat;
  pending : Z
}.

(** The bodies of the two [go] statements: the copy of the buffered
    stdin into the pipe, which closes the pipe when it ends, and the copy
    of an output pipe [from] into the endpoint [to] of the stream
    configuration [stream], which logs a failure under the [id] of the
    call and ends with [stream.Done()]. *)
Inductive Task : Type :=
| CopyStdin (from to : nat)
| CopyOutput (id : string) (stream : nat) (to from : nat).

(** What [AttachStreams] and the tasks it starts do, in order: closing a
    pipe, adding to a completion counter, starting a task, writing to
    the diagnostic log. *)
Inductive Act : Type :=
| ActClose (pipe : nat)
| ActAdd (stream : nat) (delta : Z)
| ActGo (t : Task)
| ActErrorf (format : string) (args : list Arg).

Section Pump.

Context {D W : Type} {driver : Logger D W}.

(** The daemon with the parts of its containers that the attach handler
    reads beside those of [container.Container]: the stream
    configuration each container points to ([c.StreamConfig]), whether it
    has a pseudo-terminal ([c.Config.Tty]), and the stream configurations
    themselves. *)
Record Pump : Type := mkPump {
  daemon : Daemon D W;
  stream_of : string -> nat;
  tty_of : string -> bool;
  streams : gmap nat StreamConfig;
  acts : list Act
}.

(** [daemon.getExecConfig] and [daemon.StartLogging], missing from the
    sources at hand: the first answers with the stream configuration of
    an exec or with an error, the second acts on the daemon and may
    fail. *)
Variable getExecConfig : Daemon D W -> string -> res nat.
Variable StartLogging : string -> M (Daemon D W) (option error).

Definition with_daemon (dm : Daemon D W) (p : Pump) : Pump :=
  {| daemon := dm; stream_of := stream_of p; tty_of := tty_of p;
     streams := streams p; acts := acts p |}.

Definition with_streams (m : gmap nat StreamConfig) (p : Pump) : Pump :=
  {| daemon := daemon p; stream_of := stream_of p; tty_of := tty_of p;
     streams := m; acts := acts p |}.

Definition with_acts (l : list Act) (p : Pump) : Pump :=
  {| daemon := daemon p; stream_of := stream_of p; tty_of := tty_of p;
     streams := streams p; acts := l |}.

(** A computation on the daemon, run on the daemon of the pump. *)
Definition on_daemon {A} (m : M (Daemon D W) A) : M Pump A :=
  fun p => let '(r, dm) := m (daemon p) in (r, with_daemon dm p).

Definition act (a : Act) : M Pump unit :=
  modify (fun p => with_acts (acts p ++ [a]) p).

(** Reading through the pointer [s]. *)
Definition deref_stream (s : nat) : M Pump StreamConfig :=
  fun p =>
    match streams p !! s with
    | Some cfg => (Returned cfg, p)
    | None => (Panicked "nil pointer dereference", p)
    end.

(** [s.Add(n)] *)
Definition Add (s : nat) (n : Z) : M Pump unit :=
  run modify (fun p =>
        with_streams
          (alter (fun cfg => {| stdin := stdin cfg; stdout := stdout cfg;
                                stderr := stderr cfg; pending := pending cfg + n |})
             s (streams p)) p);
  act (ActAdd s n).

(** The closure [copy] of the source. *)
Definition copy (id : string) (s : nat) (w r : nat) : M Pump unit :=
  run Add s 1;
  act (ActGo (CopyOutput id s w r)).

(** The handler from [s.Stdin()] on; [c] is the id of the container, or
    [None] when the streams are those of an exec. *)
Definition pump (id : string) (c : option string) (s : nat) (iop : IOPipe)
    : M Pump (option error) :=
  do cfg <- deref_stream s;
  do p <- get;
  run match stdin cfg with
      | Some source =>
          match Stdin iop with
          | Some pipe => act (ActGo (CopyStdin source pipe))
          | None => ret tt
          end
      | None =>
          match c with
          | Some cid =>
              if negb (tty_of p cid) then
                match Stdin iop with
                | Some pipe => act (ActClose pipe)
                | None => ret tt
                end
              else ret tt
          | None => ret tt
          end
      end;
  run match Stdout iop with
      | Some r => copy id s (stdout cfg) r
      | None => ret tt
      end;
  run match Stderr iop with
      | Some r => copy id s (stderr cfg) r
      | None => ret tt
      end;
  ret None.

(** [func (daemon *Daemon) AttachStreams(id string, iop libcontainerd.IOPipe) error] *)
Definition AttachStreams (id : string) (iop : IOPipe) : M Pump (option error) :=
  do p <- get;
  match containers (daemon p) !! id with
  | None =>
      match getExecConfig (daemon p) id with
      | fail _ => ret (Some ("no such exec/container: " +:+ id))
      | ok s => pump id None s iop
      end
  | Some _ =>
      let s := stream_of p id in
      do err <- on_daemon (StartLogging id);
      match err with
      | Some err =>
          run on_daemon (Reset id false);
          ret (Some err)
      | None => pump id (Some id) s iop
      end
  end.

(** The call gets as far as [s.Stdin()]: with the streams [s] of an exec
    and the pump as it was, or with the streams of the container [id]
    once logging has started. *)
Definition attaches (p : Pump) (id : string) (c : option string) (s : nat)
    (p0 : Pump) : Prop :=
  (containers (daemon p) !! id = None /\
   getExecConfig (daemon p) id = ok s /\ c = None /\ p0 = p) \/
  (exists dm,
     is_Some (containers (daemon p) !! id) /\
     StartLogging id (daemon p) = (Returned None, dm) /\
     c = Some id /\ s = stream_of p id /\ p0 = with_daemon dm p).

(** [s.Done()] *)
Definition Done (s : nat) (p : Pump) : Pump :=
  with_streams
    (alter (fun cfg => {| stdin := stdin cfg; stdout := stdout cfg;
                          stderr := stderr cfg; pending := pending cfg - 1 |})
       s (streams p)) p.

(** A started task comes to its end, its copy having failed or not: the
    copy of stdin closes the pipe; the copy of an output logs the
    failure, if any, and calls [Done] on its stream configuration. *)
Definition complete (end_ : Task * option error) (p : Pump) : Pump :=
  match end_ with
  | (CopyStdin _ pipe, _) => with_acts (acts p ++ [ActClose pipe]) p
  | (CopyOutput id s _ _, Some err) =>
      Done s (with_acts
                (acts p ++ [ActErrorf "%v stream copy error: %v"
                              [ArgString id; ArgError err]]) p)
  | (CopyOutput _ s _ _, None) => Done s p
  end.

(** The tasks started, and the pipes closed, among some acts. *)
Definition started (l : list Act) : list Task :=
  omap (fun a => match a with ActGo t => Some t | _ => None end) l.

Definition closed (l : list Act) : list nat :=
  omap (fun a => match a with ActClose pipe => Some pipe | _ => None end) l.

(** The copies of an output among some tasks. *)
Definition is_output (t : Task) : bool :=
  match t with
  | CopyOutput _ _ _ _ => true
  | CopyStdin _ _ => false
  end.

End Pump.

Arguments Pump D W : clear implicits.

End Attach.

(** ** Sample data for the examples *)

Module Sample.
Import Journald.

(** A decimal parser in the manner of [strconv.Atoi]: an optional sign,
    then one digit or more, the value within the range of an [int]. *)
Definition digit_of (c : ascii) : option Z :=
  let n := Z.of_N (N_of_ascii c) in
  if (48 <=? n) && (n <=? 57) then Some (n - 48) else None.

Fixpoint digits (s : string) (acc : Z) : option Z :=
  match s with
  | EmptyString => Some acc
  | String c rest =>
      match digit_of c with
      | Some d => digits rest (10 * acc + d)
      | None => None
      end
  end.

Definition unsigned (s : string) : option Z :=
  match s with
  | EmptyString => None
  | _ => digits s 0
  end.

Definition Atoi (s : string) : res Z :=
  let signed :=
    match s with
    | String "+" rest => unsigned rest
    | String "-" rest => Z.opp <$> unsigned rest
    | _ => unsigned s
    end in
  match signed with
  | None => fail "invalid syntax"
  | Some z =>
      if (- 2 ^ 63 <=? z) && (z <? 2 ^ 63) then ok z
      else fail "value out of range"
  end.

(** A duration parser for whole seconds, such as 1s or 30s. *)
Fixpoint seconds (s : string) (acc : Z) (seen : bool) : option Z :=
  match s with
  | EmptyString => None
  | String c rest =>
      match digit_of c with
      | Some d => seconds rest (10 * acc + d) true
      | None =>
          if seen && Ascii.eqb c "s" && String.eqb rest EmptyString
          then Some (acc * RateLimit.Second) else None
      end
  end.

Definition ParseDuration (s : string) : res Z :=
  match seconds s 0 false with
  | Some d => ok d
  | None => fail "time: invalid duration"
  end.

(** The default tag, the short container id; no extra attributes. *)
Definition ParseLogTag (ctx : Context) (defaultTemplate : string) : res string :=
  ok (substring 0 12 (ContainerID ctx)).

Definition ExtraAttributes (ctx : Context) (keyMod : string -> string)
    : gmap string string := ∅.

Definition ToTitle (s : string) : string := s.

Definition New : Context -> M Host (res journald) :=
  Journald.New Atoi ParseDuration ParseLogTag ExtraAttributes ToTitle.

(** A host with the journal available, a clock that advances by a
    nanosecond at each reading, and a journal that accepts everything. *)
Definition host : Host :=
  {| journal_enabled := true;
     clock := fun k => 1 + Z.of_nat k; clock_reads := 0;
     send_result := fun _ => None; sends := []; logrus := [] |}.

(** A container limited to one message a second. *)
Definition web : Context :=
  {| Config := ∅;
     ContainerID := "4f8c2a1b9d3e7f60a1b27c55";
     ContainerName := "/web";
     ContainerEnv := [];
     ContainerLabels := {[ burstKey := "1"; intervalKey := "1s" ]} |}.

(** The same container without the interval label, without a name, and
    with an id of eight bytes. *)
Definition web_one_label : Context :=
  {| Config := ∅; ContainerID := ContainerID web;
     ContainerName := ContainerName web; ContainerEnv := [];
     ContainerLabels := {[ burstKey := "1" ]} |}.

Definition web_unnamed : Context :=
  {| Config := ∅; ContainerID := ContainerID web;
     ContainerName := EmptyString; ContainerEnv := [];
     ContainerLabels := ContainerLabels web |}.

Definition web_short_id : Context :=
  {| Config := ∅; ContainerID := "4f8c2a1b";
     ContainerName := ContainerName web; ContainerEnv := [];
     ContainerLabels := ContainerLabels web |}.

(** The driver of [web], as [New] builds it. *)
Definition web_driver : journald :=
  let base : gmap string string :=
    {[ "CONTAINER_ID" := "4f8c2a1b9d3e";
       "CONTAINER_ID_FULL" := "4f8c2a1b9d3e7f60a1b27c55";
       "CONTAINER_NAME" := "web";
       "CONTAINER_TAG" := "4f8c2a1b9d3e" ]} in
  {| vars := base; eVars := <["DOCKER_EVENT" := "true"]> base;
     readers := ∅; rateLimit := Some (RateLimit.fresh 1 RateLimit.Second) |}.

Definition out (line : string) : Message := {| Line := line; Source := "stdout" |}.

Definition stop_event : Message :=
  {| Line := "{" +:+ quoted "type" +:+ ":" +:+ quoted "stop" +:+ "}";
     Source := "event" |}.

(** The driver of [web] and its host after three lines of output in the
    first three nanoseconds: one sent, two suppressed. *)
Definition flooded : outcome (list (option error) * journald) * Host :=
  Logs [out "one"; out "two"; out "three"] web_driver host.

Definition flooded_driver : journald :=
  match fst flooded with
  | Returned (_, s) => s
  | Panicked _ => web_driver
  end.

Definition flooded_host : Host := snd flooded.

(** The flooded host two seconds later, with one reading of the clock
    left at that time; a host without the journal. *)
Definition late_host : Host :=
  {| journal_enabled := true;
     clock := fun _ => 2 * RateLimit.Second + 1;
     clock_reads := clock_reads flooded_host;
     send_result := fun k => if (k =? 1)%nat then Some "journal: busy" else None;
     sends := sends flooded_host; logrus := logrus flooded_host |}.

Definition no_journal_host : Host :=
  {| journal_enabled := false; clock := clock host; clock_reads := 0;
     send_result := send_result host; sends := []; logrus := [] |}.

(** Extra attributes made of all the labels of the container, the keys
    upper-cased letter by letter. *)
Definition upper (c : ascii) : ascii :=
  let n := N_of_ascii c in
  if ((97 <=? n) && (n <=? 122))%N then ascii_of_N (n - 32) else c.

Fixpoint shout (s : string) : string :=
  match s with
  | EmptyString => EmptyString
  | String c rest => String (upper c) (shout rest)
  end.

Definition label_attributes (ctx : Context) (keyMod : string -> string)
    : gmap string string :=
  list_to_map (map (fun kv => (keyMod (fst kv), snd kv))
                 (map_to_list (ContainerLabels ctx))).

(** [web] with a label that upper-cases to the name of the event flag. *)
Definition web_flagged : Context :=
  {| Config := ∅; ContainerID := ContainerID web;
     ContainerName := "//web"; ContainerEnv := [];
     ContainerLabels := {[ "docker_event" := "no" ]} |}.

(** A teardown as the comment at monitor.go:41-44 describes it for
    journald, with no output left to copy: the watchers of the journal are
    let go, and the lines that the limiter has suppressed and not yet
    reported go into a last notice. *)
Definition teardown (id : string) (s : journald) (h : Host) : journald * Host :=
  let closed :=
    {| vars := vars s; eVars := eVars s; readers := ∅; rateLimit := rateLimit s |} in
  match rateLimit s with
  | Some r =>
      if 0 <? RateLimit.Suppressed r
      then (closed, snd (sendSuppressedMessage s (RateLimit.Suppressed r) h))
      else (closed, h)
  | None => (closed, h)
  end.

(** A daemon on that host whose registry holds [web], running, logging
    through the flooded driver kept at reference 7; the disk accepts every
    write. *)
Definition web_id : string := ContainerID web.

Definition web_container : container.Container :=
  {| container.ID := web_id;
     container.phase := container.Running 4242 true;
     container.RestartCount := 0;
     container.Paused := false;
     container.HasBeenManuallyStopped := false;
     container.LogDriver := Some 7%nat;
     container.ExecCommands := ∅ |}.

Definition daemon : Daemon.Daemon journald Host :=
  {| Daemon.containers := {[ web_id := web_container ]};
     Daemon.execs := ∅;
     Daemon.drivers := {[ 7%nat := flooded_driver ]};
     Daemon.world := flooded_host;
     Daemon.teardown := teardown;
     Daemon.disk_result := fun _ => None;
     Daemon.disk_writes := 0;
     Daemon.close_result := fun _ => None;
     Daemon.trace := [] |}.

(** The same daemon on a host whose journal refuses every entry, and the
    same daemon over a disk that refuses every write. *)
Definition deaf_host : Host :=
  {| journal_enabled := true; clock := clock flooded_host;
     clock_reads := clock_reads flooded_host;
     send_result := fun _ => Some "journal: connection refused";
     sends := sends flooded_host; logrus := logrus flooded_host |}.

Definition deaf_daemon : Daemon.Daemon journald Host :=
  Daemon.with_world deaf_host daemon.

Definition full_disk_daemon : Daemon.Daemon journald Host :=
  {| Daemon.containers := Daemon.containers daemon;
     Daemon.execs := ∅;
     Daemon.drivers := Daemon.drivers daemon;
     Daemon.world := flooded_host;
     Daemon.teardown := teardown;
     Daemon.disk_result := fun _ => Some "no space left on device";
     Daemon.disk_writes := 0;
     Daemon.close_result := fun _ => None;
     Daemon.trace := [] |}.

(** [web] after it was stopped by hand, in the registry of the two
    daemons; and [web] without a log driver. *)
Definition web_halted : container.Container :=
  {| container.ID := web_id;
     container.phase := container.Created;
     container.RestartCount := 0;
     container.Paused := false;
     container.HasBeenManuallyStopped := true;
     container.LogDriver := Some 7%nat;
     container.ExecCommands := ∅ |}.

Definition halted_daemon : Daemon.Daemon journald Host :=
  Daemon.with_containers {[ web_id := web_halted ]} daemon.

Definition halted_full_disk_daemon : Daemon.Daemon journald Host :=
  Daemon.with_containers {[ web_id := web_halted ]} full_disk_daemon.



(** Notifications for [web]: killed for lack of memory with exit code
    137, started with pid 4243, restored with pid 4243. *)
Definition killed : libcontainerd.StateInfo :=
  {| libcontainerd.State_ := libcontainerd.StateExit;
     libcontainerd.Pid := 0; libcontainerd.ExitCode := 137;
     libcontainerd.ProcessID := EmptyString;
     libcontainerd.OOMKilled := true |}.

Definition started : libcontainerd.StateInfo :=
  {| libcontainerd.State_ := libcontainerd.StateStart;
     libcontainerd.Pid := 4243; libcontainerd.ExitCode := 0;
     libcontainerd.ProcessID := EmptyString;
     libcontainerd.OOMKilled := false |}.

Definition restored : libcontainerd.StateInfo :=
  {| libcontainerd.State_ := libcontainerd.StateRestore;
     libcontainerd.Pid := 4243; libcontainerd.ExitCode := 0;
     libcontainerd.ProcessID := EmptyString;
     libcontainerd.OOMKilled := false |}.

(** Further notifications for [web]: a restart after exit code 1, a
    pause, a resume, and the exit with code 2 of the exec "e1" and of an
    exec that [web] does not hold. *)
Definition notification (st : libcontainerd.State) (code : N) (process : string)
    : libcontainerd.StateInfo :=
  {| libcontainerd.State_ := st; libcontainerd.Pid := 0;
     libcontainerd.ExitCode := code; libcontainerd.ProcessID := process;
     libcontainerd.OOMKilled := false |}.

Definition restarting := notification libcontainerd.StateRestart 1 EmptyString.
Definition pausing := notification libcontainerd.StatePause 0 EmptyString.
Definition resuming := notification libcontainerd.StateResume 0 EmptyString.
Definition exec_exited := notification libcontainerd.StateExitProcess 2 "e1".
Definition ghost_exited := notification libcontainerd.StateExitProcess 2 "ghost".

(** [web] running the exec "e1", whose streams fail to close. *)
Definition web_with_exec : container.Container :=
  container.set_ExecCommands {[ "e1" := 3%nat ]} web_container.

Definition exec_daemon : Daemon.Daemon journald Host :=
  {| Daemon.containers := {[ web_id := web_with_exec ]};
     Daemon.execs := {[ 3%nat := exec.mkConfig "e1" true None ]};
     Daemon.drivers := Daemon.drivers daemon;
     Daemon.world := flooded_host;
     Daemon.teardown := teardown;
     Daemon.disk_result := fun _ => None;
     Daemon.disk_writes := 0;
     Daemon.close_result := fun _ => Some "close: bad file descriptor";
     Daemon.trace := [] |}.

(** The daemon with the streams of [web], which has neither a stdin of
    its own nor a pseudo-terminal; no exec is known, logging starts
    without an error; and the three pipes of the execution engine. *)
Definition no_exec (dm : Daemon.Daemon journald Host) (id : string) : res nat :=
  fail "no such exec".

Definition one_exec (dm : Daemon.Daemon journald Host) (id : string) : res nat :=
  if String.eqb id "e1" then ok 2%nat else fail "no such exec".

Definition logging_starts (id : string)
    : M (Daemon.Daemon journald Host) (option error) :=
  ret None.

Definition logging_fails (id : string)
    : M (Daemon.Daemon journald Host) (option error) :=
  ret (Some "failed to initialize logging driver").

Definition web_pump : Attach.Pump journald Host :=
  {| Attach.daemon := daemon;
     Attach.stream_of := fun _ => 1%nat;
     Attach.tty_of := fun _ => false;
     Attach.streams :=
       {[ 1%nat := Attach.mkStreamConfig None 10 11 0;
          2%nat := Attach.mkStreamConfig (Some 12%nat) 13 14 0 ]};
     Attach.acts := [] |}.

Definition pipes : Attach.IOPipe :=
  {| Attach.Stdin := Some 20%nat; Attach.Stdout := Some 21%nat;
     Attach.Stderr := Some 22%nat |}.

End Sample.

(** * Properties *)

(** ** Integers *)

Lemma int_wrap_id z : int_range z -> int_wrap z = z.
Proof.
  unfold int_range, int_wrap. intros Hz.
  rewrite Z.mod_small by lia. lia.
Qed.

Lemma int_wrap_range z : int_range (int_wrap z).
Proof.
  unfold int_range, int_wrap.
  pose proof (Z.mod_pos_bound (z + 2 ^ 63) (2 ^ 64) ltac:(lia)). lia.
Qed.

Lemma int_of_uint32_id n : (n < 2 ^ 32)%N -> int_of_uint32 n = Z.of_N n.
Proof.
  intros Hn. apply int_wrap_id. unfold int_range.
  assert (Z.of_N n < 2 ^ 32) by (change (2 ^ 32) with (Z.of_N (2 ^ 32)); lia).
  lia.
Qed.

(** ** The rate limiter *)

Section RateLimitFacts.
Import RateLimit.

(** The four branches of [Check], by the tests that select them. *)
Lemma Check_first now r :
  IsZero (begin r) = true -> Check now r = ((true, 0), start_interval now r).
Proof. intros H. unfold Check. now rewrite H. Qed.

Lemma Check_new_interval now r :
  IsZero (begin r) = false -> begin r + Interval r < now ->
  Check now r = ((true, suppressed r), start_interval now r).
Proof.
  intros H0 Hlt. unfold Check, Before, Add. rewrite H0.
  now rewrite (proj2 (Z.ltb_lt _ _) Hlt).
Qed.

Lemma Check_within_burst now r :
  IsZero (begin r) = false -> now <= begin r + Interval r -> num r < Burst r ->
  Check now r = ((true, 0), count_allowed r).
Proof.
  intros H0 Hle Hn. unfold Check, Before, Add. rewrite H0.
  rewrite (proj2 (Z.ltb_ge _ _) Hle).
  now rewrite (proj2 (Z.ltb_lt _ _) Hn).
Qed.

Lemma Check_over_burst now r :
  IsZero (begin r) = false -> now <= begin r + Interval r -> Burst r <= num r ->
  Check now r = ((false, 0), count_suppressed r).
Proof.
  intros H0 Hle Hn. unfold Check, Before, Add. rewrite H0.
  rewrite (proj2 (Z.ltb_ge _ _) Hle).
  now rewrite (proj2 (Z.ltb_ge _ _) Hn).
Qed.

(** Case analysis on a call of [Check], one goal per branch. *)
Ltac check_cases now r :=
  unfold Check, Before, Add;
  destruct (IsZero (begin r)) eqn:Hzero;
  [ | destruct (begin r + Interval r <? now) eqn:Hleft;
      [ | destruct (num r <? Burst r) eqn:Hburst ] ].

Lemma idle_clean_fresh b i : idle_clean (fresh b i).
Proof. intros _. reflexivity. Qed.

Lemma idle_clean_Check now r : idle_clean r -> idle_clean (snd (Check now r)).
Proof.
  intros Hr. check_cases now r; unfold idle_clean; simpl; try reflexivity;
    intros Hz; congruence.
Qed.

Lemma after_cons r now nows : after r (now :: nows) = after (snd (Check now r)) nows.
Proof. reflexivity. Qed.


Lemma in_calls nows : forall r c,
  c ∈ calls r nows -> exists now r', c = call_at now r'.
Proof.
  induction nows as [|now nows IH]; intros r c Hc; simpl in Hc.
  - inversion Hc.
  - apply elem_of_cons in Hc as [-> | Hc]; [eauto | eapply IH, Hc].
Qed.

Lemma call_at_pre now r : c_pre (call_at now r) = r.
Proof. unfold call_at. destruct (Check now r) as [[a s] r']. reflexivity. Qed.

Lemma call_at_now now r : c_now (call_at now r) = now.
Proof. unfold call_at. destruct (Check now r) as [[a s] r']. reflexivity. Qed.

Lemma call_at_post now r : c_post (call_at now r) = snd (Check now r).
Proof. unfold call_at. destruct (Check now r) as [[a s] r']. reflexivity. Qed.

Lemma call_at_admitted now r : c_admitted (call_at now r) = fst (fst (Check now r)).
Proof. unfold call_at. destruct (Check now r) as [[a s] r']. reflexivity. Qed.

Lemma call_at_reported now r : c_reported (call_at now r) = snd (fst (Check now r)).
Proof. unfold call_at. destruct (Check now r) as [[a s] r']. reflexivity. Qed.

(** A call that reports a non-zero count took the second branch. *)
Lemma reported_nonzero now r :
  c_reported (call_at now r) <> 0 ->
  c_admitted (call_at now r) = true /\
  starts_new_interval (call_at now r) /\
  c_reported (call_at now r) = suppressed r.
Proof.
  unfold starts_new_interval.
  rewrite call_at_reported, call_at_admitted, call_at_pre, call_at_now, call_at_post.
  check_cases now r; simpl; intros Hrep; try congruence.
  apply Z.ltb_lt in Hleft. repeat split; auto.
Qed.

(** The call after one that started an interval reports nothing. *)
Lemma reported_after_start now now' r :
  snd (fst (Check now' (start_interval now r))) = 0.
Proof.
  set (r' := start_interval now r).
  check_cases now' r'; reflexivity.
Qed.

Lemma calls_lookup_succ nows : forall r i c1 c2,
  calls r nows !! i = Some c1 -> calls r nows !! S i = Some c2 ->
  exists now now' r', c1 = call_at now r' /\ c2 = call_at now' (snd (Check now r')).
Proof.
  induction nows as [|now nows IH]; intros r i c1 c2 H1 H2; [discriminate|].
  destruct i as [|i]; simpl in H1, H2.
  - destruct nows as [|now' nows]; [discriminate|]. simpl in H2.
    exists now, now', r. split; congruence.
  - eapply IH; eauto.
Qed.

Lemma accounting nows : forall r,
  idle_clean r -> 0 <= suppressed r ->
  suppressed r + Z.of_nat (length nows) < 2 ^ 63 ->
  total_reported (calls r nows) + suppressed (after r nows)
  = suppressed r + rejected (calls r nows).
Proof.
  induction nows as [|now nows IH]; intros r Hclean Hpos Hlen.
  - simpl. lia.
  - rewrite after_cons. cbn [calls total_reported rejected fold_right].
    rewrite call_at_reported, call_at_admitted.
    assert (Hlen' : suppressed r + 1 + Z.of_nat (length nows) < 2 ^ 63)
      by (cbn [length] in Hlen; lia).
    pose proof (idle_clean_Check now r Hclean) as Hclean'.
    specialize (IH (snd (Check now r)) Hclean').
    fold (total_reported (calls (snd (Check now r)) nows)) in *.
    fold (rejected (calls (snd (Check now r)) nows)) in *.
    revert IH Hclean'. check_cases now r; cbn [fst snd]; intros IH _.
    + rewrite (Hclean Hzero). cbn [suppressed start_interval] in IH. lia.
    + cbn [suppressed start_interval] in IH. lia.
    + cbn [suppressed count_allowed] in IH. lia.
    + cbn [suppressed count_suppressed] in IH.
      rewrite int_wrap_id in IH by (unfold int_range; lia). lia.
Qed.

(** The limiter of the example: three messages a second. *)
Lemma three_a_second_steps t1 :
  t1 <> 0 ->
  let r1 := start_interval t1 (fresh 3 Second) in
  let r2 := count_allowed r1 in
  let r3 := count_allowed r2 in
  let r4 := count_suppressed r3 in
  let r5 := count_suppressed r4 in
  (forall r, In r [r1; r2; r3; r4; r5] ->
     IsZero (begin r) = false /\ begin r + Interval r = t1 + Second) /\
  num r1 = 1 /\ num r2 = 2 /\ num r3 = 3 /\ num r4 = 3 /\
  suppressed r5 = 2.
Proof.
  intros Ht1. cbn zeta. split.
  - intros r Hr. cbn [In] in Hr.
    assert (Hz : IsZero t1 = false) by (apply Z.eqb_neq, Ht1).
    destruct Hr as [<-|[<-|[<-|[<-|[<-|[]]]]]]; split; try exact Hz; reflexivity.
  - repeat split; reflexivity.
Qed.

(** C4: with Burst=3 and Interval=1s, five calls of Check within the same
    one-second interval are admitted, admitted, admitted, rejected and
    rejected, each reporting 0 suppressed, and a sixth call after the
    interval has elapsed is admitted and reports 2 suppressed. *)
Theorem check_three_a_second (t1 t2 t3 t4 t5 t6 : Z) :
  t1 <> 0 ->
  t2 <= t1 + Second -> t3 <= t1 + Second ->
  t4 <= t1 + Second -> t5 <= t1 + Second ->
  t1 + Second < t6 ->
  map (fun c => (c_admitted c, c_reported c))
      (calls (fresh 3 Second) [t1; t2; t3; t4; t5; t6])
  = [(true, 0); (true, 0); (true, 0); (false, 0); (false, 0); (true, 2)].
Proof.
  intros Ht1 H2 H3 H4 H5 H6.
  destruct (three_a_second_steps t1 Ht1) as (Hin & N1 & N2 & N3 & N4 & S5).
  cbn zeta in *.
  set (r1 := start_interval t1 (fresh 3 Second)) in *.
  set (r2 := count_allowed r1) in *.
  set (r3 := count_allowed r2) in *.
  set (r4 := count_suppressed r3) in *.
  set (r5 := count_suppressed r4) in *.
  assert (E1 : Check t1 (fresh 3 Second) = ((true, 0), r1))
    by (apply Check_first; reflexivity).
  assert (E2 : Check t2 r1 = ((true, 0), r2)).
  { destruct (Hin r1) as [Hz Hb]; [cbn; tauto|].
    apply Check_within_burst; [exact Hz | lia | rewrite N1; reflexivity]. }
  assert (E3 : Check t3 r2 = ((true, 0), r3)).
  { destruct (Hin r2) as [Hz Hb]; [cbn; tauto|].
    apply Check_within_burst; [exact Hz | lia | rewrite N2; reflexivity]. }
  assert (E4 : Check t4 r3 = ((false, 0), r4)).
  { destruct (Hin r3) as [Hz Hb]; [cbn; tauto|].
    apply Check_over_burst; [exact Hz | lia | rewrite N3; discriminate]. }
  assert (E5 : Check t5 r4 = ((false, 0), r5)).
  { destruct (Hin r4) as [Hz Hb]; [cbn; tauto|].
    apply Check_over_burst; [exact Hz | lia | rewrite N4; discriminate]. }
  assert (E6 : Check t6 r5 = ((true, 2), start_interval t6 r5)).
  { destruct (Hin r5) as [Hz Hb]; [cbn; tauto|].
    rewrite <- S5. apply Check_new_interval; [exact Hz | lia]. }
  cbn [calls map]. unfold call_at.
  rewrite E1. cbn [snd]. rewrite E2. cbn [snd]. rewrite E3. cbn [snd].
  rewrite E4. cbn [snd]. rewrite E5. cbn [snd]. rewrite E6.
  reflexivity.
Qed.

(** The example at the readings 1, 2, 3, 4 and 5 ns, then 2 s. *)
Lemma check_three_a_second_witness :
  map (fun c => (c_admitted c, c_reported c))
      (calls (fresh 3 Second) [1; 2; 3; 4; 5; 2 * Second])
  = [(true, 0); (true, 0); (true, 0); (false, 0); (false, 0); (true, 2)].
Proof.
  apply (check_three_a_second 1 2 3 4 5 (2 * Second)); unfold Second; lia.
Defined.




(** C10: whatever the configured Burst, zero and negative values included,
    Check admits the first call ever and every call that starts a new
    interval, and counts it as the first message of the interval; the
    Burst bound plays no part in either case. *)
Theorem check_first_of_interval_admitted (now : Z) (r : rateLimit) :
  IsZero (begin r) = true \/ Before (Add (begin r) (Interval r)) now = true ->
  fst (fst (Check now r)) = true /\
  snd (Check now r) = start_interval now r /\
  num (snd (Check now r)) = 1 /\
  forall burst,
    Check now {| Burst := burst; Interval := Interval r; begin := begin r;
                 num := num r; suppressed := suppressed r |}
    = (fst (Check now r),
       {| Burst := burst; Interval := Interval r; begin := now;
          num := 1; suppressed := 0 |}).
Proof.
  intros Hcase. unfold Check. cbn [begin Interval].
  destruct (IsZero (begin r)) eqn:Hz.
  - repeat split.
  - destruct Hcase as [Hcase | Hcase]; [discriminate|].
    rewrite Hcase. repeat split.
Qed.

Lemma check_first_of_interval_admitted_witness :
  fst (fst (Check 7 (fresh (-4) Second))) = true /\
  fst (fst (Check 7 (fresh 0 Second))) = true /\
  fst (fst (Check 16 saturated)) = true.
Proof.
  split; [|split].
  - apply (check_first_of_interval_admitted 7 (fresh (-4) Second)).
    left. reflexivity.
  - apply (check_first_of_interval_admitted 7 (fresh 0 Second)).
    left. reflexivity.
  - apply (check_first_of_interval_admitted 16 saturated).
    right. reflexivity.
Defined.

(** With Burst=0 the first message is admitted all the same, and the
    bound only stops the messages after it. *)
Example check_burst_zero :
  map (fun c => (c_admitted c, c_reported c))
      (calls (fresh 0 Second) [1; 2; 3; 2 * Second])
  = [(true, 0); (false, 0); (false, 0); (true, 2)].
Proof. reflexivity. Qed.

(** C6: across any sequence of calls of Check on one limiter, a non-zero
    suppressed count is reported only by an admitted call that starts a
    new interval, and what it reports is the count of the interval it
    closes, which it resets; two calls in a row never both report a
    non-zero count; and the reports add up, with the count still pending,
    to the number of rejected calls, so that no suppressed message is
    reported twice. *)
Theorem suppression_reported_once (burst interval : Z) (nows : list Z) :
  Z.of_nat (length nows) < 2 ^ 63 ->
  let cs := calls (fresh burst interval) nows in
  (forall c, c ∈ cs -> c_reported c <> 0 ->
     c_admitted c = true /\ starts_new_interval c /\
     c_reported c = suppressed (c_pre c) /\ suppressed (c_post c) = 0) /\
  (forall (i : nat) c1 c2, cs !! i = Some c1 -> cs !! S i = Some c2 ->
     c_reported c1 <> 0 -> c_reported c2 = 0) /\
  total_reported cs + suppressed (after (fresh burst interval) nows)
  = rejected cs.
Proof.
  intros Hlen cs. split; [|split].
  - intros c Hc Hrep. apply in_calls in Hc as (now & r & ->).
    destruct (reported_nonzero now r Hrep) as (Ha & Hs & Hr).
    split; [exact Ha|]. split; [exact Hs|].
    split; [rewrite call_at_pre; exact Hr|].
    destruct Hs as (_ & _ & Hpost). rewrite Hpost. reflexivity.
  - intros i c1 c2 H1 H2 Hrep.
    destruct (calls_lookup_succ nows _ i c1 c2 H1 H2) as (now & now' & r & -> & ->).
    destruct (reported_nonzero now r Hrep) as (_ & (_ & _ & Hpost) & _).
    rewrite call_at_post, call_at_now, call_at_pre in Hpost.
    rewrite call_at_reported, Hpost. apply reported_after_start.
  - subst cs. rewrite accounting.
    + reflexivity.
    + apply idle_clean_fresh.
    + cbn. lia.
    + cbn [suppressed fresh]. lia.
Qed.

Lemma suppression_reported_once_witness :
  let nows := [1; 2; 3; 4; 5; 2 * Second; 2 * Second + 1] in
  let cs := calls (fresh 3 Second) nows in
  (forall c, c ∈ cs -> c_reported c <> 0 ->
     c_admitted c = true /\ starts_new_interval c /\
     c_reported c = suppressed (c_pre c) /\ suppressed (c_post c) = 0) /\
  (forall (i : nat) c1 c2, cs !! i = Some c1 -> cs !! S i = Some c2 ->
     c_reported c1 <> 0 -> c_reported c2 = 0) /\
  total_reported cs + suppressed (after (fresh 3 Second) nows) = rejected cs.
Proof.
  apply (suppression_reported_once 3 Second
           [1; 2; 3; 4; 5; 2 * Second; 2 * Second + 1]).
  vm_compute. reflexivity.
Defined.

(** Among the admitted calls alone: once the burst allows a second
    message in an interval, the admitted call that follows a reporting one
    reports nothing, however many rejected calls lie between them. *)
Lemma first_admitted_reports_nothing nows : forall r,
  suppressed r = 0 -> IsZero (begin r) = true \/ num r < Burst r ->
  forall c, head (filter (fun c => c_admitted c = true) (calls r nows)) = Some c ->
  c_reported c = 0.
Proof.
  destruct nows as [|now nows]; intros r Hs Hn c Hc; [discriminate|].
  cbn [calls] in Hc. rewrite filter_cons in Hc.
  assert (Hfirst : c_admitted (call_at now r) = true /\ c_reported (call_at now r) = 0).
  { rewrite call_at_admitted, call_at_reported.
    check_cases now r; cbn [fst snd]; auto.
    destruct Hn as [Hn | Hn]; [discriminate|].
    apply Z.ltb_ge in Hburst. lia. }
  destruct Hfirst as [Ha Hr].
  destruct (decide (c_admitted (call_at now r) = true)) as [_|Hna]; [|contradiction].
  cbn in Hc. congruence.
Qed.

Lemma Burst_Check now r : Burst (snd (Check now r)) = Burst r.
Proof. check_cases now r; reflexivity. Qed.

Lemma admitted_reports_apart nows : forall r,
  2 <= Burst r ->
  let admitted := filter (fun c => c_admitted c = true) (calls r nows) in
  forall (i : nat) c1 c2, admitted !! i = Some c1 -> admitted !! S i = Some c2 ->
  c_reported c1 <> 0 -> c_reported c2 = 0.
Proof.
  induction nows as [|now nows IH]; intros r Hb admitted i c1 c2 H1 H2 Hrep;
    [discriminate|].
  subst admitted. cbn [calls] in H1, H2. rewrite filter_cons in H1, H2.
  assert (Hb' : 2 <= Burst (snd (Check now r))) by (rewrite Burst_Check; exact Hb).
  destruct (decide (c_admitted (call_at now r) = true)) as [Ha|Hna].
  - destruct i as [|i]; cbn in H1, H2.
    + injection H1 as <-.
      destruct (reported_nonzero now r Hrep) as (_ & (_ & _ & Hpost) & _).
      rewrite call_at_post, call_at_now, call_at_pre in Hpost.
      rewrite Hpost in H2, Hb'.
      apply (first_admitted_reports_nothing nows (start_interval now r)).
      * reflexivity.
      * right. cbn [num Burst start_interval] in *. lia.
      * rewrite head_lookup. exact H2.
    + eapply (IH _ Hb' i); eauto.
  - eapply (IH _ Hb' i); eauto.
Qed.

(** With Burst=1 every admitted call after the first opens an interval,
    and may report what the interval before it suppressed. *)
Example burst_one_reports :
  map (fun c => (c_admitted c, c_reported c))
      (calls (fresh 1 10) [5; 6; 16; 17; 28])
  = [(true, 0); (false, 0); (true, 1); (false, 0); (true, 1)].
Proof. reflexivity. Qed.

(** *** Further properties of the rate limiter *)

Lemma Forall_cons_inv_le (bound now : Z) (nows : list Z) :
  Forall (fun t => t <= bound) (now :: nows) ->
  now <= bound /\ Forall (fun t => t <= bound) nows.
Proof. intros H. apply Forall_cons in H. exact H. Qed.

Lemma within_interval_run nows : forall r,
  IsZero (begin r) = false ->
  Forall (fun now => now <= begin r + Interval r) nows ->
  int_range (num r) -> Burst r < 2 ^ 63 ->
  0 <= suppressed r -> suppressed r + Z.of_nat (length nows) < 2 ^ 63 ->
  let k := Nat.min (Z.to_nat (Burst r - num r)) (length nows) in
  map (fun c => (c_admitted c, c_reported c)) (calls r nows)
  = replicate k (true, 0) ++ replicate (length nows - k) (false, 0) /\
  after r nows
  = {| Burst := Burst r; Interval := Interval r; begin := begin r;
       num := num r + Z.of_nat k;
       suppressed := suppressed r + Z.of_nat (length nows - k) |}.
Proof.
  induction nows as [|now nows IH]; intros r Hz Hall Hnum Hb Hs Hlen k.
  - subst k. rewrite Nat.min_0_r. cbn. split; [reflexivity|].
    destruct r; cbn. f_equal; lia.
  - apply Forall_cons_inv_le in Hall as [Hnow Hall].
    cbn [length] in Hlen, k. rewrite after_cons.
    cbn [calls map]. rewrite call_at_admitted, call_at_reported.
    destruct (Z.lt_ge_cases (num r) (Burst r)) as [Hroom | Hfull].
    + rewrite (Check_within_burst now r Hz Hnow Hroom). cbn [fst snd].
      assert (Hn1 : int_wrap (num r + 1) = num r + 1)
        by (apply int_wrap_id; unfold int_range in *; lia).
      assert (Hr' : count_allowed r
                    = {| Burst := Burst r; Interval := Interval r; begin := begin r;
                         num := num r + 1; suppressed := suppressed r |})
        by (unfold count_allowed; rewrite Hn1; reflexivity).
      rewrite Hr'.
      set (r' := {| Burst := Burst r; Interval := Interval r; begin := begin r;
                    num := num r + 1; suppressed := suppressed r |}).
      destruct (IH r') as [IHm IHa]; cbn [begin Interval num Burst suppressed r'];
        try assumption; try (unfold int_range in *; lia).
      cbn [begin Interval num Burst suppressed r'] in IHm, IHa.
      assert (Hk : k = S (Nat.min (Z.to_nat (Burst r - (num r + 1))) (length nows))).
      { subst k. replace (Z.to_nat (Burst r - num r))
          with (S (Z.to_nat (Burst r - (num r + 1)))) by lia.
        reflexivity. }
      rewrite Hk. cbn [replicate app Nat.sub]. rewrite IHm, IHa.
      split; [reflexivity|]. f_equal; lia.
    + rewrite (Check_over_burst now r Hz Hnow Hfull). cbn [fst snd].
      assert (Hs1 : int_wrap (suppressed r + 1) = suppressed r + 1)
        by (apply int_wrap_id; unfold int_range; lia).
      assert (Hr' : count_suppressed r
                    = {| Burst := Burst r; Interval := Interval r; begin := begin r;
                         num := num r; suppressed := suppressed r + 1 |})
        by (unfold count_suppressed; rewrite Hs1; reflexivity).
      rewrite Hr'.
      set (r' := {| Burst := Burst r; Interval := Interval r; begin := begin r;
                    num := num r; suppressed := suppressed r + 1 |}).
      destruct (IH r') as [IHm IHa]; cbn [begin Interval num Burst suppressed r'];
        try assumption; try lia.
      cbn [begin Interval num Burst suppressed r'] in IHm, IHa.
      assert (Hk : k = 0%nat) by (subst k; lia).
      assert (Hk' : Nat.min (Z.to_nat (Burst r - num r)) (length nows) = 0%nat) by lia.
      rewrite Hk' in IHm, IHa. rewrite Hk. rewrite Nat.sub_0_r in *.
      cbn [replicate app length]. rewrite IHm, IHa.
      split; [reflexivity|]. f_equal; lia.
Qed.

Lemma Interval_Check now r : Interval (snd (Check now r)) = Interval r.
Proof. check_cases now r; reflexivity. Qed.

Lemma counting_start now r : counting (start_interval now r).
Proof. unfold counting. cbn. lia. Qed.

Lemma counting_Check now r :
  Burst r < 2 ^ 63 -> suppressed r + 1 < 2 ^ 63 ->
  counting r -> counting (snd (Check now r)).
Proof.
  intros Hb Hs (Hn & Hs0 & Hfull).
  check_cases now r; cbn [snd]; try apply counting_start.
  - apply Z.ltb_lt in Hburst. unfold counting. cbn.
    rewrite int_wrap_id by (unfold int_range; lia). lia.
  - apply Z.ltb_ge in Hburst. unfold counting. cbn.
    rewrite int_wrap_id by (unfold int_range; lia). lia.
Qed.

Lemma suppressed_Check now r :
  0 <= suppressed r -> suppressed r + 1 < 2 ^ 63 ->
  suppressed (snd (Check now r)) <= suppressed r + 1.
Proof.
  intros H0 H1. check_cases now r; cbn; try lia.
  rewrite int_wrap_id by (unfold int_range; lia). lia.
Qed.

Lemma suppressed_Check_nonneg now r :
  0 <= suppressed r -> suppressed r + 1 < 2 ^ 63 ->
  0 <= suppressed (snd (Check now r)).
Proof.
  intros H0 H1. check_cases now r; cbn; try lia.
  rewrite int_wrap_id by (unfold int_range; lia). lia.
Qed.

Lemma begin_Check now r :
  begin (snd (Check now r)) = begin r \/ begin (snd (Check now r)) = now.
Proof. check_cases now r; cbn; auto. Qed.

Lemma counting_after nows : forall r,
  Burst r < 2 ^ 63 -> counting r ->
  suppressed r + Z.of_nat (length nows) < 2 ^ 63 ->
  counting (after r nows) /\
  suppressed (after r nows) <= suppressed r + Z.of_nat (length nows) /\
  Burst (after r nows) = Burst r /\
  Interval (after r nows) = Interval r /\
  (begin (after r nows) = begin r \/ begin (after r nows) ∈ nows).
Proof.
  induction nows as [|now nows IH]; intros r Hb Hc Hlen.
  - cbn. repeat split; try apply Hc; auto; lia.
  - rewrite after_cons. cbn [length] in Hlen.
    pose proof Hc as (_ & Hs0 & _).
    assert (Hs1 : suppressed r + 1 < 2 ^ 63) by lia.
    pose proof (suppressed_Check now r Hs0 Hs1) as Hsup.
    pose proof (counting_Check now r Hb Hs1 Hc) as Hc'.
    destruct (IH (snd (Check now r))) as (Hc'' & Hs'' & Hb'' & Hi'' & Hbeg'');
      [rewrite Burst_Check; exact Hb | exact Hc' | lia |].
    rewrite Burst_Check in Hb''. rewrite Interval_Check in Hi''.
    split; [exact Hc''|]. split; [cbn [length]; lia|].
    split; [exact Hb''|]. split; [exact Hi''|].
    destruct Hbeg'' as [Hbeg'' | Hbeg''].
    + rewrite Hbeg''. destruct (begin_Check now r) as [-> | ->]; auto.
      right. apply list_elem_of_here.
    + right. apply list_elem_of_further, Hbeg''.
Qed.

(** X1: within one interval the burst is a hard bound.  After the call
    that begins an interval at [t1], of any further calls made no later
    than [t1 + interval] the first [burst - 1] are admitted and every
    later one is rejected, none of them reporting anything; the rejected
    ones are what [Suppressed] then returns. *)
Theorem burst_bounds_one_interval (burst interval t1 : Z) (nows : list Z) :
  t1 <> 0 ->
  Forall (fun now => now <= t1 + interval) nows ->
  burst < 2 ^ 63 ->
  Z.of_nat (length nows) < 2 ^ 63 ->
  let k := Nat.min (Z.to_nat (burst - 1)) (length nows) in
  map (fun c => (c_admitted c, c_reported c))
      (calls (fresh burst interval) (t1 :: nows))
  = (true, 0) :: replicate k (true, 0) ++ replicate (length nows - k) (false, 0) /\
  Suppressed (after (fresh burst interval) (t1 :: nows))
  = Z.of_nat (length nows - k) /\
  num (after (fresh burst interval) (t1 :: nows)) = 1 + Z.of_nat k.
Proof.
  intros Ht1 Hall Hb Hlen k.
  rewrite after_cons. cbn [calls map].
  rewrite call_at_admitted, call_at_reported.
  rewrite (Check_first t1 (fresh burst interval)) by reflexivity. cbn [fst snd].
  set (r1 := start_interval t1 (fresh burst interval)).
  destruct (within_interval_run nows r1) as [Hm Ha]; subst r1; cbn.
  - apply Z.eqb_neq, Ht1.
  - exact Hall.
  - unfold int_range. lia.
  - exact Hb.
  - lia.
  - lia.
  - cbn in Hm, Ha. fold k in Hm, Ha. rewrite Hm, Ha.
    unfold Suppressed. cbn. repeat split; lia.
Qed.

Lemma burst_bounds_one_interval_witness :
  map (fun c => (c_admitted c, c_reported c))
      (calls (fresh 2 10) [5; 6; 7; 15; 9])
  = [(true, 0); (true, 0); (false, 0); (false, 0); (false, 0)] /\
  Suppressed (after (fresh 2 10) [5; 6; 7; 15; 9]) = 3 /\
  num (after (fresh 2 10) [5; 6; 7; 15; 9]) = 2.
Proof.
  apply (burst_bounds_one_interval 2 10 5 [6; 7; 15; 9]).
  - discriminate.
  - repeat constructor; lia.
  - lia.
  - cbn. lia.
Defined.

(** X2: the counters stay within the configuration.  After any run of
    one call or more on a freshly built limiter, Burst and Interval are
    as configured, the interval began at the reading of one of the calls,
    the number of allowed messages is at least 1 and at most the burst
    (or 1 for a burst below 1), the number of suppressed messages is
    between 0 and the number of calls, and messages are suppressed only
    when the burst is used up. *)
Theorem limiter_counters_bounded (burst interval now : Z) (nows : list Z) :
  burst < 2 ^ 63 ->
  Z.of_nat (length nows) < 2 ^ 63 ->
  let r := after (fresh burst interval) (now :: nows) in
  Burst r = burst /\ Interval r = interval /\
  begin r ∈ now :: nows /\
  1 <= num r <= Z.max 1 burst /\
  0 <= Suppressed r <= Z.of_nat (length nows) /\
  (0 < Suppressed r -> burst <= num r).
Proof.
  intros Hb Hlen r. subst r. rewrite after_cons.
  rewrite (Check_first now (fresh burst interval)) by reflexivity. cbn [snd].
  destruct (counting_after nows (start_interval now (fresh burst interval)))
    as ((Hn & Hs0 & Hfull) & Hs & HB & HI & Hbeg).
  - exact Hb.
  - apply counting_start.
  - cbn. lia.
  - cbn in Hs, HB, HI, Hbeg. rewrite HB in Hn, Hfull. unfold Suppressed.
    repeat split; try assumption; try lia.
    destruct Hbeg as [-> | Hin];
      [apply list_elem_of_here | apply list_elem_of_further, Hin].
Qed.

Lemma limiter_counters_bounded_witness :
  let r := after (fresh 0 10) [5; 6; 7; 30; 31] in
  Burst r = 0 /\ Interval r = 10 /\
  begin r ∈ [5; 6; 7; 30; 31] /\
  1 <= num r <= Z.max 1 0 /\
  0 <= Suppressed r <= Z.of_nat 4 /\
  (0 < Suppressed r -> 0 <= num r).
Proof.
  apply (limiter_counters_bounded 0 10 5 [6; 7; 30; 31]).
  - lia.
  - cbn. lia.
Defined.

End RateLimitFacts.

(** ** The journald driver *)

Section JournaldFacts.
Import RateLimit Journald.

Variable Atoi : string -> res Z.
Variable ParseDuration : string -> res Z.
Variable ParseLogTag : Context -> string -> res string.
Variable ExtraAttributes : Context -> (string -> string) -> gmap string string.
Variable ToTitle : string -> string.


Lemma newRateLimit_returns labels h :
  exists limiter h',
    Journald.newRateLimit Atoi ParseDuration labels h = (Returned limiter, h').
Proof.
  unfold Journald.newRateLimit.
  repeat (case_match; try (eexists _, _; reflexivity)).
Qed.

Lemma newRateLimit_Some labels h limiter :
  fst (Journald.newRateLimit Atoi ParseDuration labels h)
  = Returned (Some limiter) <->
  exists burst interval,
    Journald.labels_select Atoi ParseDuration labels burst interval /\
    limiter = fresh burst interval.
Proof.
  unfold Journald.newRateLimit, Journald.labels_select.
  destruct (labels !! burstKey) as [b|] eqn:Hb;
    destruct (labels !! intervalKey) as [i|] eqn:Hi; cbn.
  - destruct (Atoi b) as [burst|e1] eqn:Ha; cbn.
    + destruct (ParseDuration i) as [interval|e2] eqn:Hp; cbn.
      * split.
        -- intros [= <-]. exists burst, interval. split; [|reflexivity].
           exists b, i. auto.
        -- intros (burst' & interval' & (b' & i' & [= <-] & [= <-] & Ha' & Hp') & ->).
           congruence.
      * split; [discriminate|].
        intros (burst' & interval' & (b' & i' & [= <-] & [= <-] & Ha' & Hp') & _).
        congruence.
    + split; [discriminate|].
      intros (burst' & interval' & (b' & i' & [= <-] & [= <-] & Ha' & Hp') & _).
      congruence.
  - split; [discriminate|].
    intros (_ & _ & (b' & i' & _ & Hi' & _) & _). discriminate.
  - split; [discriminate|].
    intros (_ & _ & (b' & i' & Hb' & _) & _). discriminate.
  - split; [discriminate|].
    intros (_ & _ & (b' & i' & Hb' & _) & _). discriminate.
Qed.

(** What [New] returns carries the limiter that [newRateLimit] makes of
    the container's labels. *)
Lemma New_rateLimit ctx h s :
  fst (Journald.New Atoi ParseDuration ParseLogTag ExtraAttributes ToTitle ctx h)
  = Returned (ok s) ->
  exists h0,
    fst (Journald.newRateLimit Atoi ParseDuration (ContainerLabels ctx) h0)
    = Returned (rateLimit s).
Proof.
  unfold Journald.New, bind, get, ret, strip_leading_slash, slice_to, panic.
  destruct (journal_enabled h); cbn -[Nat.leb substring]; [|discriminate].
  destruct (ContainerName ctx) as [|c rest]; cbn -[Nat.leb substring]; [discriminate|].
  destruct (ParseLogTag ctx "") as [tag|e]; cbn -[Nat.leb substring]; [|discriminate].
  destruct (12 <=? String.length (ContainerID ctx))%nat; cbn -[Nat.leb substring];
    [|discriminate].
  destruct (newRateLimit_returns (ContainerLabels ctx) h) as (limiter & h' & E).
  rewrite E. cbn. intros [= <-]. exists h.
  rewrite E. reflexivity.
Qed.

(** The event metadata of a driver that [New] returns is its plain
    metadata with the event flag added, and the flag reads true unless an
    extra attribute of the container goes by the same name. *)
Lemma New_eVars ctx h s :
  fst (Journald.New Atoi ParseDuration ParseLogTag ExtraAttributes ToTitle ctx h)
  = Returned (ok s) ->
  eVars s = vars s ∪ {["DOCKER_EVENT" := "true"]} /\
  (ExtraAttributes ctx ToTitle !! "DOCKER_EVENT" = None ->
   eVars s !! "DOCKER_EVENT" = Some "true").
Proof.
  unfold Journald.New, bind, get, ret, strip_leading_slash, slice_to, panic.
  destruct (journal_enabled h); cbn -[Nat.leb substring]; [|discriminate].
  destruct (ContainerName ctx) as [|c rest]; cbn -[Nat.leb substring]; [discriminate|].
  destruct (ParseLogTag ctx "") as [tag|e]; cbn -[Nat.leb substring]; [|discriminate].
  destruct (12 <=? String.length (ContainerID ctx))%nat; cbn -[Nat.leb substring];
    [|discriminate].
  destruct (newRateLimit_returns (ContainerLabels ctx) h) as (limiter & h' & E).
  rewrite E. cbn -[substring]. intros [= <-]. cbn -[substring].
  split; [reflexivity|]. intros Hextra.
  apply lookup_union_Some_raw. right. split.
  - apply lookup_union_None. split; [exact Hextra|].
    repeat (rewrite lookup_insert_ne by discriminate). apply lookup_empty.
  - apply lookup_singleton_eq.
Qed.

(** Without a limiter every message is handed to the journal. *)
Lemma Log_unlimited msg s h :
  rateLimit s = None ->
  exists p vs,
    Log msg s h = (Returned (send_result h (length (sends h)), s),
                   push_send (mkEntry (Line msg) p vs) h).
Proof.
  intros Hnone. unfold Log, forward. rewrite Hnone.
  destruct (String.eqb (Source msg) "event");
    [|destruct (String.eqb (Source msg) "stderr")];
    eexists _, _; reflexivity.
Qed.

(** C3: a message whose source tag is "event" is handed to the journal
    by Log whatever the state of the rate limiter: exactly one entry is
    sent, at the priority PriWarning, which no regular message is sent at,
    with the event-flagged metadata; Log returns what the journal
    returned; the clock is not read and the driver, its limiter and the
    limiter's counters included, is left as it was. *)
Theorem Log_event_bypasses_limiter (msg : Message) (s : journald) (h : Host) :
  Source msg = "event" ->
  Log msg s h
  = (Returned (send_result h (length (sends h)), s),
     push_send (mkEntry (Line msg) PriWarning (eVars s)) h) /\
  clock_reads (snd (Log msg s h)) = clock_reads h /\
  (forall regular s' h', exists p,
     forward regular s' h'
     = (Returned (send_result h' (length (sends h'))),
        push_send (mkEntry (Line regular) p (vars s')) h') /\
     p <> PriWarning).
Proof.
  intros Hsrc.
  assert (E : Log msg s h
              = (Returned (send_result h (length (sends h)), s),
                 push_send (mkEntry (Line msg) PriWarning (eVars s)) h)).
  { unfold Log. rewrite Hsrc. reflexivity. }
  split; [exact E|]. split; [rewrite E; reflexivity|].
  intros regular s' h'. unfold forward.
  destruct (String.eqb (Source regular) "stderr");
    [exists PriErr | exists PriInfo]; split; try reflexivity; discriminate.
Qed.

(** C7: the driver that New returns has a rate limiter if and only if
    both the burst label and the interval label are present and parse, as
    an integer and as a duration, and the limiter is then the fresh one
    with these two values; in every other case the driver has none, and
    Log hands every message to the journal without dropping any. *)
Theorem rate_limiter_created_iff (ctx : Context) (h : Host) (s : journald) :
  fst (Journald.New Atoi ParseDuration ParseLogTag ExtraAttributes ToTitle ctx h)
  = Returned (ok s) ->
  (forall limiter,
     rateLimit s = Some limiter <->
     exists burst interval,
       Journald.labels_select Atoi ParseDuration (ContainerLabels ctx) burst interval /\
       limiter = fresh burst interval) /\
  ((~ exists burst interval,
        Journald.labels_select Atoi ParseDuration (ContainerLabels ctx) burst interval) ->
   rateLimit s = None /\
   forall msg h', exists p vs,
     Log msg s h' = (Returned (send_result h' (length (sends h')), s),
                     push_send (mkEntry (Line msg) p vs) h')).
Proof.
  intros Hnew. destruct (New_rateLimit ctx h s Hnew) as (h0 & Hrl).
  assert (Hiff : forall limiter,
     rateLimit s = Some limiter <->
     exists burst interval,
       Journald.labels_select Atoi ParseDuration (ContainerLabels ctx) burst interval /\
       limiter = fresh burst interval).
  { intros limiter. rewrite <- (newRateLimit_Some (ContainerLabels ctx) h0 limiter).
    rewrite Hrl. split; [intros ->; reflexivity | intros [= ->]; reflexivity]. }
  split; [exact Hiff|].
  intros Hno.
  assert (Hnone : rateLimit s = None).
  { destruct (rateLimit s) as [limiter|] eqn:E; [|reflexivity].
    exfalso. apply Hno. destruct (proj1 (Hiff limiter) eq_refl) as (b & i & Hsel & _).
    eauto. }
  split; [exact Hnone|].
  intros msg h'. apply Log_unlimited, Hnone.
Qed.

(** C9: New reads the first byte of the container name and the first
    twelve bytes of the container id without a test of its own.  With a
    non-empty name and an id of at least twelve bytes New returns, on
    every host and whatever its helpers answer; with an empty name, or
    with an id shorter than twelve bytes, New panics on a host where the
    journal is enabled and the log tag parses. *)
Theorem New_reads_in_bounds (ctx : Context) :
  (ContainerName ctx <> EmptyString ->
   (12 <= String.length (ContainerID ctx))%nat ->
   forall h, exists r h',
     Journald.New Atoi ParseDuration ParseLogTag ExtraAttributes ToTitle ctx h
     = (Returned r, h')) /\
  (ContainerName ctx = EmptyString \/
   (String.length (ContainerID ctx) < 12)%nat ->
   forall h tag, journal_enabled h = true -> ParseLogTag ctx EmptyString = ok tag ->
   exists why,
     Journald.New Atoi ParseDuration ParseLogTag ExtraAttributes ToTitle ctx h
     = (Panicked why, h)).
Proof.
  unfold Journald.New, bind, get, ret, strip_leading_slash, slice_to, panic.
  split.
  - intros Hname Hid h.
    destruct (journal_enabled h); cbn -[Nat.leb substring];
      [|eexists _, _; reflexivity].
    destruct (ContainerName ctx) as [|c rest]; [contradiction|].
    cbn -[Nat.leb substring].
    destruct (ParseLogTag ctx "") as [tag|e]; [|eexists _, _; reflexivity].
    rewrite (proj2 (Nat.leb_le _ _) Hid). cbn -[Nat.leb substring].
    destruct (newRateLimit_returns (ContainerLabels ctx) h) as (limiter & h' & E).
    rewrite E. eexists _, _; reflexivity.
  - intros Hbad h tag Hen Htag. rewrite Hen, Htag. cbn -[Nat.leb substring].
    destruct (ContainerName ctx) as [|c rest] eqn:Hname.
    + eexists; reflexivity.
    + destruct Hbad as [Hbad|Hbad]; [discriminate|].
      cbn -[Nat.leb substring].
      rewrite (proj2 (Nat.leb_gt _ _) Hbad). eexists; reflexivity.
Qed.

(** *** Messages from the container *)

Lemma advance_advance n1 es1 l1 n2 es2 l2 h :
  advance n2 es2 l2 (advance n1 es1 l1 h)
  = advance (n1 + n2) (es1 ++ es2) (l1 ++ l2) h.
Proof.
  unfold advance. cbn. f_equal; try lia; symmetry; apply app_assoc.
Qed.

Lemma readings_succ h n es lines :
  readings h (S n)
  = clock h (clock_reads h) :: readings (advance 1 es lines h) n.
Proof.
  unfold readings. cbn [seq map advance clock clock_reads].
  rewrite Nat.add_0_r. f_equal.
  rewrite <- seq_shift, map_map. apply map_ext. intros k. f_equal. lia.
Qed.

(** One regular message on a limited driver: the clock is read once, the
    limiter makes its call, and the journal is handed [entries_for]. *)
Lemma Log_regular msg s r h :
  Source msg <> "event" ->
  rateLimit s = Some r ->
  let c := call_at (clock h (clock_reads h)) r in
  exists err lines,
    Log msg s h
    = (Returned (err, set_rateLimit (Some (c_post c)) s),
       advance 1 (entries_for s msg c) lines h) /\
    (c_admitted c = false -> err = None /\ lines = []) /\
    (c_admitted c = true ->
       err = send_result h (length (sends h ++ entries_for s msg c) - 1)) /\
    (c_admitted c = true -> 0 < c_reported c ->
       lines = match send_result h (length (sends h)) with
               | Some e => ["Couldn't send suppressed message: " +:+ e]
               | None => []
               end) /\
    (c_reported c <= 0 -> lines = []).
Proof.
  intros Hsrc Hrl c.
  assert (Hev : String.eqb (Source msg) "event" = false)
    by (apply String.eqb_neq, Hsrc).
  unfold Log. rewrite Hev, Hrl. subst c.
  unfold call_at, entries_for, regular_entry, dropped_entry, dropped_message,
    sendSuppressedMessage, forward, bind, Now, Send, Journald.Errorf, modify, ret.
  cbn -[Check].
  destruct (Check (clock h (clock_reads h)) r) as [[allowed n] r'] eqn:E.
  assert (Hadv : forall es lines,
            {| journal_enabled := journal_enabled h; clock := clock h;
               clock_reads := S (clock_reads h);
               send_result := send_result h; sends := sends h ++ es;
               logrus := logrus h ++ lines |}
            = advance 1 es lines h)
    by (intros; unfold advance; rewrite Nat.add_1_r; reflexivity).
  cbn. destruct allowed; cbn.
  - destruct (0 <? n) eqn:Hn; cbn.
    + apply Z.ltb_lt in Hn.
      destruct (send_result h (length (sends h))) as [e|] eqn:Hres; cbn;
        destruct (String.eqb (Source msg) "stderr"); cbn;
        rewrite <- ?app_assoc; cbn [app];
        [ exists (send_result h (length (sends h ++ [mkEntry (dropped_message n) PriWarning (eVars s)]))),
                 ["Couldn't send suppressed message: " +:+ e]
        | exists (send_result h (length (sends h ++ [mkEntry (dropped_message n) PriWarning (eVars s)]))),
                 ["Couldn't send suppressed message: " +:+ e]
        | exists (send_result h (length (sends h ++ [mkEntry (dropped_message n) PriWarning (eVars s)]))),
                 []
        | exists (send_result h (length (sends h ++ [mkEntry (dropped_message n) PriWarning (eVars s)]))),
                 [] ];
        (split; [rewrite <- Hadv; unfold push_logrus, push_send, tick, dropped_message;
                 cbn; rewrite <- ?app_assoc, ?app_nil_r; reflexivity|]);
        (split; [discriminate|]);
        (split; [intros _; rewrite !length_app; cbn; f_equal; lia|]);
        (split; [reflexivity|]); lia.
    + apply Z.ltb_ge in Hn.
      destruct (String.eqb (Source msg) "stderr"); cbn;
        exists (send_result h (length (sends h))), [];
        (split; [rewrite <- Hadv; unfold push_send, tick; cbn;
                 rewrite ?app_nil_r; reflexivity|]);
        (split; [discriminate|]);
        (split; [intros _; rewrite !length_app; cbn; f_equal; lia|]);
        (split; [intros _ Hpos; lia|]); reflexivity.
  - exists None, []. split.
    + rewrite <- Hadv. unfold tick. cbn. rewrite ?app_nil_r. reflexivity.
    + repeat split; auto; discriminate.
Qed.

Lemma set_rateLimit_same s : set_rateLimit (rateLimit s) s = s.
Proof. destruct s. reflexivity. Qed.

Lemma advance_nothing h : advance 0 [] [] h = h.
Proof.
  destruct h. unfold advance. cbn. rewrite Nat.add_0_r, !app_nil_r. reflexivity.
Qed.

(** A run of regular messages on a limited driver: one call of the
    limiter per message, at the successive readings of the clock, and
    the journal is handed the entries of each call in order. *)
Lemma Logs_regular msgs : forall s r h,
  Forall (fun m => Source m <> "event") msgs ->
  rateLimit s = Some r ->
  exists errs lines,
    Logs msgs s h
    = (Returned (errs, set_rateLimit (Some (after r (readings h (length msgs)))) s),
       advance (length msgs)
         (concat (zip_with (entries_for s) msgs
                    (calls r (readings h (length msgs)))))
         lines h) /\
    length errs = length msgs.
Proof.
  induction msgs as [|msg msgs IH]; intros s r h Hall Hrl.
  - exists [], []. cbn. unfold ret. rewrite advance_nothing, <- Hrl, set_rateLimit_same.
    split; reflexivity.
  - apply Forall_cons in Hall as [Hsrc Hall].
    destruct (Log_regular msg s r h Hsrc Hrl) as (err & lines & HLog & _).
    set (c := call_at (clock h (clock_reads h)) r) in *.
    set (s1 := set_rateLimit (Some (c_post c)) s) in *.
    set (h1 := advance 1 (entries_for s msg c) lines h) in *.
    destruct (IH s1 (c_post c) h1 Hall eq_refl) as (errs & lines' & HLogs & Hlen).
    exists (err :: errs), (lines ++ lines').
    cbn [Logs length]. unfold bind at 1. rewrite HLog.
    unfold bind at 1. rewrite HLogs. unfold ret.
    rewrite (readings_succ h (length msgs) (entries_for s msg c) lines).
    fold h1. cbn [calls zip_with concat]. rewrite after_cons.
    fold c. subst c. rewrite call_at_post. fold h1.
    subst h1. rewrite advance_advance. cbn [Nat.add].
    split; [|cbn; lia].
    reflexivity.
Qed.

Lemma is_notice_regular s msg : is_notice (regular_entry s msg) = false.
Proof.
  unfold is_notice, regular_entry. cbn.
  destruct (String.eqb (Source msg) "stderr"); reflexivity.
Qed.

(** The entries of one call, sorted into notices and messages. *)
Lemma entries_for_tally s msg now r :
  idle_clean r -> 0 <= suppressed r -> suppressed r + 1 < 2 ^ 63 ->
  let es := entries_for s msg (call_at now r) in
  exists counts,
    map e_message (List.filter is_notice es) = map dropped_message counts /\
    Forall (fun n => 0 < n) counts /\
    Z.of_nat (length (List.filter (fun e => negb (is_notice e)) es))
    + sum_counts counts + suppressed (snd (Check now r))
    = suppressed r + 1.
Proof.
  intros Hclean H0 H1 es. subst es. unfold entries_for.
  rewrite call_at_admitted, call_at_reported.
  destruct (IsZero (begin r)) eqn:Hz.
  { rewrite (Check_first now r Hz). cbn [fst snd Z.ltb Z.compare app List.filter].
    rewrite is_notice_regular. cbn. exists []. rewrite (Hclean Hz).
    split; [reflexivity|]; split; [apply Forall_nil|]; unfold sum_counts; cbn; lia. }
  destruct (Z.lt_ge_cases (begin r + Interval r) now) as [Hleft | Hin].
  { rewrite (Check_new_interval now r Hz Hleft). cbn [fst snd].
    destruct (0 <? suppressed r) eqn:Hpos; cbn [app List.filter];
      rewrite ?is_notice_regular; cbn.
    - apply Z.ltb_lt in Hpos. exists [suppressed r]. cbn.
      split; [reflexivity|]; split; [repeat constructor; exact Hpos|]; unfold sum_counts; cbn; lia.
    - apply Z.ltb_ge in Hpos. exists []. cbn.
      split; [reflexivity|]; split; [apply Forall_nil|]; unfold sum_counts; cbn; lia. }
  destruct (Z.lt_ge_cases (num r) (Burst r)) as [Hroom | Hfull].
  { rewrite (Check_within_burst now r Hz Hin Hroom).
    cbn [fst snd Z.ltb Z.compare app List.filter].
    rewrite is_notice_regular. cbn. exists [].
    split; [reflexivity|]; split; [apply Forall_nil|]; unfold sum_counts; cbn; lia. }
  rewrite (Check_over_burst now r Hz Hin Hfull). cbn. exists [].
  rewrite int_wrap_id by (unfold int_range; lia).
  split; [reflexivity|]; split; [apply Forall_nil|]; unfold sum_counts; cbn; lia.
Qed.

Lemma journal_tally s msgs : forall nows r,
  length nows = length msgs ->
  idle_clean r -> 0 <= suppressed r ->
  suppressed r + Z.of_nat (length msgs) < 2 ^ 63 ->
  let new := concat (zip_with (entries_for s) msgs (calls r nows)) in
  exists counts,
    map e_message (List.filter is_notice new) = map dropped_message counts /\
    Forall (fun n => 0 < n) counts /\
    Z.of_nat (length (List.filter (fun e => negb (is_notice e)) new))
    + sum_counts counts + suppressed (after r nows)
    = suppressed r + Z.of_nat (length msgs).
Proof.
  induction msgs as [|msg msgs IH]; intros nows r Hlen Hclean H0 Hbound new.
  - destruct nows; [|discriminate]. subst new. cbn. exists [].
    split; [reflexivity|]; split; [apply Forall_nil|]; unfold sum_counts; cbn; lia.
  - destruct nows as [|now nows]; [discriminate|].
    injection Hlen as Hlen. cbn [length] in Hbound.
    assert (H1 : suppressed r + 1 < 2 ^ 63) by lia.
    destruct (entries_for_tally s msg now r Hclean H0 H1)
      as (counts1 & Hn1 & Hp1 & Ht1).
    destruct (IH nows (snd (Check now r)) Hlen
                (idle_clean_Check now r Hclean)
                (suppressed_Check_nonneg now r H0 H1))
      as (counts2 & Hn2 & Hp2 & Ht2).
    { pose proof (suppressed_Check now r H0 H1). lia. }
    subst new. cbn [calls zip_with concat]. rewrite after_cons.
    rewrite !List.filter_app, !map_app, !length_app.
    exists (counts1 ++ counts2).
    rewrite Hn1, Hn2, map_app. split; [reflexivity|].
    split; [apply Forall_app; split; assumption|].
    assert (Hsum : sum_counts (counts1 ++ counts2)
                   = sum_counts counts1 + sum_counts counts2).
    { unfold sum_counts. clear. induction counts1 as [|a l IHl]; cbn; lia. }
    rewrite Hsum. cbn [length]. lia.
Qed.

(** X3: what the journal sees of a run of messages from the container.
    On a driver with a limiter, for messages none of which is tagged
    "event", Log makes one call of the limiter per message at the
    successive readings of the clock, and hands the journal, in order and
    for each admitted message only, the notice of suppressed lines when
    the call reports a positive count and then the message itself, with
    the plain metadata, at PriErr for stderr and PriInfo otherwise; Log
    never panics on them. *)
Theorem Logs_follow_the_limiter (msgs : list Message) (s : journald)
    (r : RateLimit.rateLimit) (h : Host) :
  Forall (fun m => Source m <> "event") msgs ->
  rateLimit s = Some r ->
  let nows := readings h (length msgs) in
  exists errs h',
    Logs msgs s h
    = (Returned (errs, set_rateLimit (Some (after r nows)) s), h') /\
    length errs = length msgs /\
    sends h' = sends h ++ concat (zip_with (entries_for s) msgs (calls r nows)) /\
    clock_reads h' = (clock_reads h + length msgs)%nat.
Proof.
  intros Hall Hrl nows.
  destruct (Logs_regular msgs s r h Hall Hrl) as (errs & lines & HLogs & Hlen).
  exists errs. eexists. split; [exact HLogs|]. repeat split. exact Hlen.
Qed.

(** X4: no line is lost track of.  After any run of messages from the
    container on a driver whose limiter is freshly built, every message
    is either in the journal as a regular entry, or counted in exactly
    one notice of suppressed lines, each notice carrying a positive
    count, or counted in what Suppressed returns. *)
Theorem every_line_accounted_for (msgs : list Message) (s : journald)
    (burst interval : Z) (h : Host) :
  Forall (fun m => Source m <> "event") msgs ->
  rateLimit s = Some (fresh burst interval) ->
  Z.of_nat (length msgs) < 2 ^ 63 ->
  exists errs s' h' r' new counts,
    Logs msgs s h = (Returned (errs, s'), h') /\
    rateLimit s' = Some r' /\
    sends h' = sends h ++ new /\
    map e_message (List.filter is_notice new) = map dropped_message counts /\
    Forall (fun n => 0 < n) counts /\
    Z.of_nat (length msgs)
    = Z.of_nat (length (List.filter (fun e => negb (is_notice e)) new))
      + sum_counts counts + Suppressed r'.
Proof.
  intros Hall Hrl Hlen.
  destruct (Logs_regular msgs s (fresh burst interval) h Hall Hrl)
    as (errs & lines & HLogs & _).
  set (nows := readings h (length msgs)) in *.
  destruct (journal_tally s msgs nows (fresh burst interval))
    as (counts & Hn & Hp & Ht).
  - subst nows. unfold readings. rewrite length_map, length_seq. reflexivity.
  - apply idle_clean_fresh.
  - cbn. lia.
  - cbn. lia.
  - eexists errs, _, _, (after (fresh burst interval) nows), _, counts.
    split; [exact HLogs|]. split; [reflexivity|]. split; [reflexivity|].
    split; [exact Hn|]. split; [exact Hp|].
    unfold Suppressed. cbn [suppressed fresh] in Ht. lia.
Qed.

(** X5: a notice of suppressed lines that the journal refuses costs
    nothing but a line in the diagnostic log.  When the limiter admits a
    message and reports [n > 0] suppressed lines, Log hands the journal
    the notice first and the message second; what the journal answers to
    the notice is written to the diagnostic log if it is an error, and
    the error that Log returns is the journal's answer to the message
    alone. *)
Theorem notice_failure_is_logged_only (msg : Message) (s : journald)
    (r r' : RateLimit.rateLimit) (n : Z) (h : Host) :
  Source msg <> "event" ->
  rateLimit s = Some r ->
  Check (clock h (clock_reads h)) r = ((true, n), r') ->
  0 < n ->
  Log msg s h
  = (Returned (send_result h (S (length (sends h))),
               set_rateLimit (Some r') s),
     advance 1 [dropped_entry s n; regular_entry s msg]
       match send_result h (length (sends h)) with
       | Some e => ["Couldn't send suppressed message: " +:+ e]
       | None => []
       end h).
Proof.
  intros Hsrc Hrl HCheck Hn.
  destruct (Log_regular msg s r h Hsrc Hrl) as (err & lines & HLog & _ & Herr & Hlines & _).
  unfold entries_for in *.
  rewrite call_at_admitted, call_at_reported, call_at_post, HCheck in *.
  cbn [fst snd] in *.
  rewrite (proj2 (Z.ltb_lt 0 n) Hn) in *. cbn [app] in *.
  rewrite HLog, (Herr eq_refl), (Hlines eq_refl Hn).
  rewrite length_app. cbn [length].
  replace (length (sends h) + 2 - 1)%nat with (S (length (sends h))) by lia.
  reflexivity.
Qed.

(** X6: what Log never does.  For every message, driver and host, Log
    returns (it never panics); it leaves the metadata and the watchers of
    the driver alone, neither installs nor removes a limiter and never
    changes a limiter's Burst or Interval; it reads the clock at most
    once; and it only appends to the journal, at most two entries, each
    carrying the plain or the event-flagged metadata of the driver. *)
Theorem Log_frame (msg : Message) (s : journald) (h : Host) :
  exists err s' es lines (reads : nat),
    Log msg s h = (Returned (err, s'), advance reads es lines h) /\
    (reads <= 1)%nat /\ (length es <= 2)%nat /\
    Forall (fun e => e_vars e = vars s \/ e_vars e = eVars s) es /\
    vars s' = vars s /\ eVars s' = eVars s /\ readers s' = readers s /\
    match rateLimit s, rateLimit s' with
    | None, None => True
    | Some r, Some r' => Burst r' = Burst r /\ Interval r' = Interval r
    | _, _ => False
    end.
Proof.
  assert (Hpush : forall e, push_send e h = advance 0 [e] [] h).
  { intros e. unfold push_send, advance. rewrite Nat.add_0_r, app_nil_r. reflexivity. }
  destruct (String.eqb (Source msg) "event") eqn:Hev.
  { exists (send_result h (length (sends h))), s,
      [mkEntry (Line msg) PriWarning (eVars s)], [], 0%nat.
    split; [unfold Log; rewrite Hev, <- Hpush; reflexivity|].
    split; [lia|]. split; [cbn; lia|].
    split; [constructor; [right; reflexivity | constructor]|].
    do 3 (split; [reflexivity|]).
    destruct (rateLimit s); auto. }
  destruct (rateLimit s) as [r|] eqn:Hrl.
  - apply String.eqb_neq in Hev.
    destruct (Log_regular msg s r h Hev Hrl) as (err & lines & HLog & _).
    eexists err, _, _, lines, 1%nat. split; [exact HLog|].
    split; [lia|].
    assert (Hes : (length (entries_for s msg (call_at (clock h (clock_reads h)) r)) <= 2)%nat
                  /\ Forall (fun e => e_vars e = vars s \/ e_vars e = eVars s)
                        (entries_for s msg (call_at (clock h (clock_reads h)) r))).
    { unfold entries_for.
      destruct (c_admitted _); [|split; [cbn; lia | constructor]].
      destruct (0 <? c_reported _); cbn; (split; [lia|]);
        repeat (constructor; [auto|]); constructor. }
    destruct Hes as [Hlen Hvars].
    split; [exact Hlen|]. split; [exact Hvars|].
    cbn [vars eVars readers rateLimit set_rateLimit].
    rewrite call_at_post, Burst_Check, Interval_Check. auto.
  - destruct (Log_unlimited msg s h Hrl) as (p & vs & HLog).
    unfold Log, forward in HLog |- *. rewrite Hev, Hrl in HLog |- *.
    exists (send_result h (length (sends h))), s,
      [mkEntry (Line msg) (if String.eqb (Source msg) "stderr" then PriErr else PriInfo)
         (vars s)], [], 0%nat.
    split.
    { rewrite <- Hpush. destruct (String.eqb (Source msg) "stderr"); reflexivity. }
    rewrite Hrl. split; [lia|]. split; [cbn; lia|].
    split; [constructor; [left; reflexivity | constructor]|].
    repeat split.
Qed.

(** *** The constructor *)

Lemma substring_all (s : string) : substring 0 (String.length s) s = s.
Proof. induction s as [|c s IHs]; cbn; [reflexivity|]. f_equal. exact IHs. Qed.

Lemma substring_split (n : nat) : forall s : string,
  (n <= String.length s)%nat ->
  s = substring 0 n s +:+ substring n (String.length s - n) s /\
  String.length (substring 0 n s) = n.
Proof.
  induction n as [|n IH]; intros s Hn.
  - rewrite Nat.sub_0_r, substring_all. destruct s; split; reflexivity.
  - destruct s as [|c s]; cbn in Hn; [lia|].
    destruct (IH s) as [Hs Hl]; [lia|]. cbn. split.
    + rewrite Hs at 1. reflexivity.
    + f_equal. exact Hl.
Qed.

(** How the log lines of [newRateLimit] leave the host. *)
Lemma newRateLimit_lines labels h :
  exists limiter lines,
    Journald.newRateLimit Atoi ParseDuration labels h
    = (Returned limiter, advance 0 [] lines h) /\
    (length lines <= 1)%nat /\
    (lines = [] <->
     limiter <> None \/
     (labels !! burstKey = None /\ labels !! intervalKey = None)).
Proof.
  assert (Hsame : forall lines, fold_left (fun h t => push_logrus t h) lines h
                                = advance 0 [] lines h).
  { intros lines. revert h. induction lines as [|l lines IHl]; intros h; cbn.
    - symmetry. apply advance_nothing.
    - rewrite IHl. unfold advance, push_logrus. cbn.
      rewrite <- app_assoc. reflexivity. }
  unfold Journald.newRateLimit.
  destruct (labels !! burstKey) as [b|] eqn:Hb;
    destruct (labels !! intervalKey) as [i|] eqn:Hi; cbn.
  - destruct (Atoi b) as [burst|e1]; cbn.
    + destruct (ParseDuration i) as [interval|e2]; cbn.
      * exists (Some (fresh burst interval)), []. rewrite <- (Hsame []).
        split; [reflexivity|]. split; [cbn; lia|].
        split; [left; discriminate | reflexivity].
      * eexists None, [_]. rewrite <- (Hsame [_]).
        split; [reflexivity|]. split; [cbn; lia|].
        split; [discriminate|]. intros [Hn | [Hn _]]; [contradiction | discriminate].
    + eexists None, [_]. rewrite <- (Hsame [_]).
      split; [reflexivity|]. split; [cbn; lia|].
      split; [discriminate|]. intros [Hn | [Hn _]]; [contradiction | discriminate].
  - eexists None, [_]. rewrite <- (Hsame [_]).
    split; [reflexivity|]. split; [cbn; lia|].
    split; [discriminate|]. intros [Hn | [Hn _]]; [contradiction | discriminate].
  - eexists None, [_]. rewrite <- (Hsame [_]).
    split; [reflexivity|]. split; [cbn; lia|].
    split; [discriminate|]. intros [Hn | [_ Hn]]; [contradiction | discriminate].
  - exists None, []. rewrite <- (Hsame []).
    split; [reflexivity|]. split; [cbn; lia|].
    split; [right; split; reflexivity | reflexivity].
Qed.

(** A successful call of [New], taken apart. *)
Lemma New_success ctx h s h' :
  Journald.New Atoi ParseDuration ParseLogTag ExtraAttributes ToTitle ctx h
  = (Returned (ok s), h') ->
  exists c rest tag,
    journal_enabled h = true /\
    ContainerName ctx = String c rest /\
    ParseLogTag ctx EmptyString = ok tag /\
    (12 <= String.length (ContainerID ctx))%nat /\
    vars s
    = ExtraAttributes ctx ToTitle
      ∪ base_vars (substring 0 12 (ContainerID ctx)) (ContainerID ctx)
          (if Ascii.eqb c "/" then rest else String c rest) tag /\
    eVars s = vars s ∪ {["DOCKER_EVENT" := "true"]} /\
    readers s = ∅ /\
    Journald.newRateLimit Atoi ParseDuration (ContainerLabels ctx) h
    = (Returned (rateLimit s), h').
Proof.
  unfold Journald.New, bind, get, ret, strip_leading_slash, slice_to, panic.
  destruct (journal_enabled h); cbn -[Nat.leb substring]; [|discriminate].
  destruct (ContainerName ctx) as [|c rest]; cbn -[Nat.leb substring]; [discriminate|].
  destruct (ParseLogTag ctx "") as [tag|e]; cbn -[Nat.leb substring]; [|discriminate].
  destruct (12 <=? String.length (ContainerID ctx))%nat eqn:Hlen;
    cbn -[Nat.leb substring]; [|discriminate].
  destruct (newRateLimit_returns (ContainerLabels ctx) h) as (limiter & h1 & E).
  rewrite E. cbn -[substring]. intros [= <- <-]. cbn -[substring].
  exists c, rest, tag. apply Nat.leb_le in Hlen.
  repeat split; try reflexivity; assumption.
Qed.

(** X7: New checks the journal, then the name, then the tag, and the id
    last.  On a host without the journal New returns the error that says
    so for every context, one with an empty name or a short id included,
    and touches nothing; on a host with the journal an empty name makes
    New panic on the first byte of the name before the tag is parsed,
    whatever the tag and the id; and with a name that is not empty, a log
    tag that does not parse makes New return the parser's error as it is,
    whatever the length of the id. *)
Theorem New_errors_come_first (ctx : Context) (h : Host) :
  (journal_enabled h = false ->
   Journald.New Atoi ParseDuration ParseLogTag ExtraAttributes ToTitle ctx h
   = (Returned (fail "journald is not enabled on this host"), h)) /\
  (journal_enabled h = true -> ContainerName ctx = EmptyString ->
   Journald.New Atoi ParseDuration ParseLogTag ExtraAttributes ToTitle ctx h
   = (Panicked "index out of range", h)) /\
  (journal_enabled h = true -> ContainerName ctx <> EmptyString ->
   forall err, ParseLogTag ctx EmptyString = fail err ->
   Journald.New Atoi ParseDuration ParseLogTag ExtraAttributes ToTitle ctx h
   = (Returned (fail err), h)).
Proof.
  unfold Journald.New, bind, get, ret, strip_leading_slash, slice_to, panic.
  split; [|split].
  - intros ->. reflexivity.
  - intros -> ->. reflexivity.
  - intros -> Hname err Htag. cbn -[Nat.leb substring].
    destruct (ContainerName ctx); [contradiction|].
    cbn -[Nat.leb substring]. rewrite Htag. reflexivity.
Qed.

(** X8: the metadata of a new driver.  When New succeeds and no extra
    attribute of the container goes by one of the four names, the plain
    metadata holds the full id, its first twelve bytes as the short id,
    the tag that was parsed, and the container name less one leading
    slash: a second slash stays, and a name without one is kept whole. *)
Theorem New_metadata (ctx : Context) (h h' : Host) (s : journald) :
  Journald.New Atoi ParseDuration ParseLogTag ExtraAttributes ToTitle ctx h
  = (Returned (ok s), h') ->
  (forall k, k ∈ ["CONTAINER_ID"; "CONTAINER_ID_FULL"; "CONTAINER_NAME"; "CONTAINER_TAG"] ->
     ExtraAttributes ctx ToTitle !! k = None) ->
  exists short rest name tag,
    vars s !! "CONTAINER_ID" = Some short /\
    vars s !! "CONTAINER_ID_FULL" = Some (ContainerID ctx) /\
    ContainerID ctx = short +:+ rest /\ String.length short = 12%nat /\
    vars s !! "CONTAINER_NAME" = Some name /\
    (ContainerName ctx = "/" +:+ name \/
     ContainerName ctx = name /\ forall tl, name <> "/" +:+ tl) /\
    vars s !! "CONTAINER_TAG" = Some tag /\
    ParseLogTag ctx EmptyString = ok tag.
Proof.
  intros Hnew Hextra.
  destruct (New_success ctx h s h' Hnew)
    as (c & tl & tag & _ & Hname & Htag & Hlen & Hvars & _).
  destruct (substring_split 12 (ContainerID ctx) Hlen) as [Hsplit Hshort].
  assert (Hlook : forall k v,
            k ∈ ["CONTAINER_ID"; "CONTAINER_ID_FULL"; "CONTAINER_NAME"; "CONTAINER_TAG"] ->
            base_vars (substring 0 12 (ContainerID ctx)) (ContainerID ctx)
              (if Ascii.eqb c "/" then tl else String c tl) tag !! k = Some v ->
            vars s !! k = Some v).
  { intros k v Hk Hv. rewrite Hvars. apply lookup_union_Some_raw. right.
    split; [apply Hextra, Hk | exact Hv]. }
  exists (substring 0 12 (ContainerID ctx)),
         (substring 12 (String.length (ContainerID ctx) - 12) (ContainerID ctx)),
         (if Ascii.eqb c "/" then tl else String c tl), tag.
  split; [apply Hlook; [set_solver | reflexivity]|].
  split; [apply Hlook; [set_solver | reflexivity]|].
  split; [exact Hsplit|]. split; [exact Hshort|].
  split; [apply Hlook; [set_solver | reflexivity]|].
  split.
  { rewrite Hname. destruct (Ascii.eqb c "/") eqn:Hc.
    - apply Ascii.eqb_eq in Hc. subst c. left. reflexivity.
    - right. split; [reflexivity|]. intros tl' [= Hc' _].
      apply Ascii.eqb_neq in Hc. contradiction. }
  split; [apply Hlook; [set_solver | reflexivity]|].
  exact Htag.
Qed.

(** X9: extra attributes win.  In the driver that New returns every
    extra attribute of the container is in the plain metadata with its
    own value, also under one of the four names that New fills in; the
    event metadata agrees with the plain metadata on every name but
    DOCKER_EVENT; and under DOCKER_EVENT the plain metadata has the extra
    attribute of that name and nothing else, while the event metadata
    carries that extra attribute when there is one and reads true when
    there is none. *)
Theorem New_extra_attributes_win (ctx : Context) (h h' : Host) (s : journald) :
  Journald.New Atoi ParseDuration ParseLogTag ExtraAttributes ToTitle ctx h
  = (Returned (ok s), h') ->
  (forall k v, ExtraAttributes ctx ToTitle !! k = Some v -> vars s !! k = Some v) /\
  (forall k v, vars s !! k = Some v -> eVars s !! k = Some v) /\
  (forall k, k <> "DOCKER_EVENT" -> eVars s !! k = vars s !! k) /\
  vars s !! "DOCKER_EVENT" = ExtraAttributes ctx ToTitle !! "DOCKER_EVENT" /\
  eVars s !! "DOCKER_EVENT"
  = Some (default "true" (ExtraAttributes ctx ToTitle !! "DOCKER_EVENT")).
Proof.
  intros Hnew.
  destruct (New_success ctx h s h' Hnew)
    as (c & tl & tag & _ & _ & _ & _ & Hvars & HeVars & _).
  assert (Hflag : vars s !! "DOCKER_EVENT"
                  = ExtraAttributes ctx ToTitle !! "DOCKER_EVENT").
  { rewrite Hvars.
    destruct (ExtraAttributes ctx ToTitle !! "DOCKER_EVENT") as [v|] eqn:Hv.
    - apply lookup_union_Some_raw. left. exact Hv.
    - apply lookup_union_None. split; [exact Hv | reflexivity]. }
  split.
  { intros k v Hk. rewrite Hvars. apply lookup_union_Some_raw. left. exact Hk. }
  split.
  { intros k v Hk. rewrite HeVars. apply lookup_union_Some_raw. left. exact Hk. }
  split.
  { intros k Hk. rewrite HeVars.
    destruct (vars s !! k) as [v|] eqn:Hv.
    - apply lookup_union_Some_raw. left. exact Hv.
    - apply lookup_union_None. split; [exact Hv|].
      apply lookup_singleton_ne. congruence. }
  split; [exact Hflag|].
  rewrite HeVars. apply lookup_union_Some_raw.
  rewrite Hflag.
  destruct (ExtraAttributes ctx ToTitle !! "DOCKER_EVENT") as [v|]; cbn.
  - left. reflexivity.
  - right. split; [reflexivity | apply lookup_singleton_eq].
Qed.

(** X10: New keeps off the journal.  Whatever it returns, and also when
    it panics, New hands nothing to the journal and does not read the
    clock; all it may leave on the host is one line in the diagnostic
    log, about the rate-limit labels; and the driver it returns has no
    watcher attached. *)
Theorem New_keeps_off_the_journal (ctx : Context) (h : Host) :
  exists out lines,
    Journald.New Atoi ParseDuration ParseLogTag ExtraAttributes ToTitle ctx h
    = (out, advance 0 [] lines h) /\
    (length lines <= 1)%nat /\
    (forall s, out = Returned (ok s) -> readers s = ∅) /\
    (forall why, out = Panicked why -> lines = []) /\
    (forall err, out = Returned (fail err) -> lines = []).
Proof.
  unfold Journald.New, bind, get, ret, strip_leading_slash, slice_to, panic.
  assert (Hquiet : forall out : outcome (res journald),
            (forall s, out <> Returned (ok s)) ->
            exists out' lines,
              (out, h) = (out', advance 0 [] lines h) /\
              (length lines <= 1)%nat /\
              (forall s, out' = Returned (ok s) -> readers s = ∅) /\
              (forall why, out' = Panicked why -> lines = []) /\
              (forall err, out' = Returned (fail err) -> lines = [])).
  { intros out Hout. exists out, []. rewrite advance_nothing.
    split; [reflexivity|]. split; [cbn; lia|].
    split; [intros s ->; destruct (Hout s eq_refl)|]. split; reflexivity. }
  destruct (journal_enabled h); cbn -[Nat.leb substring];
    [|apply Hquiet; discriminate].
  destruct (ContainerName ctx) as [|c rest]; cbn -[Nat.leb substring];
    [apply Hquiet; discriminate|].
  destruct (ParseLogTag ctx "") as [tag|e]; cbn -[Nat.leb substring];
    [|apply Hquiet; discriminate].
  destruct (12 <=? String.length (ContainerID ctx))%nat; cbn -[Nat.leb substring];
    [|apply Hquiet; discriminate].
  destruct (newRateLimit_lines (ContainerLabels ctx) h) as (limiter & lines & E & Hlen & _).
  rewrite E. cbn -[substring]. eexists _, lines. split; [reflexivity|].
  split; [exact Hlen|]. split; [intros s [= <-]; reflexivity|].
  split; [discriminate|discriminate].
Qed.

(** X11: malformed rate-limit labels disable the limiter and say so
    once.  newRateLimit always returns; it leaves the journal and the
    clock alone; it writes one line to the diagnostic log when it
    returns no limiter although a label is present, and none when both
    labels are absent or when it returns a limiter. *)
Theorem newRateLimit_says_why (labels : gmap string string) (h : Host) :
  exists limiter lines,
    Journald.newRateLimit Atoi ParseDuration labels h
    = (Returned limiter, advance 0 [] lines h) /\
    (limiter = None ->
     is_Some (labels !! burstKey) \/ is_Some (labels !! intervalKey) ->
     length lines = 1%nat) /\
    (limiter <> None \/
     (labels !! burstKey = None /\ labels !! intervalKey = None) ->
     lines = []).
Proof.
  destruct (newRateLimit_lines labels h) as (limiter & lines & E & Hlen & Hiff).
  exists limiter, lines. split; [exact E|]. split; [|apply Hiff].
  intros -> Hsome.
  destruct lines as [|l [|l' lines]]; [|reflexivity|cbn in Hlen; lia].
  destruct (proj1 Hiff eq_refl) as [Hne | [Hb Hi]]; [contradiction|].
  rewrite Hb, Hi in Hsome. destruct Hsome as [[x Hx] | [x Hx]]; discriminate.
Qed.

End JournaldFacts.

Section OptionFacts.
Import Journald.

Lemma known_opt_iff key :
  known_opt key = true <-> key = "labels" \/ key = "env" \/ key = "tag".
Proof.
  unfold known_opt. rewrite !orb_true_iff, !String.eqb_eq. tauto.
Qed.

(** X12: the options the driver accepts.  validateLogOpt accepts a
    configuration exactly when every key of it is labels, env or tag,
    the empty configuration included, and the error it returns otherwise
    names a key that is in the configuration and is none of the three. *)
Theorem validateLogOpt_accepts_iff (cfg : gmap string string) :
  (validateLogOpt cfg = None <->
   forall key, is_Some (cfg !! key) ->
     key = "labels" \/ key = "env" \/ key = "tag") /\
  (forall err, validateLogOpt cfg = Some err ->
   exists key,
     is_Some (cfg !! key) /\
     key <> "labels" /\ key <> "env" /\ key <> "tag" /\
     err = "unknown log opt '" +:+ key +:+ "' for journald log driver").
Proof.
  unfold validateLogOpt.
  destruct (filter (fun kv : string * string => negb (known_opt (fst kv)))
              (map_to_list cfg)) as [|[key v] rest] eqn:Hf.
  - split; [|discriminate]. split; [|reflexivity].
    intros _ key [v Hv]. apply known_opt_iff.
    destruct (known_opt key) eqn:Hk; [reflexivity|]. exfalso.
    apply (filter_nil_not_elem_of _ _ (key, v) Hf).
    + cbn. rewrite Hk. exact I.
    + apply elem_of_map_to_list, Hv.
  - assert (Hin : (key, v) ∈ filter (fun kv : string * string => negb (known_opt (fst kv)))
                                (map_to_list cfg))
      by (rewrite Hf; apply list_elem_of_here).
    apply list_elem_of_filter in Hin as [Hbad Hin]. cbn in Hbad.
    apply elem_of_map_to_list in Hin.
    assert (Hunknown : ~ (key = "labels" \/ key = "env" \/ key = "tag")).
    { intros Hk. apply known_opt_iff in Hk. rewrite Hk in Hbad. exact Hbad. }
    split.
    + split; [discriminate|]. intros Hall. exfalso. apply Hunknown, Hall. eauto.
    + intros err [= <-]. exists key. split; [eauto|]. repeat split; tauto.
Qed.

End OptionFacts.

Section SampleChecks.
Import Journald.

Example sample_Atoi :
  Sample.Atoi "3" = ok 3 /\ Sample.Atoi "-12" = ok (-12) /\
  Sample.Atoi "" = fail "invalid syntax" /\
  Sample.Atoi "3x" = fail "invalid syntax" /\
  Sample.Atoi "9223372036854775808" = fail "value out of range".
Proof. repeat split; reflexivity. Qed.

Example sample_ParseDuration :
  Sample.ParseDuration "1s" = ok RateLimit.Second /\
  Sample.ParseDuration "s" = fail "time: invalid duration" /\
  Sample.ParseDuration "often" = fail "time: invalid duration".
Proof. repeat split; reflexivity. Qed.

Example sample_New :
  fst (Sample.New Sample.web Sample.host) = Returned (ok Sample.web_driver).
Proof. vm_compute. reflexivity. Qed.

Example sample_flooded :
  rateLimit Sample.flooded_driver
  = Some {| RateLimit.Burst := 1; RateLimit.Interval := RateLimit.Second;
            RateLimit.begin := 1; RateLimit.num := 1;
            RateLimit.suppressed := 2 |} /\
  map e_message (sends Sample.flooded_host) = ["one"] /\
  clock_reads Sample.flooded_host = 3%nat.
Proof. vm_compute. repeat split. Qed.

Example sample_one_label :
  Sample.New Sample.web_one_label Sample.host
  = (Returned (ok (set_rateLimit None Sample.web_driver)),
     push_logrus "only one com.meteor.galaxy.log-* label exists: true false"
       Sample.host).
Proof. vm_compute. reflexivity. Qed.

Lemma Log_event_bypasses_limiter_witness :
  Log Sample.stop_event Sample.flooded_driver Sample.flooded_host
  = (Returned (send_result Sample.flooded_host
                 (length (sends Sample.flooded_host)),
               Sample.flooded_driver),
     push_send
       (mkEntry (Line Sample.stop_event) PriWarning (eVars Sample.flooded_driver))
       Sample.flooded_host).
Proof.
  apply (Log_event_bypasses_limiter
           Sample.stop_event Sample.flooded_driver Sample.flooded_host).
  reflexivity.
Defined.

(** After the flood the stop event is the second entry of the journal,
    and the limiter still holds its two suppressed lines. *)
Example sample_event_after_flood :
  let '(r, h) := Log Sample.stop_event Sample.flooded_driver Sample.flooded_host in
  r = Returned (None, Sample.flooded_driver) /\
  map (fun e => (e_message e, e_priority e)) (delivered h)
  = [("one", PriInfo); (Line Sample.stop_event, PriWarning)] /\
  (forall e, last (sends h) = Some e -> e_vars e !! "DOCKER_EVENT" = Some "true").
Proof.
  vm_compute. repeat split. intros e [= <-]. reflexivity.
Qed.

Lemma rate_limiter_created_iff_witness :
  rateLimit Sample.web_driver = Some (RateLimit.fresh 1 RateLimit.Second) /\
  exists burst interval,
    labels_select Sample.Atoi Sample.ParseDuration
      (ContainerLabels Sample.web) burst interval /\
    RateLimit.fresh 1 RateLimit.Second = RateLimit.fresh burst interval.
Proof.
  split; [reflexivity|].
  apply (proj1 (rate_limiter_created_iff
                  Sample.Atoi Sample.ParseDuration Sample.ParseLogTag
                  Sample.ExtraAttributes Sample.ToTitle
                  Sample.web Sample.host Sample.web_driver eq_refl)
           (RateLimit.fresh 1 RateLimit.Second)).
  reflexivity.
Defined.

Lemma New_reads_in_bounds_witness :
  (exists r h', Sample.New Sample.web Sample.host = (Returned r, h')) /\
  (exists why,
     Sample.New Sample.web_unnamed Sample.host = (Panicked why, Sample.host)) /\
  (exists why,
     Sample.New Sample.web_short_id Sample.host = (Panicked why, Sample.host)).
Proof.
  unfold Sample.New. split; [|split].
  - apply (New_reads_in_bounds
             Sample.Atoi Sample.ParseDuration Sample.ParseLogTag
             Sample.ExtraAttributes Sample.ToTitle Sample.web).
    + discriminate.
    + vm_compute. lia.
  - apply (proj2 (New_reads_in_bounds
             Sample.Atoi Sample.ParseDuration Sample.ParseLogTag
             Sample.ExtraAttributes Sample.ToTitle Sample.web_unnamed))
      with (tag := "4f8c2a1b9d3e"%string).
    + left. reflexivity.
    + reflexivity.
    + reflexivity.
  - apply (proj2 (New_reads_in_bounds
             Sample.Atoi Sample.ParseDuration Sample.ParseLogTag
             Sample.ExtraAttributes Sample.ToTitle Sample.web_short_id))
      with (tag := "4f8c2a1b"%string).
    + right. vm_compute. lia.
    + reflexivity.
    + reflexivity.
Defined.

Lemma Logs_follow_the_limiter_witness :
  exists errs h',
    Logs [Sample.out "one"; Sample.out "two"; Sample.out "three"]
      Sample.web_driver Sample.host
    = (Returned (errs,
                 set_rateLimit
                   (Some (RateLimit.after (RateLimit.fresh 1 RateLimit.Second)
                            (readings Sample.host 3)))
                   Sample.web_driver), h') /\
    length errs = 3%nat /\
    sends h'
    = sends Sample.host
      ++ concat (zip_with (entries_for Sample.web_driver)
                   [Sample.out "one"; Sample.out "two"; Sample.out "three"]
                   (RateLimit.calls (RateLimit.fresh 1 RateLimit.Second)
                      (readings Sample.host 3))) /\
    clock_reads h' = (clock_reads Sample.host + 3)%nat.
Proof.
  apply (Logs_follow_the_limiter
           [Sample.out "one"; Sample.out "two"; Sample.out "three"]
           Sample.web_driver (RateLimit.fresh 1 RateLimit.Second) Sample.host).
  - repeat constructor; discriminate.
  - reflexivity.
Defined.

Lemma every_line_accounted_for_witness :
  exists errs s' h' r' new counts,
    Logs [Sample.out "one"; Sample.out "two"; Sample.out "three"]
      Sample.web_driver Sample.host
    = (Returned (errs, s'), h') /\
    rateLimit s' = Some r' /\
    sends h' = sends Sample.host ++ new /\
    map e_message (List.filter is_notice new) = map dropped_message counts /\
    Forall (fun n => 0 < n) counts /\
    Z.of_nat 3
    = Z.of_nat (length (List.filter (fun e => negb (is_notice e)) new))
      + sum_counts counts + RateLimit.Suppressed r'.
Proof.
  apply (every_line_accounted_for
           [Sample.out "one"; Sample.out "two"; Sample.out "three"]
           Sample.web_driver 1 RateLimit.Second Sample.host).
  - repeat constructor; discriminate.
  - reflexivity.
  - cbn. lia.
Defined.

(** Two seconds after the flood the next line is admitted behind a
    notice of two suppressed lines; the journal refuses the notice and
    takes the line. *)
Lemma notice_failure_is_logged_only_witness :
  Log (Sample.out "four") Sample.flooded_driver Sample.late_host
  = (Returned (None,
               set_rateLimit
                 (Some (RateLimit.start_interval (2 * RateLimit.Second + 1)
                          (RateLimit.mkRateLimit 1 RateLimit.Second 1 1 2)))
                 Sample.flooded_driver),
     advance 1
       [dropped_entry Sample.flooded_driver 2;
        regular_entry Sample.flooded_driver (Sample.out "four")]
       ["Couldn't send suppressed message: journal: busy"]
       Sample.late_host).
Proof.
  apply (notice_failure_is_logged_only (Sample.out "four") Sample.flooded_driver
           (RateLimit.mkRateLimit 1 RateLimit.Second 1 1 2)
           (RateLimit.start_interval (2 * RateLimit.Second + 1)
              (RateLimit.mkRateLimit 1 RateLimit.Second 1 1 2))
           2 Sample.late_host).
  - discriminate.
  - vm_compute. reflexivity.
  - vm_compute. reflexivity.
  - lia.
Defined.

Lemma New_errors_come_first_witness :
  Sample.New Sample.web_unnamed Sample.no_journal_host
  = (Returned (fail "journald is not enabled on this host"), Sample.no_journal_host) /\
  Journald.New Sample.Atoi Sample.ParseDuration
    (fun _ _ => fail "template: unexpected end") Sample.ExtraAttributes
    Sample.ToTitle Sample.web_unnamed Sample.host
  = (Panicked "index out of range", Sample.host) /\
  Journald.New Sample.Atoi Sample.ParseDuration
    (fun _ _ => fail "template: unexpected end") Sample.ExtraAttributes
    Sample.ToTitle Sample.web_short_id Sample.host
  = (Returned (fail "template: unexpected end"), Sample.host).
Proof.
  split; [|split].
  - apply (proj1 (New_errors_come_first
                    Sample.Atoi Sample.ParseDuration Sample.ParseLogTag
                    Sample.ExtraAttributes Sample.ToTitle
                    Sample.web_unnamed Sample.no_journal_host)).
    reflexivity.
  - apply (proj1 (proj2 (New_errors_come_first
                           Sample.Atoi Sample.ParseDuration
                           (fun _ _ => fail "template: unexpected end")
                           Sample.ExtraAttributes Sample.ToTitle
                           Sample.web_unnamed Sample.host))).
    + reflexivity.
    + reflexivity.
  - apply (proj2 (proj2 (New_errors_come_first
                           Sample.Atoi Sample.ParseDuration
                           (fun _ _ => fail "template: unexpected end")
                           Sample.ExtraAttributes Sample.ToTitle
                           Sample.web_short_id Sample.host))).
    + reflexivity.
    + discriminate.
    + reflexivity.
Defined.

Lemma New_metadata_witness :
  exists short rest name tag,
    vars Sample.web_driver !! "CONTAINER_ID" = Some short /\
    vars Sample.web_driver !! "CONTAINER_ID_FULL" = Some (ContainerID Sample.web) /\
    ContainerID Sample.web = short +:+ rest /\ String.length short = 12%nat /\
    vars Sample.web_driver !! "CONTAINER_NAME" = Some name /\
    (ContainerName Sample.web = "/" +:+ name \/
     ContainerName Sample.web = name /\ forall tl, name <> "/" +:+ tl) /\
    vars Sample.web_driver !! "CONTAINER_TAG" = Some tag /\
    Sample.ParseLogTag Sample.web EmptyString = ok tag.
Proof.
  apply (New_metadata Sample.Atoi Sample.ParseDuration Sample.ParseLogTag
           Sample.ExtraAttributes Sample.ToTitle
           Sample.web Sample.host Sample.host Sample.web_driver).
  - vm_compute. reflexivity.
  - intros k _. reflexivity.
Defined.

(** A label that upper-cases to DOCKER_EVENT takes the place of the event
    flag, and only one of the two leading slashes of the name goes. *)
Example sample_flagged :
  exists s,
    Journald.New Sample.Atoi Sample.ParseDuration Sample.ParseLogTag
      Sample.label_attributes Sample.shout Sample.web_flagged Sample.host
    = (Returned (ok s), Sample.host) /\
    eVars s !! "DOCKER_EVENT" = Some "no" /\
    vars s !! "CONTAINER_NAME" = Some "/web".
Proof. eexists. vm_compute. repeat split. Qed.

Lemma New_extra_attributes_win_witness :
  Sample.label_attributes Sample.web_flagged Sample.shout !! "DOCKER_EVENT"
  = Some "no" /\
  exists s,
    vars s !! "DOCKER_EVENT" = Some "no" /\
    eVars s !! "DOCKER_EVENT" = Some "no" /\
    (forall k v, Sample.label_attributes Sample.web_flagged Sample.shout !! k = Some v ->
                 vars s !! k = Some v) /\
    (forall k v, vars s !! k = Some v -> eVars s !! k = Some v) /\
    (forall k, k <> "DOCKER_EVENT" -> eVars s !! k = vars s !! k).
Proof.
  split; [vm_compute; reflexivity|].
  destruct sample_flagged as (s & Hnew & _ & _).
  exists s.
  destruct (New_extra_attributes_win
              Sample.Atoi Sample.ParseDuration Sample.ParseLogTag
              Sample.label_attributes Sample.shout
              Sample.web_flagged Sample.host Sample.host s Hnew)
    as (Hextra & Hevent & Hsame & Hvars & HeVars).
  split; [rewrite Hvars; vm_compute; reflexivity|].
  split; [rewrite HeVars; vm_compute; reflexivity|].
  split; [exact Hextra|]. split; [exact Hevent | exact Hsame].
Defined.

Lemma newRateLimit_says_why_witness :
  exists limiter lines,
    Journald.newRateLimit Sample.Atoi Sample.ParseDuration
      {[ burstKey := "many" ]} Sample.host
    = (Returned limiter, advance 0 [] lines Sample.host) /\
    (limiter = None ->
     is_Some (({[ burstKey := "many" ]} : gmap string string) !! burstKey) \/
     is_Some (({[ burstKey := "many" ]} : gmap string string) !! intervalKey) ->
     length lines = 1%nat) /\
    (limiter <> None \/
     (({[ burstKey := "many" ]} : gmap string string) !! burstKey = None /\
      ({[ burstKey := "many" ]} : gmap string string) !! intervalKey = None) ->
     lines = []).
Proof.
  apply (newRateLimit_says_why Sample.Atoi Sample.ParseDuration
           {[ burstKey := "many" ]} Sample.host).
Defined.

Lemma validateLogOpt_accepts_iff_witness :
  validateLogOpt {[ "tag" := "{{.Name}}"; "env" := "HOME" ]} = None /\
  exists key,
    is_Some (({[ "tag" := "{{.Name}}"; "mode" := "fast" ]} : gmap string string) !! key) /\
    key <> "labels" /\ key <> "env" /\ key <> "tag" /\
    "unknown log opt 'mode' for journald log driver"
    = "unknown log opt '" +:+ key +:+ "' for journald log driver".
Proof.
  split.
  - apply (proj1 (validateLogOpt_accepts_iff {[ "tag" := "{{.Name}}"; "env" := "HOME" ]})).
    intros key [v Hv].
    destruct (decide (key = "tag")) as [->|Htag]; [auto|].
    destruct (decide (key = "env")) as [->|Henv]; [auto|].
    rewrite lookup_insert_ne in Hv by congruence.
    rewrite lookup_singleton_ne in Hv by congruence. discriminate.
  - apply (proj2 (validateLogOpt_accepts_iff {[ "tag" := "{{.Name}}"; "mode" := "fast" ]})).
    vm_compute. reflexivity.
Defined.

End SampleChecks.

(** ** The state handler *)

Section DaemonFacts.
Import libcontainerd container Daemon.

Context {D W : Type} {driver : Logger D W}.
Variable GOOS : string.

Implicit Types (d : Daemon D W) (c : Container) (e : StateInfo).

Lemma lookup_assign (f : Container -> Container) id (m : gmap string Container) c :
  m !! id = Some c -> alter f id m !! id = Some (f c).
Proof. intros H. rewrite lookup_alter_eq, H. reflexivity. Qed.

Lemma StateChanged_exit d id e c l s s1 w1 err s' w' :
  containers d !! id = Some c ->
  State_ e = StateExit ->
  LogDriver c = Some l ->
  drivers d !! l = Some s ->
  teardown d id s (world d) = (s1, w1) ->
  logger_Log {| Line := stopMessage e; Source := "event" |} s1 w1
  = (Returned (err, s'), w') ->
  let disk := disk_result d (disk_writes d) in
  let d' := snd (StateChanged GOOS id e d) in
  fst (StateChanged GOOS id e d) = Returned disk /\
  trace d' = trace d ++ exit_effects id c e l err disk /\
  containers d'
  = alter (set_phase (Stopped (platformConstructExitStatus e))) id
      (alter (set_LogDriver None) id (containers d)) /\
  drivers d' = <[l := s']> (drivers d) /\
  world d' = w' /\
  disk_writes d' = S (disk_writes d).
Proof.
  intros Hc He Hl Hs Htear Hlog disk d'. subst disk d'.
  unfold StateChanged, bind, Get. cbn. rewrite Hc, He.
  unfold on_exit, defer, bind, Lock, Wait, Reset, detach, Get, SetStopped,
    LogContainerEventWithAttributes, Cleanup, ToDisk, call_Log, Errorf,
    assign, emit, modify, deref, get, ret, bind.
  cbn.
  repeat (first [rewrite Hc | rewrite Hl | rewrite Hs | rewrite Htear
                | rewrite Hlog | rewrite lookup_insert_eq
                | rewrite lookup_alter_eq]; cbn).
  destruct err as [failure|]; cbn;
    repeat (first [rewrite lookup_alter_eq | rewrite Hc]; cbn);
    rewrite insert_insert_eq;
    unfold exit_effects; cbn [app]; rewrite <- ?app_assoc; cbn [app];
    repeat split; reflexivity.
Qed.

(** [Reset] always returns. *)
Lemma Reset_returns d id keepStdin :
  fst (Reset id keepStdin d) = Returned tt.
Proof.
  unfold Reset, detach, Get, bind, emit, assign, modify, ret. cbn.
  destruct (containers d !! id ≫= LogDriver); reflexivity.
Qed.



(** C2: on an Exit notification, an error that the captured driver's Log
    returns for the stop message goes to the daemon's diagnostic log and
    nowhere else: the handler sets the stopped status with the exit
    status of the notification, emits the "die" event with the exit-code
    attribute, runs the cleanup, writes the stopped container to disk and
    returns exactly what that write returned. *)
Theorem exit_swallows_log_error d id e c l s s1 w1 failure s' w' :
  containers d !! id = Some c ->
  State_ e = StateExit ->
  LogDriver c = Some l ->
  drivers d !! l = Some s ->
  teardown d id s (world d) = (s1, w1) ->
  logger_Log {| Line := stopMessage e; Source := "event" |} s1 w1
  = (Returned (Some failure, s'), w') ->
  let disk := disk_result d (disk_writes d) in
  let d' := snd (StateChanged GOOS id e d) in
  let stopped :=
    set_phase (Stopped {| container.ExitCode := int_of_uint32 (libcontainerd.ExitCode e);
                          container.OOMKilled := libcontainerd.OOMKilled e |})
      (set_LogDriver None c) in
  fst (StateChanged GOOS id e d) = Returned disk /\
  trace d'
  = trace d ++
    [EvLock id; EvWait id; EvReset id false;
     EvLog l {| Line := stopMessage e; Source := "event" |} (Some failure);
     EvLogrus ErrorLevel "Failed to send 'stop' event to logging driver: %v"
       [ArgError failure];
     EvEvent (ID c) "die"
       {[ "exitCode" := Itoa (int_of_uint32 (libcontainerd.ExitCode e)) ]};
     EvCleanup id;
     EvToDisk stopped disk;
     EvUnlock id] /\
  containers d' !! id = Some stopped.
Proof.
  intros Hc He Hl Hs Htear Hlog disk d' stopped.
  destruct (StateChanged_exit d id e c l s s1 w1 (Some failure) s' w'
              Hc He Hl Hs Htear Hlog)
    as (Hret & Htrace & Hcont & _).
  fold d' in Htrace, Hcont.
  split; [exact Hret|]. split; [exact Htrace|].
  rewrite Hcont, !lookup_alter_eq, Hc. reflexivity.
Qed.

(** Without a log driver the Exit transition does not get past the call
    of Log: the handler panics once the lock is taken, the streams are
    waited for and the I/O is reset, and the lock is released on the way
    out; no driver is called and the drivers and their world stay as they
    were. *)
Lemma exit_without_driver_panics d id e c :
  containers d !! id = Some c ->
  State_ e = StateExit ->
  LogDriver c = None ->
  fst (StateChanged GOOS id e d) = Panicked "nil pointer dereference" /\
  trace (snd (StateChanged GOOS id e d))
  = trace d ++ [EvLock id; EvWait id; EvReset id false; EvUnlock id] /\
  drivers (snd (StateChanged GOOS id e d)) = drivers d /\
  world (snd (StateChanged GOOS id e d)) = world d.
Proof.
  intros Hc He Hl.
  unfold StateChanged, bind, Get. cbn. rewrite Hc, He.
  unfold on_exit, defer, bind, Lock, Wait, Reset, detach, Get, call_Log,
    assign, emit, modify, deref, get, ret, bind.
  cbn. repeat (first [rewrite Hc | rewrite Hl | rewrite lookup_alter_eq]; cbn).
  rewrite <- !app_assoc. repeat split; reflexivity.
Qed.

(** C8: on a Start or a Restore notification for a container of the
    registry, the handler sets the running state with the pid and a flag
    that is true for a start and false for a restore, clears the
    manual-stop flag, whatever it was, and writes the container to disk,
    every other field as it was; if the write fails, it resets the
    container's I/O, which tears down the log driver that the container
    held and leaves the container without one, and returns the error
    without emitting the "start" event; if the write
    succeeds, it emits the "start" event and returns no error. *)
Theorem start_persists_then_announces d id e c :
  containers d !! id = Some c ->
  State_ e = StateStart \/ State_ e = StateRestore ->
  let fresh_start :=
    match State_ e with StateStart => true | _ => false end in
  let running :=
    {| ID := ID c;
       phase := Running (int_of_uint32 (Pid e)) fresh_start;
       RestartCount := RestartCount c;
       Paused := Paused c;
       HasBeenManuallyStopped := false;
       LogDriver := LogDriver c;
       ExecCommands := ExecCommands c |} in
  let detached :=
    {| ID := ID c;
       phase := Running (int_of_uint32 (Pid e)) fresh_start;
       RestartCount := RestartCount c;
       Paused := Paused c;
       HasBeenManuallyStopped := false;
       LogDriver := None;
       ExecCommands := ExecCommands c |} in
  let d' := snd (StateChanged GOOS id e d) in
  disk_writes d' = S (disk_writes d) /\
  match disk_result d (disk_writes d) with
  | Some err =>
      fst (StateChanged GOOS id e d) = Returned (Some err) /\
      trace d' = trace d ++ [EvToDisk running (Some err); EvReset id false] /\
      containers d' !! id = Some detached /\
      match LogDriver c ≫= (fun l => drivers d !! l ≫= (fun s => Some (l, s))) with
      | Some (l, s) =>
          drivers d' = <[l := fst (teardown d id s (world d))]> (drivers d) /\
          world d' = snd (teardown d id s (world d))
      | None => drivers d' = drivers d /\ world d' = world d
      end
  | None =>
      fst (StateChanged GOOS id e d) = Returned None /\
      trace d' = trace d ++ [EvToDisk running None; EvEvent (ID c) "start" ∅] /\
      containers d' !! id = Some running
  end.
Proof.
  intros Hc He fresh_start running detached d'. subst d'.
  assert (Hrun : StateChanged GOOS id e d = on_start id e d).
  { unfold StateChanged, bind, Get. cbv beta iota. rewrite Hc.
    destruct He as [Hst | Hst]; rewrite Hst; reflexivity. }
  assert (Hflag : State_eqb (State_ e) StateStart = fresh_start).
  { subst fresh_start. destruct He as [Hst | Hst]; rewrite Hst; reflexivity. }
  rewrite Hrun. subst running detached.
  destruct c as [cid ph count paused manual ld ecs].
  unfold on_start, bind, SetRunning, assign, modify, ToDisk, deref, get, ret,
    Reset, detach, Get, LogContainerEvent, LogContainerEventWithAttributes, emit,
    modify, bind, deref.
  cbn. rewrite Hflag.
  repeat (first [rewrite lookup_alter_eq | rewrite Hc]; cbn).
  destruct (disk_result d (disk_writes d)) as [err|]; cbn;
    repeat (first [rewrite lookup_alter_eq | rewrite Hc]; cbn).
  - destruct ld as [l|]; cbn;
      [destruct (drivers d !! l) as [s|]; cbn;
       [destruct (teardown d id s (world d)) as [s1 w1]; cbn|]|];
      repeat (first [rewrite lookup_alter_eq | rewrite Hc]; cbn);
      rewrite <- ?app_assoc; repeat split; reflexivity.
  - rewrite <- ?app_assoc. repeat split; reflexivity.
Qed.

(** *** Every notification *)

(** All the paths of the handler at once: what a notification may change
    and what it leaves alone. *)
Lemma StateChanged_paths d id e :
  exists new,
    trace (snd (StateChanged GOOS id e d)) = trace d ++ new /\
    (forall id', id' <> id ->
       containers (snd (StateChanged GOOS id e d)) !! id' = containers d !! id') /\
    dom (containers (snd (StateChanged GOOS id e d))) = dom (containers d) /\
    (if is_Some_dec (containers d !! id) then
       if takes_lock (State_ e)
       then exists body, new = EvLock id :: body ++ [EvUnlock id]
                         /\ held body 0 = Some 0%nat
       else held new 0 = Some 0%nat /\ Forall (fun ev => ev <> EvLock id) new
     else new = []) /\
    (disk_writes (snd (StateChanged GOOS id e d))
     = disk_writes d + length (disk_effects new))%nat /\
    (length (disk_effects new) <= 1)%nat /\
    (persists (State_ e) = false -> disk_effects new = []) /\
    (State_ e <> StateExit -> driver_calls new = []) /\
    (resets new = [] ->
       drivers (snd (StateChanged GOOS id e d)) = drivers d /\
       world (snd (StateChanged GOOS id e d)) = world d) /\
    (forall snap err, disk_effects new = [(snap, err)] ->
       fst (StateChanged GOOS id e d) = Returned err) /\
    (forall snap, disk_effects new = [(snap, None)] ->
       containers (snd (StateChanged GOOS id e d)) !! id = Some snap).
Proof.
  destruct (StateChanged GOOS id e d) as [out d'] eqn:E. cbn [fst snd].
  unfold StateChanged, bind, Get in E. cbn in E.
  destruct (containers d !! id) as [c|] eqn:Hc.
  2:{ injection E as <- <-. exists []. rewrite app_nil_r.
      destruct (is_Some_dec (@None Container)) as [[x Hx]|_]; [discriminate|].
      repeat split; auto; discriminate. }
  destruct (is_Some_dec (Some c)) as [_|Hno]; [|destruct Hno; eauto].
  destruct (LogDriver c) as [l|] eqn:Hl;
    destruct (State_ e) eqn:Hst; cbn [takes_lock persists];
    unfold on_exit, on_restart, on_exit_process, on_start, defer, bind, Lock,
      Unlock, Wait, Reset, detach, Get, SetStopped, SetRestarting, SetRunning,
      LogContainerEvent, LogContainerEventWithAttributes, Cleanup, ToDisk,
      call_Log, exec_Wait, exec_CloseStreams, Errorf, Warnf,
      assign, emit, modify, deref, get, ret, bind in E;
    repeat (cbn in E;
            rewrite ?lookup_alter_eq, ?lookup_insert_eq, ?Hc, ?Hl in E;
            cbn in E;
            try match type of E with
                | context [drivers d !! ?l] => destruct (drivers d !! l) eqn:?
                | context [teardown d ?i ?s ?w] =>
                    destruct (teardown d i s w) as [? ?] eqn:?
                | context [logger_Log ?m ?s ?w] =>
                    destruct (logger_Log m s w) as [[[? ?]|?] ?] eqn:?
                | context [disk_result d ?k] => destruct (disk_result d k) eqn:?
                | context [ExecCommands c !! ?k] =>
                    destruct (ExecCommands c !! k) eqn:?
                | context [execs d !! ?k] => destruct (execs d !! k) eqn:?
                | context [close_result d ?k] => destruct (close_result d k) eqn:?
                | context [String.eqb GOOS ?w] => destruct (String.eqb GOOS w) eqn:?
                | context [match ?x with _ => _ end] => is_var x; destruct x
                end);
    injection E as <- <-; cbn;
    rewrite <- ?app_assoc; cbn [app].
  all: (eexists; split; [first [reflexivity | symmetry; apply app_nil_r]|]).
  all: split; [intros id' Hne; rewrite ?lookup_alter_ne by congruence; reflexivity|].
  all: split; [rewrite ?dom_alter_L; reflexivity|].
  all: split;
    [first [ match goal with
             | |- exists body, EvLock _ :: ?tl = _ /\ _ =>
                 exists (removelast tl); split; reflexivity
             end
           | split; [reflexivity | repeat constructor; discriminate] ]|].
  all: split; [cbn; lia|].
  all: split; [cbn; lia|].
  all: split; [intros Hp; first [discriminate Hp | reflexivity]|].
  all: split; [intros Hne; first [contradiction | reflexivity]|].
  all: split; [intros Hr; first [discriminate Hr | split; reflexivity]|].
  all: split.
  all: try (intros snap err Hd; cbn in Hd;
            first [discriminate Hd | injection Hd as <- <-; reflexivity]).
  all: intros snap Hd; cbn in Hd;
    first [discriminate Hd
          | injection Hd as <-;
            repeat (rewrite lookup_alter_eq); rewrite Hc; reflexivity].
Qed.

Lemma held_shift t : forall n m k,
  held t n = Some m -> held t (n + k) = Some (m + k)%nat.
Proof.
  induction t as [|ev t IH]; intros n m k H; cbn in H |- *.
  - injection H as <-. reflexivity.
  - destruct ev; try (apply IH; exact H).
    + apply (IH (S n)). exact H.
    + destruct n as [|n]; [discriminate|]. cbn. apply IH. exact H.
Qed.

Lemma held_app a : forall b n m,
  held a n = Some m -> held (a ++ b) n = held b m.
Proof.
  induction a as [|ev a IH]; intros b n m H; cbn in H |- *.
  - injection H as <-. reflexivity.
  - destruct ev; try (apply IH; exact H).
    destruct n as [|n]; [discriminate|]. apply IH. exact H.
Qed.

(** X13: the lock is released on every path.  Whatever the notification
    and however the handler ends, by a return or by a panic, every lock
    it takes it releases.  For a container of the registry an Exit, a
    Restart and an ExitProcess notification take the container's lock
    first and release it last; the other notifications (Start, Restore,
    Pause, Resume, OOM) never take it. *)
Theorem lock_released_on_every_path d id e :
  exists new,
    trace (snd (StateChanged GOOS id e d)) = trace d ++ new /\
    held new 0 = Some 0%nat /\
    (is_Some (containers d !! id) -> takes_lock (State_ e) = true ->
     exists body, new = EvLock id :: body ++ [EvUnlock id] /\
                  held body 0 = Some 0%nat) /\
    (takes_lock (State_ e) = false -> Forall (fun ev => ev <> EvLock id) new).
Proof.
  destruct (StateChanged_paths d id e) as (new & Htrace & _ & _ & Hlock & _).
  exists new. split; [exact Htrace|].
  destruct (is_Some_dec (containers d !! id)) as [Hsome|Hnone].
  - destruct (takes_lock (State_ e)).
    + destruct Hlock as (body & -> & Hbody).
      split; [|split; [eauto | discriminate]].
      cbn [held]. rewrite (held_app body [EvUnlock id] 1 1).
      * reflexivity.
      * apply (held_shift body 0 0 1 Hbody).
    + destruct Hlock as [Hheld Hnolock].
      split; [exact Hheld|]. split; [discriminate | auto].
  - subst new. split; [reflexivity|]. split; [contradiction | constructor].
Qed.

(** X14: a notification stays with its container.  Unless the
    notification is an Exit, the handler adds no container to the
    registry and removes none, leaves every container but the notified
    one as it was, and hands no message to a log driver; and whatever the
    notification, the drivers and what they write to are as they were
    unless the handler has reset the container's I/O. *)
Theorem notification_stays_with_its_container d id e :
  exists new,
    trace (snd (StateChanged GOOS id e d)) = trace d ++ new /\
    (State_ e <> StateExit ->
     (forall id', id' <> id ->
        containers (snd (StateChanged GOOS id e d)) !! id' = containers d !! id') /\
     dom (containers (snd (StateChanged GOOS id e d))) = dom (containers d) /\
     driver_calls new = []) /\
    (resets new = [] ->
     drivers (snd (StateChanged GOOS id e d)) = drivers d /\
     world (snd (StateChanged GOOS id e d)) = world d).
Proof.
  destruct (StateChanged_paths d id e)
    as (new & Htrace & Hother & Hdom & _ & _ & _ & _ & Hcalls & Hdrv & _).
  exists new. split; [exact Htrace|]. split; [|exact Hdrv].
  intros Hne. split; [exact Hother|]. split; [exact Hdom|]. exact (Hcalls Hne).
Qed.

(** X15: one write to disk at most, and its result is the handler's.
    A notification writes the container to disk at most once, and not at
    all for Pause, Resume, OOM, ExitProcess or an unknown state; when it
    does write, the handler returns exactly what the write returned, and
    after a write that succeeded the registry holds the container as it
    was written. *)
Theorem one_write_and_its_result d id e :
  exists new,
    trace (snd (StateChanged GOOS id e d)) = trace d ++ new /\
    (disk_writes (snd (StateChanged GOOS id e d))
     = disk_writes d + length (disk_effects new))%nat /\
    (length (disk_effects new) <= 1)%nat /\
    (persists (State_ e) = false -> disk_effects new = []) /\
    (forall snap err, disk_effects new = [(snap, err)] ->
       fst (StateChanged GOOS id e d) = Returned err) /\
    (forall snap, disk_effects new = [(snap, None)] ->
       containers (snd (StateChanged GOOS id e d)) !! id = Some snap).
Proof.
  destruct (StateChanged_paths d id e)
    as (new & Htrace & _ & _ & _ & Hw & Hone & Hnone & _ & _ & Hret & Hsnap).
  exists new. repeat split; assumption.
Qed.

(** X16: a Restart notification.  For a container of the registry the
    handler, with the lock held, resets the I/O, counts the restart, sets
    the restarting status with the exit status of the notification, emits
    the "die" event with the exit-code attribute and writes the container
    to disk, whose result it returns; the container is left without a log
    driver and with every other field as it was.  Unlike on an Exit the
    handler hands no message to the log driver, and runs no cleanup; the
    driver the container held and the world it writes to are as the
    teardown of the reset leaves them, and without such a driver the
    drivers and the world are as they were. *)
Theorem restart_counts_and_persists d id e c :
  containers d !! id = Some c ->
  State_ e = StateRestart ->
  let disk := disk_result d (disk_writes d) in
  let d' := snd (StateChanged GOOS id e d) in
  let restarted :=
    {| ID := ID c;
       phase := Restarting
                  {| container.ExitCode := int_of_uint32 (libcontainerd.ExitCode e);
                     container.OOMKilled := libcontainerd.OOMKilled e |};
       RestartCount := int_wrap (RestartCount c + 1);
       Paused := Paused c;
       HasBeenManuallyStopped := HasBeenManuallyStopped c;
       LogDriver := None;
       ExecCommands := ExecCommands c |} in
  fst (StateChanged GOOS id e d) = Returned disk /\
  trace d'
  = trace d ++ [EvLock id; EvReset id false;
                EvEvent (ID c) "die"
                  {[ "exitCode" := Itoa (int_of_uint32 (libcontainerd.ExitCode e)) ]};
                EvToDisk restarted disk; EvUnlock id] /\
  containers d' !! id = Some restarted /\
  driver_calls (trace d') = driver_calls (trace d) /\
  match LogDriver c ≫= (fun l => drivers d !! l ≫= (fun s => Some (l, s))) with
  | Some (l, s) =>
      drivers d' = <[l := fst (teardown d id s (world d))]> (drivers d) /\
      world d' = snd (teardown d id s (world d))
  | None => drivers d' = drivers d /\ world d' = world d
  end.
Proof.
  intros Hc He disk d' restarted. subst disk d' restarted.
  unfold StateChanged, bind, Get. cbn. rewrite Hc, He.
  destruct c as [cid ph count paused manual ld ecs].
  unfold on_restart, defer, bind, Lock, Unlock, Reset, detach, Get, SetRestarting,
    LogContainerEventWithAttributes, ToDisk, assign, emit, modify, deref,
    get, ret, bind.
  cbn. repeat (first [rewrite lookup_alter_eq | rewrite Hc]; cbn).
  destruct ld as [l|]; cbn;
    [destruct (drivers d !! l) as [s|]; cbn;
     [destruct (teardown d id s (world d)) as [s1 w1]; cbn|]|];
    repeat (first [rewrite lookup_alter_eq | rewrite Hc]; cbn);
    rewrite <- ?app_assoc; unfold driver_calls; rewrite ?omap_app; cbn;
    rewrite ?app_nil_r; repeat split; reflexivity.
Qed.

(** X17: the exit of an exec process.  When the container holds the
    exec under the process id of the notification, the handler records
    the exit code in the exec configuration and clears its running flag,
    waits for its streams and closes them, writes a failure of the close
    to the diagnostic log only, and takes the exec out of the container's
    collection while the daemon keeps the configuration; it returns no
    error and writes nothing to disk. *)
Theorem exec_exit_retires_exec d id e c ref config :
  containers d !! id = Some c ->
  State_ e = StateExitProcess ->
  ExecCommands c !! ProcessID e = Some ref ->
  execs d !! ref = Some config ->
  let d' := snd (StateChanged GOOS id e d) in
  fst (StateChanged GOOS id e d) = Returned None /\
  execs d' !! ref
  = Some {| exec.ID := exec.ID config; exec.Running := false;
            exec.ExitCode := Some (int_of_uint32 (libcontainerd.ExitCode e)) |} /\
  containers d' !! id
  = Some (set_ExecCommands (delete (exec.ID config) (ExecCommands c)) c) /\
  trace d'
  = trace d ++ [EvLock id; EvExecWait ref; EvExecCloseStreams ref (close_result d ref)]
      ++ match close_result d ref with
         | Some err => [EvLogrus ErrorLevel "%s: %s" [ArgString (ID c); ArgError err]]
         | None => []
         end
      ++ [EvUnlock id] /\
  disk_writes d' = disk_writes d.
Proof.
  intros Hc He Hexec Hconfig d'. subst d'.
  unfold StateChanged, bind, Get. cbn. rewrite Hc, He.
  unfold on_exit_process, defer, bind, Lock, Unlock, exec_Wait, exec_CloseStreams,
    Errorf, assign, emit, modify, deref, get, ret, bind.
  cbn. rewrite Hc. cbn. rewrite Hexec. cbn. rewrite Hconfig. cbn.
  destruct (close_result d ref) as [err|]; cbn;
    rewrite lookup_alter_eq, Hc, lookup_insert_eq; cbn;
    rewrite <- ?app_assoc; repeat split; reflexivity.
Qed.

(** X18: an ExitProcess notification for an exec the container does not
    hold is ignored with a warning: the registry, the exec
    configurations and the disk are left as they were and no error is
    returned. *)
Theorem unknown_exec_is_ignored d id e c :
  containers d !! id = Some c ->
  State_ e = StateExitProcess ->
  ExecCommands c !! ProcessID e = None ->
  StateChanged GOOS id e d
  = (Returned None,
     with_trace
       (trace d ++
        [EvLock id;
         EvLogrus WarnLevel
           "Ignoring StateExitProcess for %v but no exec command found"
           [ArgStateInfo e];
         EvUnlock id]) d).
Proof.
  intros Hc He Hexec.
  unfold StateChanged, bind, Get. cbn. rewrite Hc, He.
  unfold on_exit_process, defer, bind, Lock, Unlock, Warnf, emit, modify, deref,
    get, ret, bind.
  cbn. rewrite Hc. cbn. rewrite Hexec. cbn.
  rewrite <- ?app_assoc. reflexivity.
Qed.

(** X19: Pause and Resume.  A Pause notification sets the paused flag of
    the container and emits "pause"; a Resume notification after it
    clears the flag and emits "unpause"; both return no error, neither
    writes to disk, and a container that was not paused before is after
    the two exactly as it was. *)
Theorem pause_then_resume d id pause resume c :
  containers d !! id = Some c ->
  State_ pause = StatePause ->
  State_ resume = StateResume ->
  let d1 := snd (StateChanged GOOS id pause d) in
  let d2 := snd (StateChanged GOOS id resume d1) in
  fst (StateChanged GOOS id pause d) = Returned None /\
  fst (StateChanged GOOS id resume d1) = Returned None /\
  containers d1 !! id = Some (set_Paused true c) /\
  containers d2 !! id = Some (set_Paused false c) /\
  trace d2 = trace d ++ [EvEvent (ID c) "pause" ∅; EvEvent (ID c) "unpause" ∅] /\
  disk_writes d2 = disk_writes d /\
  (Paused c = false -> containers d2 = containers d).
Proof.
  intros Hc Hp Hr d1 d2. subst d1 d2.
  unfold StateChanged, bind, Get. cbn. rewrite Hc, Hp.
  unfold LogContainerEvent, LogContainerEventWithAttributes, assign, emit,
    modify, deref, get, ret, bind.
  cbn. repeat (first [rewrite lookup_alter_eq | rewrite Hc | rewrite Hr]; cbn).
  rewrite <- ?app_assoc.
  repeat split; try reflexivity.
  intros Hpaused. rewrite alter_alter_eq. apply alter_id.
  intros c' Hc'. rewrite Hc in Hc'. injection Hc' as <-.
  destruct c. cbn in *. subst. reflexivity.
Qed.

(** X20: the notifications that change nothing.  For a container that
    is not in the registry the handler returns the error that names the
    id and changes nothing, whatever the state of the notification; for a
    container of the registry a notification of no known state is
    ignored without an error, and an OOM notification on Windows returns
    an error and changes nothing, while elsewhere it only emits the "oom"
    event. *)
Theorem quiet_notifications d id e :
  (containers d !! id = None ->
   StateChanged GOOS id e d = (Returned (Some ("no such container: " +:+ id)), d)) /\
  (forall c code, containers d !! id = Some c -> State_ e = StateOther code ->
   StateChanged GOOS id e d = (Returned None, d)) /\
  (forall c, containers d !! id = Some c -> State_ e = StateOOM ->
   GOOS = "windows" ->
   exists err, StateChanged GOOS id e d = (Returned (Some err), d)) /\
  (forall c, containers d !! id = Some c -> State_ e = StateOOM ->
   GOOS <> "windows" ->
   StateChanged GOOS id e d
   = (Returned None, with_trace (trace d ++ [EvEvent (ID c) "oom" ∅]) d)).
Proof.
  unfold StateChanged, bind, Get. cbn.
  split; [intros ->; reflexivity|].
  split; [intros c code -> ->; reflexivity|].
  split.
  - intros c -> -> ->. eexists. reflexivity.
  - intros c Hc -> Hos. rewrite Hc. apply String.eqb_neq in Hos. rewrite Hos.
    unfold LogContainerEvent, LogContainerEventWithAttributes, emit, modify,
      deref, ret, bind.
    cbn. rewrite Hc. reflexivity.
Qed.

(** X21: a second Exit panics.  After an Exit notification that the
    handler has dealt with, the container holds no log driver, and a
    second Exit notification for it makes the handler panic at the call
    of Log, the container's lock released on the way out. *)
Theorem second_exit_panics d id e e2 c l s s1 w1 err s' w' :
  containers d !! id = Some c ->
  State_ e = StateExit ->
  LogDriver c = Some l ->
  drivers d !! l = Some s ->
  teardown d id s (world d) = (s1, w1) ->
  logger_Log {| Line := stopMessage e; Source := "event" |} s1 w1
  = (Returned (err, s'), w') ->
  State_ e2 = StateExit ->
  let d1 := snd (StateChanged GOOS id e d) in
  fst (StateChanged GOOS id e2 d1) = Panicked "nil pointer dereference" /\
  trace (snd (StateChanged GOOS id e2 d1))
  = trace d1 ++ [EvLock id; EvWait id; EvReset id false; EvUnlock id].
Proof.
  intros Hc He Hl Hs Htear Hlog He2 d1.
  destruct (StateChanged_exit d id e c l s s1 w1 err s' w' Hc He Hl Hs Htear Hlog)
    as (_ & _ & Hcont & _).
  fold d1 in Hcont.
  destruct (exit_without_driver_panics d1 id e2
              (set_phase (Stopped (platformConstructExitStatus e))
                 (set_LogDriver None c))) as (Hpanic & Htrace & _).
  - rewrite Hcont, !lookup_alter_eq, Hc. reflexivity.
  - exact He2.
  - reflexivity.
  - split; [exact Hpanic | exact Htrace].
Qed.

End DaemonFacts.

Section DaemonChecks.
Import libcontainerd container Daemon Journald.

Example sample_stopMessage :
  stopMessage Sample.killed
  = "{" +:+ quoted "type" +:+ ":" +:+ quoted "stop" +:+ ","
        +:+ quoted "exitCode" +:+ ":137,"
        +:+ quoted "oomKilled" +:+ ":true}" /\
  String.length (stopMessage Sample.killed) = 47%nat /\
  die_attributes Sample.killed = {[ "exitCode" := "137" ]}.
Proof. vm_compute. repeat split. Qed.



Lemma exit_swallows_log_error_witness :
  let d' := snd (StateChanged "linux" Sample.web_id Sample.killed Sample.deaf_daemon) in
  fst (StateChanged "linux" Sample.web_id Sample.killed Sample.deaf_daemon)
  = Returned None /\
  phase <$> containers d' !! Sample.web_id
  = Some (Stopped {| container.ExitCode := 137; container.OOMKilled := true |}) /\
  EvLogrus ErrorLevel "Failed to send 'stop' event to logging driver: %v"
    [ArgError "journal: connection refused"] ∈ trace d' /\
  EvEvent Sample.web_id "die" {[ "exitCode" := "137" ]} ∈ trace d' /\
  EvCleanup Sample.web_id ∈ trace d'.
Proof.
  intros d'.
  pose (w1 := push_send (dropped_entry Sample.flooded_driver 2) Sample.deaf_host).
  pose (w2 := push_send (mkEntry (stopMessage Sample.killed) PriWarning
                           (eVars Sample.flooded_driver)) w1).
  assert (Htear : teardown Sample.deaf_daemon Sample.web_id Sample.flooded_driver
                    (world Sample.deaf_daemon)
                  = (Sample.flooded_driver, w1)) by (vm_compute; reflexivity).
  assert (Hlog : logger_Log {| Line := stopMessage Sample.killed; Source := "event" |}
                   Sample.flooded_driver w1
                 = (Returned (Some "journal: connection refused",
                              Sample.flooded_driver), w2))
    by (vm_compute; reflexivity).
  pose proof (exit_swallows_log_error "linux"
                Sample.deaf_daemon Sample.web_id Sample.killed Sample.web_container
                7%nat Sample.flooded_driver Sample.flooded_driver w1
                "journal: connection refused" Sample.flooded_driver w2
                eq_refl eq_refl eq_refl eq_refl Htear Hlog)
    as (Hret & Htrace & Hcont).
  fold d' in Htrace, Hcont.
  split; [exact Hret|].
  split; [rewrite Hcont; reflexivity|].
  rewrite Htrace. cbn [app trace Sample.deaf_daemon with_world Sample.daemon].
  repeat split.
  - do 4 apply list_elem_of_further. apply list_elem_of_here.
  - do 5 apply list_elem_of_further. apply list_elem_of_here.
  - do 6 apply list_elem_of_further. apply list_elem_of_here.
Defined.

Lemma start_persists_then_announces_witness :
  HasBeenManuallyStopped <$> containers Sample.halted_daemon !! Sample.web_id
  = Some true /\
  (let d' := snd (StateChanged "linux" Sample.web_id Sample.started
                    Sample.halted_daemon) in
   fst (StateChanged "linux" Sample.web_id Sample.started Sample.halted_daemon)
   = Returned None /\
   phase <$> containers d' !! Sample.web_id = Some (Running 4243 true) /\
   HasBeenManuallyStopped <$> containers d' !! Sample.web_id = Some false /\
   LogDriver <$> containers d' !! Sample.web_id = Some (Some 7%nat) /\
   exists running,
     HasBeenManuallyStopped running = false /\
     phase running = Running 4243 true /\
     trace d' = [EvToDisk running None; EvEvent Sample.web_id "start" ∅]) /\
  (let d' := snd (StateChanged "linux" Sample.web_id Sample.restored
                    Sample.halted_full_disk_daemon) in
   fst (StateChanged "linux" Sample.web_id Sample.restored
          Sample.halted_full_disk_daemon)
   = Returned (Some "no space left on device") /\
   phase <$> containers d' !! Sample.web_id = Some (Running 4243 false) /\
   HasBeenManuallyStopped <$> containers d' !! Sample.web_id = Some false /\
   LogDriver <$> containers d' !! Sample.web_id = Some None /\
   sends (world d')
   = sends Sample.flooded_host ++ [dropped_entry Sample.flooded_driver 2] /\
   exists running,
     HasBeenManuallyStopped running = false /\
     phase running = Running 4243 false /\
     trace d' = [EvToDisk running (Some "no space left on device");
                 EvReset Sample.web_id false]).
Proof.
  split; [reflexivity|]. split.
  - intros d'.
    pose proof (start_persists_then_announces "linux"
                  Sample.halted_daemon Sample.web_id Sample.started
                  Sample.web_halted eq_refl (or_introl eq_refl))
      as H.
    cbv zeta in H. destruct H as [_ H].
    change (disk_result Sample.halted_daemon (disk_writes Sample.halted_daemon))
      with (@None error) in H.
    destruct H as (Hret & Htrace & Hcont). fold d' in Htrace, Hcont.
    split; [exact Hret|].
    split; [rewrite Hcont; reflexivity|].
    split; [rewrite Hcont; reflexivity|].
    split; [rewrite Hcont; reflexivity|].
    eexists. split; [|split; [|exact Htrace]]; reflexivity.
  - intros d'.
    pose proof (start_persists_then_announces "linux"
                  Sample.halted_full_disk_daemon Sample.web_id Sample.restored
                  Sample.web_halted eq_refl (or_intror eq_refl))
      as H.
    cbv zeta in H. destruct H as [_ H].
    change (disk_result Sample.halted_full_disk_daemon
              (disk_writes Sample.halted_full_disk_daemon))
      with (Some "no space left on device" : option error) in H.
    destruct H as (Hret & Htrace & Hcont & Hdrv). fold d' in Htrace, Hcont.
    change (LogDriver Sample.web_halted ≫=
              (fun l => drivers Sample.halted_full_disk_daemon !! l
                        ≫= (fun s => Some (l, s))))
      with (Some (7%nat, Sample.flooded_driver)) in Hdrv.
    destruct Hdrv as [_ Hworld]. fold d' in Hworld.
    split; [exact Hret|].
    split; [rewrite Hcont; reflexivity|].
    split; [rewrite Hcont; reflexivity|].
    split; [rewrite Hcont; reflexivity|].
    split; [rewrite Hworld; vm_compute; reflexivity|].
    eexists. split; [|split; [|exact Htrace]]; reflexivity.
Defined.

End DaemonChecks.

(** ** Attaching the streams *)

Section AttachFacts.
Import container Daemon Attach.

Context {D W : Type} {driver : Logger D W}.
Variable getExecConfig : Daemon D W -> string -> res nat.
Variable StartLogging : string -> M (Daemon D W) (option error).

Implicit Types (p : Pump D W) (cfg : StreamConfig) (iop : IOPipe).

(** The handler from [s.Stdin()] on, on a stream configuration that is
    there. *)
Lemma pump_run id c s iop p cfg :
  streams p !! s = Some cfg ->
  let in_task :=
    match stdin cfg, Stdin iop with
    | Some source, Some pipe => [ActGo (CopyStdin source pipe)]
    | _, _ => []
    end in
  let in_close :=
    match stdin cfg, c, Stdin iop with
    | None, Some cid, Some pipe => if tty_of p cid then [] else [ActClose pipe]
    | _, _, _ => []
    end in
  let outs :=
    match Stdout iop with
    | Some r => [CopyOutput id s (stdout cfg) r]
    | None => []
    end ++
    match Stderr iop with
    | Some r => [CopyOutput id s (stderr cfg) r]
    | None => []
    end in
  let p' := snd (pump id c s iop p) in
  fst (pump id c s iop p) = Returned None /\
  acts p' = acts p ++ in_task ++ in_close
                   ++ concat (map (fun t => [ActAdd s 1; ActGo t]) outs) /\
  streams p' !! s
  = Some {| stdin := stdin cfg; stdout := stdout cfg; stderr := stderr cfg;
            pending := pending cfg + Z.of_nat (length outs) |} /\
  (forall s', s' <> s -> streams p' !! s' = streams p !! s') /\
  daemon p' = daemon p /\ stream_of p' = stream_of p /\ tty_of p' = tty_of p.
Proof.
  intros Hs. cbn zeta.
  unfold pump, copy, Add, act, deref_stream, modify, get, ret, bind.
  rewrite Hs.
  destruct cfg as [sin sout serr n]. cbn [stdin stdout stderr pending].
  destruct iop as [pin pout perr]. cbn [Stdin Stdout Stderr].
  destruct sin as [source|], pin as [pipe|], c as [cid|],
    pout as [rout|], perr as [rerr|]; cbn;
    try destruct (tty_of p cid); cbn;
    rewrite ?lookup_alter_eq, ?Hs; cbn -[Z.add Z.of_nat];
    rewrite <- ?app_assoc, ?app_nil_r; cbn [app];
    (split; [reflexivity|]); (split; [reflexivity|]);
    (split; [do 2 f_equal; cbn [length app]; lia|]);
    (split; [intros s' Hne; rewrite ?lookup_alter_ne by congruence; reflexivity|]);
    repeat split.
Qed.

Lemma attach_enters p id iop c s p0 :
  attaches getExecConfig StartLogging p id c s p0 ->
  AttachStreams getExecConfig StartLogging id iop p = pump id c s iop p0.
Proof.
  unfold AttachStreams, bind, get, on_daemon.
  intros [(Hc & Hexec & -> & ->) | (dm & [cont Hc] & Hstart & -> & -> & ->)].
  - cbn. rewrite Hc, Hexec. reflexivity.
  - cbn. rewrite Hc, Hstart. reflexivity.
Qed.

Lemma attaches_streams p id c s p0 :
  attaches getExecConfig StartLogging p id c s p0 ->
  streams p0 = streams p /\ acts p0 = acts p /\ tty_of p0 = tty_of p.
Proof.
  intros [(_ & _ & _ & ->) | (dm & _ & _ & _ & _ & ->)]; repeat split.
Qed.

(** The tasks that end give back what was added for them. *)
Lemma complete_all s (ends : list (Task * option error)) : forall p cfg,
  streams p !! s = Some cfg ->
  Forall (fun end_ => forall id s' w r, fst end_ = CopyOutput id s' w r -> s' = s) ends ->
  streams (foldr complete p ends) !! s
  = Some {| stdin := stdin cfg; stdout := stdout cfg; stderr := stderr cfg;
            pending := pending cfg
                       - Z.of_nat (length (filter (fun t => is_output t) (map fst ends))) |}.
Proof.
  induction ends as [|[t failure] ends IH]; intros p cfg Hs Hall.
  - cbn. rewrite Hs. destruct cfg. cbn. do 2 f_equal. lia.
  - apply Forall_cons in Hall as [Hone Hall].
    specialize (IH p cfg Hs Hall). cbn [foldr map fst].
    destruct t as [from to | id s' w r].
    + rewrite filter_cons_False by (cbn; auto).
      destruct failure; cbn; exact IH.
    + rewrite (Hone id s' w r eq_refl).
      rewrite filter_cons_True by exact I. cbn [length].
      assert (Hdone : forall q : Pump D W, streams q !! s
                = Some {| stdin := stdin cfg; stdout := stdout cfg; stderr := stderr cfg;
                          pending := pending cfg
                            - Z.of_nat (length (filter (fun t => is_output t) (map fst ends))) |} ->
              streams (Done s q) !! s
                = Some {| stdin := stdin cfg; stdout := stdout cfg; stderr := stderr cfg;
                          pending := pending cfg
                            - Z.of_nat (S (length (filter (fun t => is_output t) (map fst ends)))) |}).
      { intros q Hq. unfold Done. cbn. rewrite lookup_alter_eq, Hq. cbn.
        do 2 f_equal. lia. }
      destruct failure; cbn [complete]; apply Hdone; [|exact IH].
      cbn. exact IH.
Qed.

(** X22: an attach that is refused starts nothing.  For an id that is
    neither a container nor an exec, AttachStreams returns the error that
    names it and changes nothing; for a container whose logging does not
    start, it resets the container's I/O and returns the error of
    StartLogging; in both cases no copy is started, no pipe is closed and
    no completion counter is touched. *)
Theorem attach_refused_starts_nothing p id iop :
  (containers (daemon p) !! id = None ->
   forall err, getExecConfig (daemon p) id = fail err ->
   AttachStreams getExecConfig StartLogging id iop p
   = (Returned (Some ("no such exec/container: " +:+ id)), p)) /\
  (forall c err dm,
     containers (daemon p) !! id = Some c ->
     StartLogging id (daemon p) = (Returned (Some err), dm) ->
     AttachStreams getExecConfig StartLogging id iop p
     = (Returned (Some err), with_daemon (snd (Reset id false dm)) p)).
Proof.
  unfold AttachStreams, bind, get, on_daemon. split.
  - intros Hc err Hexec. cbn. rewrite Hc, Hexec. reflexivity.
  - intros c err dm Hc Hstart.
    pose proof (Reset_returns dm id false) as Hreset.
    destruct (Reset id false dm) as [out dm'] eqn:E. cbn [fst] in Hreset.
    subst out. cbn -[Reset]. rewrite Hc, Hstart. cbn -[Reset]. rewrite E.
    reflexivity.
Qed.

(** X23: every output copy is counted, before it starts and until it
    ends.  When the call gets to the streams, it returns no error; for
    the stdout pipe and for the stderr pipe, each if it is there, it adds
    one to the completion counter of the stream configuration and only
    then starts the copy, stdout first; and once every task it started
    has come to its end, in whatever order and whether its copy failed or
    not, the counter is back to what it was before the call. *)
Theorem attach_counts_output_copies p id iop c s p0 cfg :
  attaches getExecConfig StartLogging p id c s p0 ->
  streams p !! s = Some cfg ->
  let p' := snd (AttachStreams getExecConfig StartLogging id iop p) in
  let outs :=
    match Stdout iop with
    | Some r => [CopyOutput id s (stdout cfg) r]
    | None => []
    end ++
    match Stderr iop with
    | Some r => [CopyOutput id s (stderr cfg) r]
    | None => []
    end in
  fst (AttachStreams getExecConfig StartLogging id iop p) = Returned None /\
  (exists before,
     acts p' = acts p ++ before
               ++ concat (map (fun t => [ActAdd s 1; ActGo t]) outs) /\
     filter (fun t => is_output t) (started before) = [] /\
     Forall (fun a => forall s' n, a <> ActAdd s' n) before) /\
  pending <$> streams p' !! s = Some (pending cfg + Z.of_nat (length outs)) /\
  (forall ends new,
     acts p' = acts p ++ new ->
     map fst ends ≡ₚ started new ->
     pending <$> streams (foldr complete p' ends) !! s = Some (pending cfg)).
Proof.
  intros Henter Hs p' outs. subst p'.
  rewrite (attach_enters p id iop c s p0 Henter).
  destruct (attaches_streams p id c s p0 Henter) as (Hstreams & Hacts & _).
  rewrite <- Hstreams in Hs.
  destruct (pump_run id c s iop p0 cfg Hs) as (Hret & Hnew & Hpend & _).
  cbn zeta in Hnew, Hpend. fold outs in Hnew, Hpend.
  rewrite Hacts in Hnew.
  split; [exact Hret|]. split.
  { exists (match stdin cfg, Stdin iop with
            | Some source, Some pipe => [ActGo (CopyStdin source pipe)]
            | _, _ => []
            end ++
            match stdin cfg, c, Stdin iop with
            | None, Some cid, Some pipe =>
                if tty_of p0 cid then [] else [ActClose pipe]
            | _, _, _ => []
            end).
    split; [rewrite Hnew; f_equal; apply app_assoc|].
    destruct (stdin cfg), (Stdin iop), c; cbn;
      try destruct (tty_of p0 _); cbn; split; try reflexivity;
      repeat constructor; discriminate. }
  split; [rewrite Hpend; reflexivity|].
  intros ends new Hnew' Hperm.
  rewrite Hnew in Hnew'. apply app_inv_head in Hnew'. subst new.
  assert (Hstarted : filter (fun t => is_output t)
                       (started (match stdin cfg, Stdin iop with
                                 | Some source, Some pipe => [ActGo (CopyStdin source pipe)]
                                 | _, _ => []
                                 end ++
                                 match stdin cfg, c, Stdin iop with
                                 | None, Some cid, Some pipe =>
                                     if tty_of p0 cid then [] else [ActClose pipe]
                                 | _, _, _ => []
                                 end ++
                                 concat (map (fun t => [ActAdd s 1; ActGo t]) outs)))
                     = outs).
  { subst outs. destruct (stdin cfg), (Stdin iop), c, (Stdout iop), (Stderr iop);
      cbn; try destruct (tty_of p0 _); reflexivity. }
  assert (Hall : Forall (fun end_ : Task * option error =>
                           forall id' s' w r, fst end_ = CopyOutput id' s' w r -> s' = s) ends).
  { apply Forall_forall. intros [t failure] Hin id' s' w r Ht. cbn in Ht. subst t.
    assert (Hin' : CopyOutput id' s' w r ∈ map fst ends).
    { apply list_elem_of_fmap. exists (CopyOutput id' s' w r, failure). split; [reflexivity|exact Hin]. }
    rewrite Hperm in Hin'.
    assert (Hout : CopyOutput id' s' w r ∈ outs).
    { rewrite <- Hstarted. apply list_elem_of_filter. split; [exact I | exact Hin']. }
    subst outs. destruct (Stdout iop), (Stderr iop); cbn in Hout;
      repeat (apply elem_of_cons in Hout as [Hout | Hout]; [congruence|]);
      inversion Hout. }
  rewrite (complete_all s ends _ _ Hpend Hall). cbn.
  rewrite Hperm, Hstarted. f_equal. lia.
Qed.

(** X24: what becomes of the stdin pipe.  When the call gets to the
    streams, a copy into the stdin pipe is started exactly when the pipe
    is there and the stream configuration has a stdin of its own; the
    pipe is closed at once exactly when it is there, the stream
    configuration has no stdin, and the streams are those of a container
    without a pseudo-terminal; for an exec the pipe is never closed. *)
Theorem attach_stdin p id iop c s p0 cfg :
  attaches getExecConfig StartLogging p id c s p0 ->
  streams p !! s = Some cfg ->
  exists new,
    acts (snd (AttachStreams getExecConfig StartLogging id iop p)) = acts p ++ new /\
    (forall source pipe,
       CopyStdin source pipe ∈ started new <->
       stdin cfg = Some source /\ Stdin iop = Some pipe) /\
    (forall pipe,
       pipe ∈ closed new <->
       Stdin iop = Some pipe /\ stdin cfg = None /\
       exists cid, c = Some cid /\ tty_of p cid = false) /\
    (c = None -> closed new = []).
Proof.
  intros Henter Hs.
  rewrite (attach_enters p id iop c s p0 Henter).
  destruct (attaches_streams p id c s p0 Henter) as (Hstreams & Hacts & Htty).
  rewrite <- Hstreams in Hs.
  destruct (pump_run id c s iop p0 cfg Hs) as (_ & Hnew & _).
  cbn zeta in Hnew. rewrite Hacts, Htty in Hnew.
  eexists. split; [exact Hnew|].
  destruct (stdin cfg) as [source0|], (Stdin iop) as [pipe0|], c as [cid|],
    (Stdout iop), (Stderr iop); cbn;
    try destruct (tty_of p cid) eqn:Ht; cbn;
    (split; [intros source pipe; rewrite ?elem_of_cons, ?elem_of_nil;
             split; [intros H; repeat destruct H as [H|H]; try discriminate;
                     try contradiction; try (injection H as -> ->; auto)
                    |intros [H1 H2]; try discriminate;
                     try (injection H1 as ->; injection H2 as ->; auto)]|]);
    (split; [intros pipe; rewrite ?elem_of_cons, ?elem_of_nil;
             split; [intros H; repeat destruct H as [H|H]; try contradiction;
                     try (subst; repeat split; eauto)
                    |intros (H1 & H2 & cid' & H3 & H4); try discriminate;
                     try (injection H1 as ->; injection H3 as ->);
                     try congruence; auto]|]);
    first [reflexivity | discriminate].
Qed.

End AttachFacts.

Section MoreDaemonChecks.
Import libcontainerd container Daemon Journald Attach.

Lemma restart_counts_and_persists_witness :
  let d' := snd (StateChanged "linux" Sample.web_id Sample.restarting Sample.daemon) in
  fst (StateChanged "linux" Sample.web_id Sample.restarting Sample.daemon)
  = Returned None /\
  (RestartCount <$> containers Sample.daemon !! Sample.web_id) = Some 0 /\
  (RestartCount <$> containers d' !! Sample.web_id) = Some 1 /\
  (phase <$> containers d' !! Sample.web_id)
  = Some (Restarting {| container.ExitCode := 1; container.OOMKilled := false |}) /\
  (LogDriver <$> containers d' !! Sample.web_id) = Some None /\
  driver_calls (trace d') = [] /\
  (EvCleanup Sample.web_id ∉ trace d') /\
  sends (world d')
  = sends Sample.flooded_host ++ [dropped_entry Sample.flooded_driver 2].
Proof.
  intros d'.
  pose proof (restart_counts_and_persists "linux" Sample.daemon Sample.web_id
                Sample.restarting Sample.web_container eq_refl eq_refl)
    as (Hret & Htrace & Hcont & _ & Hdrv).
  change (LogDriver Sample.web_container ≫=
            (fun l => drivers Sample.daemon !! l ≫= (fun s => Some (l, s))))
    with (Some (7%nat, Sample.flooded_driver)) in Hdrv.
  destruct Hdrv as [_ Hworld].
  fold d' in Htrace, Hcont, Hworld.
  split; [exact Hret|]. split; [reflexivity|].
  rewrite Hcont, Htrace, Hworld.
  split; [reflexivity|]. split; [reflexivity|]. split; [reflexivity|].
  split; [reflexivity|]. split; [|vm_compute; reflexivity].
  cbn. intros Hin.
  repeat (apply elem_of_cons in Hin as [Hin | Hin]; [discriminate|]).
  inversion Hin.
Defined.

Lemma exec_exit_retires_exec_witness :
  let d' := snd (StateChanged "linux" Sample.web_id Sample.exec_exited Sample.exec_daemon) in
  fst (StateChanged "linux" Sample.web_id Sample.exec_exited Sample.exec_daemon)
  = Returned None /\
  execs d' !! 3%nat = Some (exec.mkConfig "e1" false (Some 2)) /\
  (ExecCommands <$> containers d' !! Sample.web_id) = Some ∅ /\
  EvLogrus ErrorLevel "%s: %s"
    [ArgString Sample.web_id; ArgError "close: bad file descriptor"] ∈ trace d'.
Proof.
  intros d'.
  pose proof (exec_exit_retires_exec "linux" Sample.exec_daemon Sample.web_id
                Sample.exec_exited Sample.web_with_exec 3%nat
                (exec.mkConfig "e1" true None) eq_refl eq_refl eq_refl eq_refl)
    as (Hret & Hexec & Hcont & Htrace & _).
  fold d' in Hexec, Hcont, Htrace.
  split; [exact Hret|]. split; [exact Hexec|].
  split; [rewrite Hcont; reflexivity|].
  rewrite Htrace. cbn.
  do 3 apply list_elem_of_further. apply list_elem_of_here.
Defined.

Lemma unknown_exec_is_ignored_witness :
  StateChanged "linux" Sample.web_id Sample.ghost_exited Sample.exec_daemon
  = (Returned None,
     with_trace
       [EvLock Sample.web_id;
        EvLogrus WarnLevel
          "Ignoring StateExitProcess for %v but no exec command found"
          [ArgStateInfo Sample.ghost_exited];
        EvUnlock Sample.web_id] Sample.exec_daemon).
Proof.
  apply (unknown_exec_is_ignored "linux" Sample.exec_daemon Sample.web_id
           Sample.ghost_exited Sample.web_with_exec); reflexivity.
Defined.

Lemma pause_then_resume_witness :
  let d1 := snd (StateChanged "linux" Sample.web_id Sample.pausing Sample.daemon) in
  let d2 := snd (StateChanged "linux" Sample.web_id Sample.resuming d1) in
  (Paused <$> containers d1 !! Sample.web_id) = Some true /\
  containers d2 = containers Sample.daemon /\
  disk_writes d2 = 0%nat.
Proof.
  intros d1 d2.
  pose proof (pause_then_resume "linux" Sample.daemon Sample.web_id
                Sample.pausing Sample.resuming Sample.web_container
                eq_refl eq_refl eq_refl)
    as (_ & _ & H1 & _ & _ & Hdisk & Hsame).
  fold d1 in H1. fold d1 d2 in Hdisk, Hsame.
  split; [rewrite H1; reflexivity|].
  split; [apply Hsame; reflexivity | exact Hdisk].
Defined.

Lemma quiet_notifications_witness :
  StateChanged "linux" "nobody" Sample.killed Sample.daemon
  = (Returned (Some "no such container: nobody"), Sample.daemon) /\
  exists err,
    StateChanged "windows" Sample.web_id
      (Sample.notification StateOOM 0 EmptyString) Sample.daemon
    = (Returned (Some err), Sample.daemon).
Proof.
  split.
  - apply (proj1 (quiet_notifications "linux" Sample.daemon "nobody" Sample.killed)).
    reflexivity.
  - apply (proj1 (proj2 (proj2 (quiet_notifications "windows" Sample.daemon Sample.web_id
                                  (Sample.notification StateOOM 0 EmptyString))))
             Sample.web_container); reflexivity.
Defined.

Lemma second_exit_panics_witness :
  let d1 := snd (StateChanged "linux" Sample.web_id Sample.killed Sample.daemon) in
  fst (StateChanged "linux" Sample.web_id Sample.killed d1)
  = Panicked "nil pointer dereference" /\
  trace (snd (StateChanged "linux" Sample.web_id Sample.killed d1))
  = trace d1 ++ [EvLock Sample.web_id; EvWait Sample.web_id;
                 EvReset Sample.web_id false; EvUnlock Sample.web_id].
Proof.
  pose (w1 := push_send (dropped_entry Sample.flooded_driver 2) Sample.flooded_host).
  pose (w2 := push_send (mkEntry (stopMessage Sample.killed) PriWarning
                           (eVars Sample.flooded_driver)) w1).
  assert (Htear : teardown Sample.daemon Sample.web_id Sample.flooded_driver
                    (world Sample.daemon)
                  = (Sample.flooded_driver, w1)) by (vm_compute; reflexivity).
  assert (Hlog : logger_Log {| Line := stopMessage Sample.killed; Source := "event" |}
                   Sample.flooded_driver w1
                 = (Returned (None, Sample.flooded_driver), w2))
    by (vm_compute; reflexivity).
  apply (second_exit_panics (driver := journald_Logger)
           "linux" Sample.daemon Sample.web_id Sample.killed
           Sample.killed Sample.web_container 7%nat Sample.flooded_driver
           Sample.flooded_driver w1 None Sample.flooded_driver w2
           eq_refl eq_refl eq_refl eq_refl Htear Hlog eq_refl).
Defined.

Lemma attach_refused_starts_nothing_witness :
  AttachStreams Sample.no_exec Sample.logging_starts "nobody" Sample.pipes Sample.web_pump
  = (Returned (Some "no such exec/container: nobody"), Sample.web_pump) /\
  acts (snd (AttachStreams Sample.no_exec Sample.logging_fails Sample.web_id
               Sample.pipes Sample.web_pump)) = [] /\
  fst (AttachStreams Sample.no_exec Sample.logging_fails Sample.web_id
         Sample.pipes Sample.web_pump)
  = Returned (Some "failed to initialize logging driver").
Proof.
  split.
  - apply (proj1 (attach_refused_starts_nothing Sample.no_exec Sample.logging_starts
                    Sample.web_pump "nobody" Sample.pipes) eq_refl
             "no such exec" eq_refl).
  - rewrite (proj2 (attach_refused_starts_nothing Sample.no_exec Sample.logging_fails
                      Sample.web_pump Sample.web_id Sample.pipes)
               Sample.web_container "failed to initialize logging driver"
               Sample.daemon eq_refl eq_refl).
    split; reflexivity.
Defined.

Lemma attach_counts_output_copies_witness :
  let p' := snd (AttachStreams Sample.no_exec Sample.logging_starts Sample.web_id
                   Sample.pipes Sample.web_pump) in
  (pending <$> streams p' !! 1%nat) = Some 2 /\
  forall ends new,
    acts p' = acts Sample.web_pump ++ new ->
    map fst ends ≡ₚ started new ->
    (pending <$> streams (foldr complete p' ends) !! 1%nat) = Some 0.
Proof.
  intros p'.
  pose proof (attach_counts_output_copies Sample.no_exec Sample.logging_starts
                Sample.web_pump Sample.web_id Sample.pipes (Some Sample.web_id)
                1%nat (with_daemon Sample.daemon Sample.web_pump)
                (mkStreamConfig None 10 11 0)) as H.
  destruct H as (_ & _ & Hpend & Hback).
  - right. exists Sample.daemon. repeat split. eexists. reflexivity.
  - reflexivity.
  - fold p' in Hpend, Hback. split; [exact Hpend | exact Hback].
Defined.

Lemma attach_stdin_witness :
  exists new,
    acts (snd (AttachStreams Sample.no_exec Sample.logging_starts Sample.web_id
                 Sample.pipes Sample.web_pump)) = new /\
    closed new = [20%nat] /\
    (20%nat ∈ closed new <->
     Stdin Sample.pipes = Some 20%nat /\ stdin (mkStreamConfig None 10 11 0) = None /\
     exists cid, Some Sample.web_id = Some cid /\ tty_of Sample.web_pump cid = false).
Proof.
  destruct (attach_stdin Sample.no_exec Sample.logging_starts
              Sample.web_pump Sample.web_id Sample.pipes (Some Sample.web_id)
              1%nat (with_daemon Sample.daemon Sample.web_pump)
              (mkStreamConfig None 10 11 0)) as (new & Hnew & _ & Hclosed & _).
  - right. exists Sample.daemon. repeat split. eexists. reflexivity.
  - reflexivity.
  - exists new. cbn [app acts Sample.web_pump] in Hnew. split; [exact Hnew|].
    split; [|apply Hclosed].
    rewrite <- Hnew. reflexivity.
Defined.

(** The streams of the exec "e1" have a stdin of their own: the pipe is
    copied into, not closed. *)
Example sample_attach_exec :
  let p' := snd (AttachStreams Sample.one_exec Sample.logging_starts "e1"
                   Sample.pipes Sample.web_pump) in
  acts p'
  = [ActGo (CopyStdin 12 20);
     ActAdd 2 1; ActGo (CopyOutput "e1" 2 13 21);
     ActAdd 2 1; ActGo (CopyOutput "e1" 2 14 22)] /\
  closed (acts p') = [].
Proof. split; reflexivity. Qed.

End MoreDaemonChecks.

(** ** The two revisions of the driver *)

Section RevisionFacts.
Import Journald.

Variable Atoi : string -> res Z.
Variable ParseDuration : string -> res Z.
Variable ParseLogTag : Context -> string -> res string.
Variable ExtraAttributes : Context -> (string -> string) -> gmap string string.
Variable ToTitle : string -> string.

(** X25: without a limiter the driver logs as it did before rate
    limiting.  For a driver that has no limiter, and for an event
    message on any driver, Log of the later revision hands the journal
    the entry that Log of the earlier revision hands it, returns the same
    error and leaves the driver as it was. *)
Theorem Log_as_before_without_limiter (msg : Message) (s : journald) (h : Host) :
  rateLimit s = None \/ Source msg = "event" ->
  Log msg s h
  = (let '(out, h') := JournaldV0.Log msg (JournaldV0.forget s) h in
     match out with
     | Returned err => (Returned (err, s), h')
     | Panicked why => (Panicked why, h')
     end).
Proof.
  intros Hcase. unfold Log, JournaldV0.Log, forward.
  destruct (String.eqb (Source msg) "event") eqn:Hev.
  - reflexivity.
  - destruct Hcase as [Hnone | Hsrc].
    + rewrite Hnone. destruct (String.eqb (Source msg) "stderr"); reflexivity.
    + apply String.eqb_neq in Hev. contradiction.
Qed.

(** X26: the later constructor extends the earlier one.  On every
    context and host New of the later revision ends as New of the earlier
    revision does: with the same error, with the same panic, or with a
    driver that is the earlier one plus a limiter; the later revision
    differs on the host by the one line that it may write to the
    diagnostic log about the rate-limit labels. *)
Theorem New_extends_the_earlier_New (ctx : Context) (h : Host) :
  exists lines,
    snd (Journald.New Atoi ParseDuration ParseLogTag ExtraAttributes ToTitle ctx h)
    = advance 0 [] lines h /\
    snd (JournaldV0.New ParseLogTag ExtraAttributes ToTitle ctx h) = h /\
    match fst (Journald.New Atoi ParseDuration ParseLogTag ExtraAttributes ToTitle ctx h) with
    | Returned (ok s) =>
        fst (JournaldV0.New ParseLogTag ExtraAttributes ToTitle ctx h)
        = Returned (ok (JournaldV0.forget s))
    | Returned (fail err) =>
        fst (JournaldV0.New ParseLogTag ExtraAttributes ToTitle ctx h)
        = Returned (fail err) /\ lines = []
    | Panicked why =>
        fst (JournaldV0.New ParseLogTag ExtraAttributes ToTitle ctx h)
        = Panicked why /\ lines = []
    end.
Proof.
  unfold Journald.New, JournaldV0.New, bind, get, ret, strip_leading_slash,
    slice_to, panic.
  assert (Hnil : h = advance 0 [] [] h) by (symmetry; apply advance_nothing).
  destruct (journal_enabled h); cbn -[Nat.leb substring];
    [|exists []; repeat split; exact Hnil].
  destruct (ContainerName ctx) as [|c rest]; cbn -[Nat.leb substring];
    [exists []; repeat split; exact Hnil|].
  destruct (ParseLogTag ctx "") as [tag|e]; cbn -[Nat.leb substring];
    [|exists []; repeat split; exact Hnil].
  destruct (12 <=? String.length (ContainerID ctx))%nat; cbn -[Nat.leb substring];
    [|exists []; repeat split; exact Hnil].
  destruct (newRateLimit_lines Atoi ParseDuration (ContainerLabels ctx) h)
    as (limiter & lines & E & _).
  rewrite E. cbn -[substring]. exists lines. repeat split.
Qed.

End RevisionFacts.

Section RevisionChecks.
Import Journald.

Lemma Log_as_before_without_limiter_witness :
  Log (Sample.out "one") (set_rateLimit None Sample.web_driver) Sample.host
  = (Returned (None, set_rateLimit None Sample.web_driver),
     push_send (mkEntry "one" PriInfo (vars Sample.web_driver)) Sample.host).
Proof.
  rewrite (Log_as_before_without_limiter (Sample.out "one")
             (set_rateLimit None Sample.web_driver) Sample.host).
  - reflexivity.
  - left. reflexivity.
Defined.

End RevisionChecks.
